(** * Points settlement and odds core of the meteo speculation application

    A shallow embedding of the settlement, odds, boost and trading
    functions of [mood_speculator_v2.py].

    Numbers.  The program computes with Python floats; the embedding
    takes them as exact rationals ([Q]), so binary rounding error is
    outside the model.  The decimal rounding the program asks for
    explicitly ([round(x, 2)], [round(x, 6)], [round(x)]) is modelled by
    [py_round] and [py_round_int] (round half to even, as Python does).

    Tables.  Rows of SQL tables are records; a table is the list of its
    rows in storage order, except [user], which is a finite map from the
    primary key to the row.  Dates are day numbers and instants are
    seconds, both in [Z].  Text columns stay strings.

    Failures.  An exception is modelled, with its handler, where it is
    part of what the program does on a working database: a name the
    module never defines, a statement SQLite refuses, a unique
    constraint that is violated.  Lost connections and failing commits
    are outside the model; so are the pages and the JSON bodies beyond
    the fields named here. *)

From Stdlib Require Import QArith Qround Qminmax Qabs Lqa Ascii.
From stdpp Require Import gmap strings list sorting.

Local Open Scope Q_scope.

(** ** Python numerics *)

Module Py.

(** [round(x)]: nearest integer, ties to the even one. *)
Definition py_round_int (x : Q) : Z :=
  let f := Qfloor x in
  match Qcompare (x - inject_Z f) (1 # 2) with
  | Lt => f
  | Gt => (f + 1)%Z
  | Eq => if Z.even f then f else (f + 1)%Z
  end.

Definition pow10 (nd : nat) : Q := inject_Z (10 ^ Z.of_nat nd).

(** [round(x, nd)]. *)
Definition py_round (x : Q) (nd : nat) : Q :=
  inject_Z (py_round_int (x * pow10 nd)) / pow10 nd.

(** Boolean comparisons on floats. *)
Definition Qltb (a b : Q) : bool := negb (Qle_bool b a).
Definition Qleb (a b : Q) : bool := Qle_bool a b.

(** [x or 0.0] on a nullable float: [None] and [0.0] are both falsy. *)
Definition or_zero (x : option Q) : Q := default 0 x.

(** [str.upper()] on ASCII text. *)
Definition upper_ascii (c : ascii) : ascii :=
  let n := nat_of_ascii c in
  if ((97 <=? n) && (n <=? 122))%nat then ascii_of_nat (n - 32) else c.

Fixpoint upper (s : string) : string :=
  match s with
  | EmptyString => EmptyString
  | String c s' => String (upper_ascii c) (upper s')
  end.

(** [str.strip()] on ASCII text. *)
Fixpoint lstrip (s : string) : string :=
  match s with
  | EmptyString => EmptyString
  | String c s' => if Ascii.is_space c then lstrip s' else s
  end.

Definition strip (s : string) : string :=
  String.rev (lstrip (String.rev (lstrip s))).

(** SQL [TRIM(x) <> '']: [TRIM] removes spaces only. *)
Fixpoint all_spaces (s : string) : bool :=
  match s with
  | EmptyString => true
  | String c s' => bool_decide (c = " "%char) && all_spaces s'
  end.

(** First row in ascending, respectively descending, order of [key]. *)
Definition first_asc {A} (key : A -> Z) (l : list A) : option A :=
  foldl (fun acc x =>
           match acc with
           | None => Some x
           | Some m => if (key x <? key m)%Z then Some x else Some m
           end) None l.

Definition first_desc {A} (key : A -> Z) (l : list A) : option A :=
  first_asc (fun x => (- key x)%Z) l.

(** Outcome of a call that may raise. *)
Inductive Exn := NameError | OperationalError | IntegrityError.

Inductive result (A : Type) :=
| Return (a : A)
| Raise (e : Exn).
Arguments Return {A} a.
Arguments Raise {A} e.

End Py.
Import Py.

(** ** Fixed odds table *)

(** [PPP_ODDS]: offset in days to base odds; offset 0 maps to [None]. *)
Definition PPP_ODDS : list (Z * option Q) :=
  [
    (0%Z, None); (1%Z, Some (10 # 10)); (2%Z, Some (10 # 10));
    (3%Z, Some (11 # 10)); (4%Z, Some (12 # 10)); (5%Z, Some (13 # 10));
    (6%Z, Some (14 # 10)); (7%Z, Some (15 # 10)); (8%Z, Some (16 # 10));
    (9%Z, Some (17 # 10)); (10%Z, Some (18 # 10)); (11%Z, Some (20 # 10));
    (12%Z, Some (20 # 10)); (13%Z, Some (20 # 10)); (14%Z, Some (20 # 10));
    (15%Z, Some (20 # 10)); (16%Z, Some (20 # 10)); (17%Z, Some (20 # 10));
    (18%Z, Some (20 # 10)); (19%Z, Some (25 # 10)); (20%Z, Some (25 # 10));
    (21%Z, Some (24 # 10)); (22%Z, Some (23 # 10)); (23%Z, Some (22 # 10));
    (24%Z, Some (22 # 10)); (25%Z, Some (20 # 10)); (26%Z, Some (21 # 10));
    (27%Z, Some (24 # 10)); (28%Z, Some (27 # 10)); (29%Z, Some (28 # 10));
    (30%Z, Some (29 # 10)); (31%Z, Some (30 # 10))
  ].

(** [dict.get(k, None)] on an association list with distinct keys. *)
Fixpoint dict_get {V} (d : list (Z * V)) (k : Z) : option V :=
  match d with
  | [] => None
  | (k', v) :: d' => if (k' =? k)%Z then Some v else dict_get d' k
  end.

Definition ppp_odds_for_offset (d : Z) : option Q :=
  mjoin (dict_get PPP_ODDS d).


(** ** Tables *)

(** [user]: [u_points] is [None] when the column is NULL or cannot be
    read; [bonus_points] is an optional column. *)
Record User := {
  u_points : option Q;
  u_bonus_points : option Q;
  u_bolts : option Z;
}.

(** Stored [target_dt] text of a directional wager: its first ten
    characters as a date, and the instant [_to_utc_iso] makes of it
    ([None] when it cannot be parsed). *)
Record TargetDt := {
  td_date_key : Z;
  td_utc : option Z;
}.

Record PPPBet := {
  pb_id : Z;
  pb_user_id : Z;
  pb_bet_date : Z;
  pb_choice : string;
  pb_amount : Q;
  pb_odds : Q;
  pb_status : string;
  pb_station_id : option string;
  pb_locked_for_trade : Z;
  pb_funded_from_balance : option Z;
  pb_target_time : option string;
  pb_target_dt : option TargetDt;
  pb_preset_outcome : option string;
  pb_verdict : option string;
  pb_outcome : option string;
  pb_observed_mm : option Q;
  pb_observed_at : option Z;
  pb_resolved_at : option Z;
}.

Record WetBet := {
  wb_id : Z;
  wb_user_id : Z;
  wb_slot_dt : Z;
  wb_target_pct : Z;
  wb_amount : Q;
  wb_odds : Q;
  wb_status : string;
  wb_observed_pct : option Z;
  wb_outcome : option string;
  wb_payout : option Q;
  wb_resolved_at : option Z;
}.

Record HumidityObservation := {
  ho_station_id : string;
  ho_obs_time : Z;
  ho_humidity : Q;
}.

Record MeteoObs := {
  mo_station_id : string;
  mo_ts_utc : Z;
  mo_rain_mm : option Q;
  mo_code : option Z;
}.

Record PPPBoost := {
  bo_user_id : Z;
  bo_bet_date : Z;
  bo_station_id : option string;
  bo_value : Q;
}.

Record BetListing := {
  bl_id : Z;
  bl_user_id : Z;
  bl_status : string;
  bl_ask_price : option Q;
  bl_payload_ask_price : option Q;
  bl_payload_bet_id : option Z;
  bl_buyer_id : option Z;
  bl_sale_price : option Q;
  bl_sold_at : option Z;
}.

Record ArtBet := {
  ab_user_id : Z;
  ab_amount : Q;
  ab_payout : Q;
}.

(** Unique indexes carried by the [ppp_boosts] table.  [db.create_all()]
    declares [uq_pppboost_user_date] (the model's [__table_args__]); the
    migration block, run only under [RUN_MIGRATIONS=1], creates
    [uq_pppboost_user_date_station]. *)
Record BoostSchema := {
  uq_pppboost_user_date : bool;
  uq_pppboost_user_date_station : bool;
}.

Record DB := {
  users : gmap Z User;
  ppp_bet_rows : list PPPBet;  (* table ppp_bet *)
  wet_bets : list WetBet;
  humidity_obs : list HumidityObservation;
  meteo_obs_hourly : list MeteoObs;
  ppp_boosts : list PPPBoost;
  ppp_boosts_schema : BoostSchema;
  bet_listing : list BetListing;
  art_bets : list ArtBet;
}.

Definition set_users (f : gmap Z User -> gmap Z User) (s : DB) : DB :=
  {| users := f (users s); ppp_bet_rows := ppp_bet_rows s; wet_bets := wet_bets s;
     humidity_obs := humidity_obs s; meteo_obs_hourly := meteo_obs_hourly s;
     ppp_boosts := ppp_boosts s; ppp_boosts_schema := ppp_boosts_schema s;
     bet_listing := bet_listing s; art_bets := art_bets s |}.

Definition set_ppp_bet_rows (f : list PPPBet -> list PPPBet) (s : DB) : DB :=
  {| users := users s; ppp_bet_rows := f (ppp_bet_rows s); wet_bets := wet_bets s;
     humidity_obs := humidity_obs s; meteo_obs_hourly := meteo_obs_hourly s;
     ppp_boosts := ppp_boosts s; ppp_boosts_schema := ppp_boosts_schema s;
     bet_listing := bet_listing s; art_bets := art_bets s |}.

Definition set_wet_bets (f : list WetBet -> list WetBet) (s : DB) : DB :=
  {| users := users s; ppp_bet_rows := ppp_bet_rows s; wet_bets := f (wet_bets s);
     humidity_obs := humidity_obs s; meteo_obs_hourly := meteo_obs_hourly s;
     ppp_boosts := ppp_boosts s; ppp_boosts_schema := ppp_boosts_schema s;
     bet_listing := bet_listing s; art_bets := art_bets s |}.

Definition set_ppp_boosts (f : list PPPBoost -> list PPPBoost) (s : DB) : DB :=
  {| users := users s; ppp_bet_rows := ppp_bet_rows s; wet_bets := wet_bets s;
     humidity_obs := humidity_obs s; meteo_obs_hourly := meteo_obs_hourly s;
     ppp_boosts := f (ppp_boosts s); ppp_boosts_schema := ppp_boosts_schema s;
     bet_listing := bet_listing s; art_bets := art_bets s |}.

Definition set_bet_listing (f : list BetListing -> list BetListing) (s : DB) : DB :=
  {| users := users s; ppp_bet_rows := ppp_bet_rows s; wet_bets := wet_bets s;
     humidity_obs := humidity_obs s; meteo_obs_hourly := meteo_obs_hourly s;
     ppp_boosts := ppp_boosts s; ppp_boosts_schema := ppp_boosts_schema s;
     bet_listing := f (bet_listing s); art_bets := art_bets s |}.

(** SQL [SUM] over the selected rows. *)
Definition sumQ (l : list Q) : Q := foldr Qplus 0 l.

Definition sum_where {A} (P : A -> bool) (f : A -> Q) (t : list A) : Q :=
  sumQ (f <$> filter (fun r => P r = true) t).

(** [COALESCE(station_id, '')]. *)
Definition coalesce_sid (sid : option string) : string := default "" sid.

(** ** Balance ledger *)

Definition BUDGET_INITIAL : Q := 500.

(** What the program reads from outside the database: the environment
    variable [POINTS_RECONCILE] (true for ["1"]); the time zone
    database, as the conversions between the Europe/Paris wall clock and
    UTC, with [ppp_target_utc d hhmm] for [_parse_local_iso_to_utc_iso]
    on the text [d || 'T' || hhmm] ([None] when it raises); and the two
    weather services of the odds engine, by station and target date:
    the 20-year rain frequency and the forecast signal. *)
Record Env := {
  POINTS_RECONCILE : bool;
  paris_to_utc : Z -> Z;
  utc_to_paris : Z -> Z;
  ppp_target_utc : Z -> string -> option Z;
  _hist_prob_pluie_for_mmdd : string -> Z -> option Q;
  ppp_forecast_signal_for_day : string -> Z -> option string;
}.

Definition is_status (st : string) (x : string) : bool := bool_decide (x = st).

Definition ppp_active_funded (s : DB) (uid : Z) : Q :=
  sum_where (fun b => (pb_user_id b =? uid)%Z && is_status "ACTIVE" (pb_status b)
                      && (default 1%Z (pb_funded_from_balance b) =? 1)%Z)
            pb_amount (ppp_bet_rows s).

Definition wet_active (s : DB) (uid : Z) : Q :=
  sum_where (fun b => (wb_user_id b =? uid)%Z && is_status "ACTIVE" (wb_status b))
            wb_amount (wet_bets s).

Definition wet_won (s : DB) (uid : Z) : Q :=
  sum_where (fun b => (wb_user_id b =? uid)%Z && is_status "RESOLVED" (wb_status b))
            (fun b => or_zero (wb_payout b)) (wet_bets s).

(** [_sum_price_generic]: the sum of [sale_price], or when that is not
    positive the sum of the payloads' [ask_price]. *)
Definition _sum_price_generic (where_ : BetListing -> bool) (t : list BetListing) : Q :=
  let v := sum_where where_ (fun l => or_zero (bl_sale_price l)) t in
  if Qltb 0 v then v
  else sum_where where_ (fun l => or_zero (bl_payload_ask_price l)) t.

Definition _sum_trade_spent (s : DB) (uid : Z) : Q :=
  _sum_price_generic
    (fun l => is_status "SOLD" (bl_status l) && bool_decide (bl_buyer_id l = Some uid))
    (bet_listing s).

(** The second query of [_sum_trade_earned] filters on [seller_id], a
    column [bet_listing] does not have: both of its statements raise and
    [_sum_price_generic] answers [0.0]. *)
Definition _sum_trade_earned (s : DB) (uid : Z) : Q :=
  let val := _sum_price_generic
               (fun l => is_status "SOLD" (bl_status l) && (bl_user_id l =? uid)%Z)
               (bet_listing s) in
  if Qltb 0 val then val else 0.

Definition art_net (s : DB) (uid : Z) : Q :=
  sum_where (fun a => (ab_user_id a =? uid)%Z) (fun a => ab_payout a - ab_amount a)
            (art_bets s).

Definition points_now (s : DB) (uid : Z) : option Q :=
  users s !! uid ≫= u_points.

Definition bonus_now (s : DB) (uid : Z) : Q :=
  or_zero (users s !! uid ≫= u_bonus_points).

Definition ledger_points (s : DB) (uid : Z) : Q :=
  Qmax 0 (py_round (500 - ppp_active_funded s uid - wet_active s uid
                    + wet_won s uid - _sum_trade_spent s uid
                    + _sum_trade_earned s uid + art_net s uid
                    + bonus_now s uid) 6).

(** [remaining_points(user)]; [uid = 0] stands for a missing user or a
    falsy id. *)
Definition remaining_points (env : Env) (s : DB) (uid : Z) : Q :=
  if (uid =? 0)%Z then 0
  else
    match points_now s uid with
    | Some p =>
        let points_with_bonus := p + bonus_now s uid in
        if POINTS_RECONCILE env
           && Qltb (1 # 2) (Qabs (points_with_bonus - ledger_points s uid))
        then ledger_points s uid
        else points_with_bonus
    | None => ledger_points s uid
    end.

(** ** Hourly (Wet) wagers: resolution *)

Definition floor_hour (t : Z) : Z := (t / 3600 * 3600)%Z.

(** [get_observed_humidity_paris]: first observation in
    [slot, slot + 59m59s], else the latest one not after the window. *)
Definition get_observed_humidity_paris (env : Env) (s : DB) (slot_dt : Z)
    (station_id : string) : option Q :=
  let start_utc := paris_to_utc env slot_dt in
  let end_utc := (start_utc + 3599)%Z in
  let win := first_asc ho_obs_time
               (filter (fun o => ho_station_id o = station_id
                                 ∧ (start_utc ≤ ho_obs_time o)%Z
                                 ∧ (ho_obs_time o ≤ end_utc)%Z)
                       (humidity_obs s)) in
  match win with
  | Some o => Some (ho_humidity o)
  | None =>
      let fb := first_desc ho_obs_time
                  (filter (fun o => ho_station_id o = station_id
                                    ∧ (ho_obs_time o ≤ end_utc)%Z)
                          (humidity_obs s)) in
      ho_humidity <$> fb
  end.

(** The module calls [credit_points(user, payout)] but defines no such
    name (only a nested [credit_points_exact] elsewhere): the call
    raises [NameError]. *)
Definition credit_points (s : DB) (uid : Z) (payout : Q) : result DB :=
  Raise NameError.

(** The EXACT / WIN / LOSE decision on the rounded observation. *)
Definition wet_decision (bet : WetBet) (observed : Q) : Z * string * Q :=
  let target := wb_target_pct bet in
  let obs_pct := py_round_int observed in
  let diff := Z.abs (obs_pct - target) in
  if (obs_pct =? target)%Z then (obs_pct, "EXACT", wb_amount bet * wb_odds bet * 2)
  else if (diff <=? 3)%Z then (obs_pct, "WIN", wb_amount bet * wb_odds bet)
  else (obs_pct, "LOSE", 0).

Definition wet_mark_resolved (bet : WetBet) (obs_pct : Z) (outcome : string)
    (payout : Q) (now : Z) : WetBet :=
  {| wb_id := wb_id bet; wb_user_id := wb_user_id bet;
     wb_slot_dt := wb_slot_dt bet; wb_target_pct := wb_target_pct bet;
     wb_amount := wb_amount bet; wb_odds := wb_odds bet;
     wb_status := "RESOLVED";
     wb_observed_pct := Some obs_pct; wb_outcome := Some outcome;
     wb_payout := Some payout; wb_resolved_at := Some now |}.

(** One turn of the loop: the attribute writes happen first and stay in
    the session when the crediting call raises, because the handler only
    logs. *)
Definition resolve_wet_bet (env : Env) (station_id : string) (now : Z) (uid : Z)
    (s : DB) (bet : WetBet) : DB :=
  match get_observed_humidity_paris env s (wb_slot_dt bet) station_id with
  | None => s
  | Some observed =>
      let '(obs_pct, outcome, payout) := wet_decision bet observed in
      let bet' := wet_mark_resolved bet obs_pct outcome payout now in
      let s1 := set_wet_bets
                  (fmap (fun b => if (wb_id b =? wb_id bet)%Z then bet' else b)) s in
      if Qltb 0 payout then
        match credit_points s1 uid payout with
        | Return s2 => s2
        | Raise _ => s1
        end
      else s1
  end.

(** [ORDER BY slot_dt ASC]. *)
Definition slot_le (a b : WetBet) : Prop := (wb_slot_dt a ≤ wb_slot_dt b)%Z.

#[local] Instance slot_le_dec : RelDecision slot_le.
Proof. intros a b. unfold slot_le. apply _. Defined.

Definition due_wet_bets (env : Env) (s : DB) (uid : Z) (now : Z) : list WetBet :=
  let now_paris := floor_hour (utc_to_paris env now) in
  merge_sort slot_le
    (filter (fun b => wb_user_id b = uid ∧ wb_status b = "ACTIVE"
                      ∧ (wb_slot_dt b ≤ now_paris)%Z)
            (wet_bets s)).

(** [resolve_due_wet_bets(user, now, station_id)]. *)
Definition resolve_due_wet_bets (env : Env) (s : DB) (uid : Z) (now : Z)
    (station_id : string) : DB :=
  if (uid =? 0)%Z then s
  else foldl (resolve_wet_bet env station_id now uid) s (due_wet_bets env s uid now).

(** ** Directional (PPP) wagers: resolution *)

(** The [CASE] of [_first_observation_after]: effective millimetres. *)
Definition mm_eff (o : MeteoObs) : Q :=
  match mo_rain_mm o with
  | Some mm => if Qleb 0 mm then mm else 0
  | None =>
      match mo_code o with
      | Some c => if (60 <=? c)%Z then 1 # 10 else 0
      | None => 0
      end
  end.

Definition first_obs_for (s : DB) (sid : string) (utc_from : Z) : option MeteoObs :=
  first_asc mo_ts_utc
    (filter (fun o => mo_station_id o = sid ∧ (utc_from ≤ mo_ts_utc o)%Z)
            (meteo_obs_hourly s)).

(** [for s in candidates: ... if row: return ...]. *)
Fixpoint first_some {A B} (f : A -> option B) (l : list A) : option B :=
  match l with
  | [] => None
  | c :: l' => match f c with Some o => Some o | None => first_some f l' end
  end.

(** [_first_observation_after]: the observation instant and [mm]. *)
Definition _first_observation_after (s : DB) (station_id : string) (utc_from : Z)
    : option (Z * Q) :=
  let sid := strip station_id in
  let candidates := if bool_decide (sid = "") then ["lfpg_95"; "lfpg_75"] else [sid] in
  (fun o => (mo_ts_utc o, mm_eff o)) <$>
    first_some (fun c => first_obs_for s c utc_from) candidates.

(** The wager's target text [COALESCE(target_dt, bet_date || 'T' ||
    COALESCE(target_time, '18:00'))]: its instant and its date key
    ([tloc[:10]]). *)
Definition target_utc (env : Env) (r : PPPBet) : option Z :=
  match pb_target_dt r with
  | Some td => td_utc td
  | None => ppp_target_utc env (pb_bet_date r) (default "18:00" (pb_target_time r))
  end.

Definition date_key (r : PPPBet) : Z :=
  match pb_target_dt r with
  | Some td => td_date_key td
  | None => pb_bet_date r
  end.

Definition is_choice (c : string) : bool :=
  bool_decide (c = "PLUIE") || bool_decide (c = "PAS_PLUIE").

Definition verdict_of (outcome choice : string) : string :=
  if bool_decide (outcome = choice) then "WIN" else "LOSE".

(** What a resolver decides for one selected row: a verdict from the
    preset outcome, or a verdict from an observation. *)
Inductive Resolution :=
| FromPreset (verdict : string)
| FromObservation (obs_at : Z) (mm : Q) (outcome verdict : string).

Definition resolution_verdict (res : Resolution) : string :=
  match res with
  | FromPreset v => v
  | FromObservation _ _ _ v => v
  end.

(** The two [UPDATE ppp_bet ... WHERE id = :bid] statements. *)
Definition apply_resolution (res : Resolution) (now : Z) (b : PPPBet) : PPPBet :=
  {| pb_id := pb_id b; pb_user_id := pb_user_id b; pb_bet_date := pb_bet_date b;
     pb_choice := pb_choice b; pb_amount := pb_amount b; pb_odds := pb_odds b;
     pb_status := "RESOLVED";
     pb_station_id := pb_station_id b;
     pb_locked_for_trade := pb_locked_for_trade b;
     pb_funded_from_balance := pb_funded_from_balance b;
     pb_target_time := pb_target_time b; pb_target_dt := pb_target_dt b;
     pb_preset_outcome := pb_preset_outcome b;
     pb_verdict := Some (resolution_verdict res);
     pb_outcome := match res with
                   | FromPreset _ => pb_outcome b
                   | FromObservation _ _ o _ => Some o
                   end;
     pb_observed_mm := match res with
                       | FromPreset _ => pb_observed_mm b
                       | FromObservation _ mm _ _ => Some mm
                       end;
     pb_observed_at := match res with
                       | FromPreset _ => pb_observed_at b
                       | FromObservation t _ _ _ => Some t
                       end;
     pb_resolved_at := Some now |}.

Definition update_ppp_bet (bid : Z) (res : Resolution) (now : Z) (s : DB) : DB :=
  set_ppp_bet_rows (fmap (fun b => if (pb_id b =? bid)%Z then apply_resolution res now b else b)) s.

(** The decision of the loop body once the row's choice and target
    instant are accepted: [None] leaves the row ACTIVE for a later run. *)
Definition resolve_decision (s : DB) (choice : string) (sid : string)
    (utc_from : Z) (preset : string) : option Resolution :=
  if is_choice preset then Some (FromPreset (verdict_of preset choice))
  else
    match _first_observation_after s sid utc_from with
    | None => None
    | Some (obs_at, mm) =>
        let outcome := if Qltb 0 mm then "PLUIE" else "PAS_PLUIE" in
        Some (FromObservation obs_at mm outcome (verdict_of outcome choice))
    end.

(** [SELECT COALESCE(SUM(value),0) FROM ppp_boosts WHERE ...]. *)
Definition boost_total (s : DB) (uid : Z) (d : Z) (sid : string) : Q :=
  sum_where (fun b => (bo_user_id b =? uid)%Z && (bo_bet_date b =? d)%Z
                      && bool_decide (coalesce_sid (bo_station_id b) = sid))
            bo_value (ppp_boosts s).

(** [UPDATE "user" SET points = COALESCE(points,0) + :p WHERE id = :uid]. *)
Definition add_points (uid : Z) (p : Q) (s : DB) : DB :=
  set_users (alter (fun u => {| u_points := Some (or_zero (u_points u) + p);
                                u_bonus_points := u_bonus_points u;
                                u_bolts := u_bolts u |}) uid) s.

(** The crediting block of [resolve_ppp_open_bets] on a WIN. *)
Definition credit_win (r : PPPBet) (sid : string) (s : DB) : DB :=
  let total := boost_total s (pb_user_id r) (date_key r) sid in
  match list_find (fun b => pb_id b = pb_id r) (ppp_bet_rows s) with
  | Some (_, amt_odds) =>
      let payout := pb_amount amt_odds * (pb_odds amt_odds + total) in
      if Qltb 0 payout then add_points (pb_user_id r) payout s else s
  | None => s
  end.

(** One turn of the loop of [resolve_ppp_open_bets]: the new state and
    whether the row was counted as updated. *)
Definition resolve_open_bet (env : Env) (now : Z) (s : DB) (r : PPPBet) : DB * bool :=
  let sid := coalesce_sid (pb_station_id r) in
  let choice := upper (pb_choice r) in
  if negb (is_choice choice) then (s, false)
  else
    match target_utc env r with
    | None => (s, false)
    | Some utc_from =>
        let preset := strip (upper (default "" (pb_preset_outcome r))) in
        match resolve_decision s choice sid utc_from preset with
        | None => (s, false)
        | Some res =>
            let s1 := update_ppp_bet (pb_id r) res now s in
            (if bool_decide (resolution_verdict res = "WIN")
             then credit_win r sid s1 else s1, true)
        end
    end.




(** [resolve_pending_ppp_bets(max_back_days)]. *)
Definition pending_row (b : PPPBet) : bool :=
  match pb_verdict b with
  | None => true
  | Some v => all_spaces v
  end
  && is_status "ACTIVE" (pb_status b).

Definition pending_rows (s : DB) : list PPPBet :=
  filter (fun b => pending_row b = true) (ppp_bet_rows s).

Definition resolve_pending_bet (env : Env) (now cutoff : Z) (s : DB) (r : PPPBet)
    : DB * bool :=
  let sid := coalesce_sid (pb_station_id r) in
  let choice := upper (upper (pb_choice r)) in
  if negb (is_choice choice) then (s, false)
  else
    match target_utc env r with
    | None => (s, false)
    | Some utc_from =>
        if (now <=? utc_from)%Z || (utc_from <? cutoff)%Z then (s, false)
        else
          let preset := strip (upper (default "" (pb_outcome r))) in
          match resolve_decision s choice sid utc_from preset with
          | None => (s, false)
          | Some res => (update_ppp_bet (pb_id r) res now s, true)
          end
    end.

Definition resolve_pending_ppp_bets (env : Env) (now : Z) (max_back_days : Z)
    (s : DB) : DB * Z :=
  let cutoff := (now - max_back_days * 86400)%Z in
  foldl (fun acc r =>
           let '(s', upd) := resolve_pending_bet env now cutoff acc.1 r in
           (s', if upd then (acc.2 + 1)%Z else acc.2))
        (s, 0%Z) (pending_rows s).

(** ** Odds engine *)

Definition PPP_ODDS_MIN : Q := 1.
Definition PPP_ODDS_MAX : Q := 3.

(** [ppp_validate_can_bet]: the offset and base odds, or the message. *)
Definition ppp_validate_can_bet (target today : Z) : string + (Z * Q) :=
  if (target <? today)%Z then inl "Jour passé."
  else
    let offset := (target - today)%Z in
    if (offset <? 1)%Z then inl "Mise interdite pour aujourd’hui."
    else if (31 <? offset)%Z then inl "Calendrier limité à 31 jours."
    else match ppp_odds_for_offset offset with
         | None => inl "Aucun taux disponible."
         | Some odds => inr (offset, odds)
         end.

(** [_odds_from_prob]: bounded fair odds for rain and for dry. *)
Definition _odds_from_prob (p : Q) : Q * Q :=
  let eps := 1 # 1000000 in
  let pluie := Qmax PPP_ODDS_MIN (Qmin PPP_ODDS_MAX (1 / Qmax p eps)) in
  let dry := Qmax PPP_ODDS_MIN (Qmin PPP_ODDS_MAX (1 / Qmax (1 - p) eps)) in
  (py_round pluie 2, py_round dry 2).

Record CombinedOdds := {
  co_offset : Z;
  co_historical_available : bool;
  co_forecast_signal : option string;
  co_base_odds : Q;
  co_combined_pluie : Q;
  co_combined_pas_pluie : Q;
}.

(** [ppp_combined_odds(station_id, target_date)]: the message of the
    ["error"] entry, or the odds. *)
Definition ppp_combined_odds (env : Env) (today : Z) (station_id : string)
    (target_date : Z) : string + CombinedOdds :=
  match ppp_validate_can_bet target_date today with
  | inl msg => inl msg
  | inr (offset, base_odds) =>
      match _hist_prob_pluie_for_mmdd env station_id target_date with
      | None =>
          let b := py_round base_odds 2 in
          inr {| co_offset := offset; co_historical_available := false;
                 co_forecast_signal := None; co_base_odds := b;
                 co_combined_pluie := b; co_combined_pas_pluie := b |}
      | Some p =>
          let '(odd_hist_pluie, odd_hist_dry) := _odds_from_prob p in
          let predef := base_odds in
          let comb_pluie_std := py_round ((odd_hist_pluie + predef) / 2) 2 in
          let comb_dry_std := py_round ((odd_hist_dry + predef) / 2) 2 in
          let std := {| co_offset := offset; co_historical_available := true;
                        co_forecast_signal := None;
                        co_base_odds := py_round predef 2;
                        co_combined_pluie := comb_pluie_std;
                        co_combined_pas_pluie := comb_dry_std |} in
          if negb ((offset =? 1) || (offset =? 2) || (offset =? 3))%Z then inr std
          else
            match ppp_forecast_signal_for_day env station_id target_date with
            | None => inr std
            | Some signal =>
                let '(forecast_pluie, forecast_pas) :=
                  if bool_decide (signal = "PLUIE") then (1, 2) else (2, 1) in
                let '(k_hist, k_pred, k_fore, denom) :=
                  if (offset =? 1)%Z then (1, 1, 3, 5)
                  else if (offset =? 2)%Z then (1, 1, 2, 4)
                  else (1, 1, 1, 3) in
                let comb_pluie :=
                  (k_hist * odd_hist_pluie + k_pred * predef + k_fore * forecast_pluie)
                  / denom in
                let comb_dry :=
                  (k_hist * odd_hist_dry + k_pred * predef + k_fore * forecast_pas)
                  / denom in
                inr {| co_offset := offset; co_historical_available := true;
                       co_forecast_signal := Some signal;
                       co_base_odds := py_round predef 2;
                       co_combined_pluie := py_round comb_pluie 2;
                       co_combined_pas_pluie := py_round comb_dry 2 |}
            end
      end
  end.

(** ** Directional (PPP) wagers: placement *)

(** A form field after the handler's parsing. *)
Inductive Field (A : Type) :=
| Missing
| Invalid
| Parsed (a : A).
Arguments Missing {A}.
Arguments Invalid {A}.
Arguments Parsed {A} a.

(** The form of [POST /ppp/bet].  [bf_choice] is the field stripped and
    upper-cased; [bf_amount] is [None] when [float()] raises;
    [bf_target_time] is the pair of integers [clamp_hhmm] reads from the
    text (minutes 0 when absent), [None] when [int()] raises. *)
Record BetForm := {
  bf_station_id : string;
  bf_date : Field Z;
  bf_choice : string;
  bf_amount : option Q;
  bf_target_time : option (Z * Z);
}.

Definition digit (n : Z) : ascii := ascii_of_nat (48 + Z.to_nat n).

(** [f"{n:02d}"] for [0 <= n < 100]. *)
Definition fmt02 (n : Z) : string :=
  String (digit (n / 10)) (String (digit (n mod 10)) EmptyString).

Definition clamp_hhmm (raw : option (Z * Z)) : string :=
  match raw with
  | Some (h, m) =>
      let h := Z.max 0 (Z.min 23 h) in
      let m := Z.max 0 (Z.min 59 m) in
      fmt02 h +:+ ":" +:+ fmt02 m
  | None => "18:00"
  end.

(** [s[:5]]. *)
Definition take5 (s : string) : string := String.substring 0 5 s.

Definition b_hhmm (b : PPPBet) : string :=
  take5 (match pb_target_time b with
         | Some t => if bool_decide (t = "") then "18:00" else t
         | None => "18:00"
         end).

Definition existing_bets (s : DB) (uid : Z) (target : Z) (scope : string) : list PPPBet :=
  filter (fun b => pb_user_id b = uid ∧ pb_bet_date b = target
                   ∧ coalesce_sid (pb_station_id b) = scope
                   ∧ pb_status b = "ACTIVE")
         (ppp_bet_rows s).

Definition opposite_choice (choice : string) : string :=
  if bool_decide (choice = "PLUIE") then "PAS_PLUIE" else "PLUIE".

Definition hours_set (bets : list PPPBet) : gset string :=
  list_to_set (b_hhmm <$> bets).

(** Captured odds: the combined odds for the choice, else the base
    odds, else (any failure) 1.0. *)
Definition captured_odds (env : Env) (today : Z) (scope : string) (target : Z)
    (choice : string) : Q :=
  match ppp_combined_odds env today scope target with
  | inl _ => 1
  | inr comb =>
      let pick := if bool_decide (choice = "PLUIE")
                  then co_combined_pluie comb else co_combined_pas_pluie comb in
      let final_odds :=
        if Qeq_bool pick 0 then co_base_odds comb else pick in
      if Qltb 0 final_odds then final_odds else 1
  end.

Definition next_id {A} (id : A -> Z) (t : list A) : Z :=
  (foldr Z.max 0 (id <$> t) + 1)%Z.

(** [UPDATE "user" SET points = COALESCE(points, :base) - :amt WHERE id = :uid]. *)
Definition debit_points (uid : Z) (amt : Q) (s : DB) : DB :=
  set_users (alter (fun u => {| u_points := Some (default 500 (u_points u) - amt);
                                u_bonus_points := u_bonus_points u;
                                u_bolts := u_bolts u |}) uid) s.

Definition new_ppp_bet (s : DB) (uid target : Z) (choice : string) (amount odds : Q)
    (scope hhmm : string) : PPPBet :=
  {| pb_id := next_id pb_id (ppp_bet_rows s); pb_user_id := uid; pb_bet_date := target;
     pb_choice := choice; pb_amount := amount; pb_odds := odds;
     pb_status := "ACTIVE"; pb_station_id := Some scope;
     pb_locked_for_trade := 0; pb_funded_from_balance := Some 1%Z;
     pb_target_time := Some hhmm; pb_target_dt := None;
     pb_preset_outcome := None; pb_verdict := None; pb_outcome := None;
     pb_observed_mm := None; pb_observed_at := None; pb_resolved_at := None |}.

(** What a handler answers: an error message (nothing is written), or
    the committed state. *)
Inductive Response :=
| Rejected (error : string)
| Accepted (s : DB).

(** [ppp_bet()] for the logged-in user [uid]; the messages keep their fixed
    part. *)
Definition ppp_bet (env : Env) (today : Z) (uid : Z) (form : BetForm) (s : DB)
    : Response :=
  match bf_amount form with
  | None => Rejected "Entrées invalides."
  | Some raw_amount =>
      let amount := py_round raw_amount 2 in
      let choice := bf_choice form in
      let scope := bf_station_id form in
      match bf_date form with
      | Missing => Rejected "Cliquez sur une case du calendrier pour choisir la date."
      | Invalid =>
          if negb (is_choice choice) || Qleb amount 0
          then Rejected "Choix ou montant invalides."
          else Rejected "Date invalide."
      | Parsed target =>
          if negb (is_choice choice) || Qleb amount 0
          then Rejected "Choix ou montant invalides."
          else
            let hhmm := clamp_hhmm (bf_target_time form) in
            let delta_days := (target - today)%Z in
            if (delta_days <? 1)%Z then Rejected "Mise interdite pour aujourd’hui."
            else if (31 <? delta_days)%Z
            then Rejected "Mise trop lointaine. Maximum : 31 jours à l’avance."
            else
              let odds := captured_odds env today scope target choice in
              let existing := existing_bets s uid target scope in
              let opposite := opposite_choice choice in
              if existsb (fun b => bool_decide (b_hhmm b = hhmm)
                                   && bool_decide (upper (pb_choice b) = opposite))
                         existing
              then Rejected "Impossible de miser l'inverse au même horaire."
              else if bool_decide (hhmm ∉ hours_set existing)
                      && (3 <=? size (hours_set existing))%nat
              then Rejected "Limite de 3 horaires atteinte pour ce jour."
              else
                let grem := remaining_points env s uid in
                if Qltb (grem + (1 # 1000000)) amount
                then Rejected "Budget insuffisant."
                else
                  let bet := new_ppp_bet s uid target choice amount odds scope hhmm in
                  Accepted (debit_points uid amount (set_ppp_bet_rows (fun t => t ++ [bet]) s))
      end
  end.

(** ** Boost overlay *)

Definition MAX_BOOSTS_PER_TARGET : Z := 5.
Definition BOOST_UNIT : Q := 5.
Definition cap_value : Q := inject_Z MAX_BOOSTS_PER_TARGET * BOOST_UNIT.

(** The JSON body of [POST /ppp/boost]; [bq_value] is [None] when the
    entry is absent and [Some None] when [float()] raises on it. *)
Record BoostRequest := {
  bq_date : Field Z;
  bq_station_id : option string;
  bq_value : option (option Q);
}.

Inductive BoostResponse :=
| BoostOk (total : Q) (bolts_left : Z)
| BoostError (error : string).

Definition bolts_of (s : DB) (uid : Z) : Z :=
  default 0%Z (users s !! uid ≫= u_bolts).

(** [UPDATE user SET bolts = bolts - 1 WHERE id = :uid AND
    COALESCE(bolts, 0) > 0]: the new state, or [None] when no row
    matched ([rowcount != 1]). *)
Definition upd_bolts (uid : Z) (s : DB) : option DB :=
  match users s !! uid with
  | Some u =>
      if (0 <? default 0 (u_bolts u))%Z
      then Some (set_users (insert uid {| u_points := u_points u;
                                          u_bonus_points := u_bonus_points u;
                                          u_bolts := Z.pred <$> u_bolts u |}) s)
      else None
  | None => None
  end.

Definition boost_set_value (v : Q) (b : PPPBoost) : PPPBoost :=
  {| bo_user_id := bo_user_id b; bo_bet_date := bo_bet_date b;
     bo_station_id := bo_station_id b; bo_value := v |}.

(** [INSERT ... ON CONFLICT(user_id, bet_date, station_id) DO UPDATE],
    as SQLite runs it.  The conflict target must name a unique index,
    else the statement is refused.  A row with the same three columns is
    updated in place.  Otherwise the row is inserted, unless it breaks
    the other unique constraint, on [(user_id, bet_date)]. *)
Definition upsert_boost (uid d : Z) (sid : string) (inc cap : Q) (s : DB)
    : result DB :=
  let schema := ppp_boosts_schema s in
  if negb (uq_pppboost_user_date_station schema) then Raise OperationalError
  else
    match list_find (fun b => bo_user_id b = uid ∧ bo_bet_date b = d
                              ∧ bo_station_id b = Some sid) (ppp_boosts s) with
    | Some (i, b) =>
        Return (set_ppp_boosts (alter (boost_set_value (Qmin (bo_value b + inc) cap)) i) s)
    | None =>
        if uq_pppboost_user_date schema
           && existsb (fun b => (bo_user_id b =? uid)%Z && (bo_bet_date b =? d)%Z)
                      (ppp_boosts s)
        then Raise IntegrityError
        else Return (set_ppp_boosts
                       (fun t => t ++ [{| bo_user_id := uid; bo_bet_date := d;
                                          bo_station_id := Some sid;
                                          bo_value := Qmin inc cap |}]) s)
    end.

(** [float(data.get("value") or BOOST_UNIT)]: [None] when it raises. *)
Definition requested_increment (req : BoostRequest) : option Q :=
  match bq_value req with
  | None => Some BOOST_UNIT
  | Some None => None
  | Some (Some v) => Some (if Qeq_bool v 0 then BOOST_UNIT else v)
  end.

(** [ppp_boost()] for the logged-in user [uid]: the state after the
    commit or the rollback, and the JSON answer. *)
Definition ppp_boost (uid : Z) (req : BoostRequest) (s : DB) : DB * BoostResponse :=
  let sid_norm := default "" (bq_station_id req) in
  match requested_increment req with
  | None => (s, BoostError "bad_value")
  | Some inc_req =>
      if Qleb inc_req 0 then (s, BoostError "bad_value")
      else
        match bq_date req with
        | Missing => (s, BoostError "missing_date")
        | Invalid => (s, BoostError "bad_date")
        | Parsed bet_date =>
            let cur_total := boost_total s uid bet_date sid_norm in
            let remaining := cap_value - cur_total in
            if Qleb remaining (1 # 1000000000000) then (s, BoostError "cap_reached")
            else
              let inc := Qmin inc_req remaining in
              if Qleb inc (1 # 1000000000000) then (s, BoostError "cap_reached")
              else
                match upd_bolts uid s with
                | None => (s, BoostError "no_bolts")
                | Some s1 =>
                    match upsert_boost uid bet_date sid_norm inc cap_value s1 with
                    | Raise IntegrityError => (s, BoostError "conflict")
                    | Raise _ => (s, BoostError "server_error")
                    | Return s2 =>
                        (s2, BoostOk (boost_total s2 uid bet_date sid_norm)
                                     (bolts_of s2 uid))
                    end
                end
        end
  end.

(** ** Hourly (Wet) wagers: placement *)

(** The form of [POST /wet]; [wf_numbers] is [None] when [int()] or
    [float()] raises on the target or the amount. *)
Record WetForm := {
  wf_slot : Field Z;
  wf_numbers : option (Z * Q);
}.

Definition wet_odds (slot_dt now_paris_naive : Z) : Q :=
  let hours_ahead := Qmax 0 (inject_Z (slot_dt - now_paris_naive) / 3600) in
  Qmax (12 # 10) (Qmin 3 ((12 # 10) + (2 # 100) * hours_ahead)).

Definition new_wet_bet (s : DB) (uid slot_dt target_pct : Z) (amount odds : Q) : WetBet :=
  {| wb_id := next_id wb_id (wet_bets s); wb_user_id := uid; wb_slot_dt := slot_dt;
     wb_target_pct := target_pct; wb_amount := py_round amount 6; wb_odds := odds;
     wb_status := "ACTIVE"; wb_observed_pct := None; wb_outcome := None;
     wb_payout := None; wb_resolved_at := None |}.

(** The [POST] branch of [wet()] for the logged-in user [uid];
    [now_paris] is the Europe/Paris wall clock of the request. *)
Definition wet (env : Env) (now_paris : Z) (uid : Z) (form : WetForm) (s : DB)
    : Response :=
  match wf_numbers form with
  | None => Rejected "Entrées invalides."
  | Some (target_pct, amount) =>
      match wf_slot form with
      | Missing => Rejected "Heure manquante."
      | Invalid =>
          if (target_pct <? 0)%Z || (100 <? target_pct)%Z || Qleb amount 0
          then Rejected "Valeurs invalides."
          else Rejected "Créneau invalide."
      | Parsed slot_dt =>
          if (target_pct <? 0)%Z || (100 <? target_pct)%Z || Qleb amount 0
          then Rejected "Valeurs invalides."
          else
            let cutoff := (floor_hour now_paris + 2 * 3600)%Z in
            if (slot_dt <? cutoff)%Z then Rejected "Vous pouvez miser à partir de."
            else
              let rem := match users s !! uid with
                         | Some _ => remaining_points env s uid
                         | None => 0
                         end in
              if Qltb (rem + (1 # 1000000000)) amount
              then Rejected "Budget insuffisant."
              else
                let existing :=
                  list_find (fun b => wb_user_id b = uid ∧ wb_slot_dt b = slot_dt
                                      ∧ wb_status b = "ACTIVE") (wet_bets s) in
                if match existing with
                   | Some (_, e) => negb (wb_target_pct e =? target_pct)%Z
                   | None => false
                   end
                then Rejected "Vous avez déjà misé pour ce créneau."
                else if (slot_dt <=? now_paris)%Z
                then Rejected "Impossible de miser sur une heure passée."
                else
                  let odds := wet_odds slot_dt now_paris in
                  Accepted (set_wet_bets
                              (fun t => t ++ [new_wet_bet s uid slot_dt target_pct amount odds])
                              s)
      end
  end.

(** ** Trading overlay *)

(** [_parse_price]: the first candidate that is a positive number. *)
Definition _parse_price (cands : list (option Q)) : option Q :=
  first_some (fun c => match c with
                       | Some f => if Qltb 0 f then Some f else None
                       | None => None
                       end) cands.

Definition sell_to (me_id : Z) (b : PPPBet) : PPPBet :=
  {| pb_id := pb_id b; pb_user_id := me_id; pb_bet_date := pb_bet_date b;
     pb_choice := pb_choice b; pb_amount := pb_amount b; pb_odds := pb_odds b;
     pb_status := pb_status b; pb_station_id := pb_station_id b;
     pb_locked_for_trade := 0; pb_funded_from_balance := Some 0%Z;
     pb_target_time := pb_target_time b; pb_target_dt := pb_target_dt b;
     pb_preset_outcome := pb_preset_outcome b; pb_verdict := pb_verdict b;
     pb_outcome := pb_outcome b; pb_observed_mm := pb_observed_mm b;
     pb_observed_at := pb_observed_at b; pb_resolved_at := pb_resolved_at b |}.

Definition seal_sold (me_id : Z) (price : Q) (now : Z) (row : BetListing) : BetListing :=
  {| bl_id := bl_id row; bl_user_id := bl_user_id row; bl_status := "SOLD";
     bl_ask_price := bl_ask_price row;
     bl_payload_ask_price := bl_payload_ask_price row;
     bl_payload_bet_id := bl_payload_bet_id row;
     bl_buyer_id := Some me_id; bl_sale_price := Some price;
     bl_sold_at := Some now |}.

(** [trade_buy_listing(listing_id)] for the logged-in user [me_id].  The
    chat message to the seller, sent after the commit, is not part of
    the state. *)
Definition trade_buy_listing (env : Env) (today now : Z) (me_id : Z)
    (listing_id : Z) (s : DB) : Response :=
  match list_find (fun l => bl_id l = listing_id) (bet_listing s) with
  | None => Rejected "not_open"
  | Some (_, row) =>
      if negb (is_status "OPEN" (bl_status row)) then Rejected "not_open"
      else
        let seller_id := bl_user_id row in
        if (seller_id =? me_id)%Z then Rejected "cannot_buy_own"
        else
          match _parse_price [bl_ask_price row; bl_payload_ask_price row] with
          | None => Rejected "bad_price"
          | Some price =>
              if Qltb (remaining_points env s me_id + (1 # 1000000000)) price
              then Rejected "insufficient_budget"
              else
                match bl_payload_bet_id row with
                | None => Rejected "no_bet_to_transfer"
                | Some bet_id =>
                    if (bet_id =? 0)%Z then Rejected "no_bet_to_transfer"
                    else
                      match list_find (fun b => pb_id b = bet_id) (ppp_bet_rows s) with
                      | None => Rejected "bet_not_active"
                      | Some (_, b) =>
                          if negb (is_status "ACTIVE" (pb_status b))
                          then Rejected "bet_not_active"
                          else if (pb_bet_date b <? today)%Z then Rejected "expired"
                          else
                            Accepted
                              (set_bet_listing
                                 (fmap (fun l => if (bl_id l =? listing_id)%Z
                                                 then seal_sold me_id price now l else l))
                                 (set_ppp_bet_rows
                                    (fmap (fun x => if (pb_id x =? bet_id)%Z
                                                    then sell_to me_id x else x))
                                    s))
                      end
                end
          end
  end.

(** ** The blend in the words of the specification *)





(** ** Scenarios *)

(** The default deployment: reconciliation off, Paris one hour ahead of
    UTC, wagers targeted at 18:00 Paris time, no historical sample and
    no forecast. *)
Definition env_default : Env :=
  {| POINTS_RECONCILE := false;
     paris_to_utc := fun t => (t - 3600)%Z;
     utc_to_paris := fun t => (t + 3600)%Z;
     ppp_target_utc := fun d hhmm => Some (d * 86400 + 17 * 3600)%Z;
     _hist_prob_pluie_for_mmdd := fun _ _ => None;
     ppp_forecast_signal_for_day := fun _ _ => None |}.

(** The default deployment with [POINTS_RECONCILE=1]. *)
Definition env_reconcile : Env :=
  {| POINTS_RECONCILE := true;
     paris_to_utc := paris_to_utc env_default;
     utc_to_paris := utc_to_paris env_default;
     ppp_target_utc := ppp_target_utc env_default;
     _hist_prob_pluie_for_mmdd := _hist_prob_pluie_for_mmdd env_default;
     ppp_forecast_signal_for_day := ppp_forecast_signal_for_day env_default |}.

(** A station with rain on every second day in the archive and a rain
    forecast. *)
Definition env_blend : Env :=
  {| POINTS_RECONCILE := false;
     paris_to_utc := paris_to_utc env_default;
     utc_to_paris := utc_to_paris env_default;
     ppp_target_utc := ppp_target_utc env_default;
     _hist_prob_pluie_for_mmdd := fun _ _ => Some (1 # 2);
     ppp_forecast_signal_for_day := fun _ _ => Some "PLUIE" |}.

(** A database after the migration block: both unique indexes exist. *)
Definition empty_db : DB :=
  {| users := ∅; ppp_bet_rows := []; wet_bets := []; humidity_obs := [];
     meteo_obs_hourly := []; ppp_boosts := [];
     ppp_boosts_schema := {| uq_pppboost_user_date := true;
                             uq_pppboost_user_date_station := true |};
     bet_listing := []; art_bets := [] |}.

Definition mk_user (points : Q) (bolts : Z) : User :=
  {| u_points := Some points; u_bonus_points := Some 0; u_bolts := Some bolts |}.

(** Hourly wager of user 1: target 80 %, stake 10 at odds 1.5, slot
    10:00; the station reports 80 % within the hour. *)
Definition wet_scn : DB :=
  set_users (fun _ => {[ 1%Z := mk_user 100 10 ]})
    (set_wet_bets
       (fun _ => [{| wb_id := 1; wb_user_id := 1; wb_slot_dt := 36000;
                     wb_target_pct := 80; wb_amount := 10; wb_odds := 15 # 10;
                     wb_status := "ACTIVE"; wb_observed_pct := None;
                     wb_outcome := None; wb_payout := None;
                     wb_resolved_at := None |}])
       {| users := ∅; ppp_bet_rows := []; wet_bets := [];
          humidity_obs := [{| ho_station_id := "cdg_07157"; ho_obs_time := 32400;
                              ho_humidity := 80 |}];
          meteo_obs_hourly := []; ppp_boosts := [];
          ppp_boosts_schema := ppp_boosts_schema empty_db;
          bet_listing := []; art_bets := [] |}).



(** Listing 3 of user 1 (balance 100) offers wager 7 (stake 12) for 15
    points; user 2 has 20 points. *)
Definition trade_scn : DB :=
  {| users := {[ 1%Z := mk_user 100 10; 2%Z := mk_user 20 10 ]};
     ppp_bet_rows :=
       [{| pb_id := 7; pb_user_id := 1; pb_bet_date := 10; pb_choice := "PLUIE";
           pb_amount := 12; pb_odds := 15 # 10; pb_status := "ACTIVE";
           pb_station_id := Some ""; pb_locked_for_trade := 1;
           pb_funded_from_balance := Some 1%Z; pb_target_time := Some "18:00";
           pb_target_dt := None; pb_preset_outcome := None; pb_verdict := None;
           pb_outcome := None; pb_observed_mm := None; pb_observed_at := None;
           pb_resolved_at := None |}];
     wet_bets := []; humidity_obs := []; meteo_obs_hourly := [];
     ppp_boosts := []; ppp_boosts_schema := ppp_boosts_schema empty_db;
     bet_listing :=
       [{| bl_id := 3; bl_user_id := 1; bl_status := "OPEN";
           bl_ask_price := Some 15; bl_payload_ask_price := Some 15;
           bl_payload_bet_id := Some 7%Z; bl_buyer_id := None;
           bl_sale_price := None; bl_sold_at := None |}];
     art_bets := [] |}.

(** A database made by [db.create_all()] alone: [ppp_boosts] carries the
    model's constraint on [(user_id, bet_date)] and no index on the
    three columns. *)
Definition create_all_db : DB :=
  {| users := {[ 1%Z := mk_user 500 10 ]};
     ppp_bet_rows := []; wet_bets := []; humidity_obs := [];
     meteo_obs_hourly := []; ppp_boosts := [];
     ppp_boosts_schema := {| uq_pppboost_user_date := true;
                             uq_pppboost_user_date_station := false |};
     bet_listing := []; art_bets := [] |}.

(** A migrated database in which user 1 holds a boost of 5.0 for day 10
    on station ["A"]. *)
Definition two_scopes_db : DB :=
  {| users := {[ 1%Z := mk_user 500 10 ]};
     ppp_bet_rows := []; wet_bets := []; humidity_obs := [];
     meteo_obs_hourly := [];
     ppp_boosts := [{| bo_user_id := 1; bo_bet_date := 10;
                       bo_station_id := Some "A"; bo_value := 5 |}];
     ppp_boosts_schema := ppp_boosts_schema empty_db;
     bet_listing := []; art_bets := [] |}.

Definition boost_req (d : Z) (sid : string) : BoostRequest :=
  {| bq_date := Parsed d; bq_station_id := Some sid; bq_value := None |}.

Definition wet_form (slot_dt target_pct : Z) (amount : Q) : WetForm :=
  {| wf_slot := Parsed slot_dt; wf_numbers := Some (target_pct, amount) |}.

(** The resolution [resolve_ppp_open_bets] reaches for a selected row:
    [None] when the loop body leaves it with [continue]. *)
Definition open_resolution (env : Env) (s : DB) (r : PPPBet) : option Resolution :=
  if negb (is_choice (upper (pb_choice r))) then None
  else
    match target_utc env r with
    | None => None
    | Some utc_from =>
        resolve_decision s (upper (pb_choice r)) (coalesce_sid (pb_station_id r))
          utc_from (strip (upper (default "" (pb_preset_outcome r))))
    end.


(** User 1 (500 points) holds ACTIVE wagers on PLUIE for day 10 at
    10:00, 15:00 and 18:00 in the default scope. *)
Definition slot_bet (id : Z) (hhmm : string) : PPPBet :=
  {| pb_id := id; pb_user_id := 1; pb_bet_date := 10; pb_choice := "PLUIE";
     pb_amount := 5; pb_odds := 13 # 10; pb_status := "ACTIVE";
     pb_station_id := Some ""; pb_locked_for_trade := 0;
     pb_funded_from_balance := Some 1%Z; pb_target_time := Some hhmm;
     pb_target_dt := None; pb_preset_outcome := None; pb_verdict := None;
     pb_outcome := None; pb_observed_mm := None; pb_observed_at := None;
     pb_resolved_at := None |}.

Definition slot_scn : DB :=
  {| users := {[ 1%Z := mk_user 500 10 ]};
     ppp_bet_rows := [slot_bet 1 "10:00"; slot_bet 2 "15:00"; slot_bet 3 "18:00"];
     wet_bets := []; humidity_obs := []; meteo_obs_hourly := [];
     ppp_boosts := []; ppp_boosts_schema := ppp_boosts_schema empty_db;
     bet_listing := []; art_bets := [] |}.

Definition bet_form (choice : string) (h m : Z) : BetForm :=
  {| bf_station_id := ""; bf_date := Parsed 10%Z; bf_choice := choice;
     bf_amount := Some 5; bf_target_time := Some (h, m) |}.

(** A sequence of boost purchases, each by some logged-in user. *)
Definition run_boosts (reqs : list (Z * BoostRequest)) (s : DB) : DB :=
  foldl (fun acc ur => (ppp_boost ur.1 ur.2 acc).1) s reqs.


(** ** Auxiliary definitions *)

(** Both offsets have odds in the table and the first is not above the
    second. *)
Definition odds_le (d1 d2 : Z) : bool :=
  match ppp_odds_for_offset d1, ppp_odds_for_offset d2 with
  | Some o1, Some o2 => Qleb o1 o2
  | _, _ => false
  end.

(** The [WHERE] clause of the aggregate's [SELECT]. *)
Definition boost_key (uid d : Z) (sid : string) (b : PPPBoost) : bool :=
  (bo_user_id b =? uid)%Z && (bo_bet_date b =? d)%Z
  && bool_decide (coalesce_sid (bo_station_id b) = sid).

(** The tolerance [1e-12] of the headroom test. *)
Definition eps12 : Q := 1 # 1000000000000.


(** The three-column keys of the boost rows that have a station scope
    (rows with a NULL station never conflict in a unique index). *)
Definition boost_keys (rows : list PPPBoost) : list (Z * Z * string) :=
  omap (fun b => (fun sid => (bo_user_id b, bo_bet_date b, sid)) <$> bo_station_id b) rows.

(** * Further functions of the module *)

(** ** Hourly (Wet) wagers: the two clocks of the placement *)

(** The [POST] branch of [wet()] at the UTC instant [now].  The name
    [paris_now] is bound twice in the module; the binding in force when
    the route runs is the later one, which answers
    [datetime.now(timezone.utc)]: the two-hour cutoff is taken on the
    UTC wall clock, while the guard against a past slot and the odds
    read the Europe/Paris wall clock. *)
Definition wet_at (env : Env) (now : Z) (uid : Z) (form : WetForm) (s : DB)
    : Response :=
  match wf_numbers form with
  | None => Rejected "Entrées invalides."
  | Some (target_pct, amount) =>
      match wf_slot form with
      | Missing => Rejected "Heure manquante."
      | Invalid =>
          if (target_pct <? 0)%Z || (100 <? target_pct)%Z || Qleb amount 0
          then Rejected "Valeurs invalides."
          else Rejected "Créneau invalide."
      | Parsed slot_dt =>
          if (target_pct <? 0)%Z || (100 <? target_pct)%Z || Qleb amount 0
          then Rejected "Valeurs invalides."
          else
            let cutoff := (floor_hour now + 2 * 3600)%Z in
            if (slot_dt <? cutoff)%Z then Rejected "Vous pouvez miser à partir de."
            else
              let rem := match users s !! uid with
                         | Some _ => remaining_points env s uid
                         | None => 0
                         end in
              if Qltb (rem + (1 # 1000000000)) amount
              then Rejected "Budget insuffisant."
              else
                let existing :=
                  list_find (fun b => wb_user_id b = uid ∧ wb_slot_dt b = slot_dt
                                      ∧ wb_status b = "ACTIVE") (wet_bets s) in
                if match existing with
                   | Some (_, e) => negb (wb_target_pct e =? target_pct)%Z
                   | None => false
                   end
                then Rejected "Vous avez déjà misé pour ce créneau."
                else
                  let now_paris_naive := utc_to_paris env now in
                  if (slot_dt <=? now_paris_naive)%Z
                  then Rejected "Impossible de miser sur une heure passée."
                  else
                    let odds := wet_odds slot_dt now_paris_naive in
                    Accepted (set_wet_bets
                                (fun t => t ++ [new_wet_bet s uid slot_dt target_pct
                                                  amount odds])
                                s)
      end
  end.

(** The single hourly wager of [wet_scn]. *)
Definition wet_scn_bet : WetBet :=
  {| wb_id := 1; wb_user_id := 1; wb_slot_dt := 36000;
     wb_target_pct := 80; wb_amount := 10; wb_odds := 15 # 10;
     wb_status := "ACTIVE"; wb_observed_pct := None;
     wb_outcome := None; wb_payout := None;
     wb_resolved_at := None |}.


(** [s'] holds the same users as [s], each with the points and bonus
    held in [s] and with a stock of bolts that did not grow nor fall
    below zero. *)
Definition users_bolts_spent (s s' : DB) : Prop :=
  forall v,
    match users s !! v, users s' !! v with
    | Some u, Some u' =>
        u_points u' = u_points u /\ u_bonus_points u' = u_bonus_points u
        /\ (default 0 (u_bolts u') <= default 0 (u_bolts u))%Z
        /\ ((0 <= default 0 (u_bolts u))%Z -> (0 <= default 0 (u_bolts u'))%Z)
    | None, None => True
    | _, _ => False
    end.

(** ** Trading overlay: listing and withdrawing a wager *)

(** The JSON body of [POST /api/trade/listings] after the handler's
    parsing: [lp_stake] is [_as_float(payload.get('stake') or
    payload.get('amount'))]; [lp_ask_price] is
    [_as_float(payload.get('ask_price'))]; [lp_bet_id] is the entry
    [bet_id], [Missing] when falsy and [Invalid] when [int()] raises on
    it; [lp_deadline_key] is the entry [deadline_key], [Missing] when
    falsy, [Invalid] when [_guess_expires] answers [None] on it, else
    the instant [_guess_expires] answers. *)
Record ListingPayload := {
  lp_stake : option Q;
  lp_ask_price : option Q;
  lp_bet_id : Field Z;
  lp_deadline_key : Field Z;
}.

Definition set_locked_for_trade (v : Z) (b : PPPBet) : PPPBet :=
  {| pb_id := pb_id b; pb_user_id := pb_user_id b; pb_bet_date := pb_bet_date b;
     pb_choice := pb_choice b; pb_amount := pb_amount b; pb_odds := pb_odds b;
     pb_status := pb_status b; pb_station_id := pb_station_id b;
     pb_locked_for_trade := v;
     pb_funded_from_balance := pb_funded_from_balance b;
     pb_target_time := pb_target_time b; pb_target_dt := pb_target_dt b;
     pb_preset_outcome := pb_preset_outcome b; pb_verdict := pb_verdict b;
     pb_outcome := pb_outcome b; pb_observed_mm := pb_observed_mm b;
     pb_observed_at := pb_observed_at b; pb_resolved_at := pb_resolved_at b |}.

(** [bet.locked_for_trade = v] on the wager loaded by primary key. *)
Definition lock_bet (bet_id v : Z) (s : DB) : DB :=
  set_ppp_bet_rows
    (fmap (fun x => if (pb_id x =? bet_id)%Z then set_locked_for_trade v x else x)) s.

(** The guard against two OPEN listings of one wager:
    [BetListing.status == 'OPEN'] and [payload["bet_id"] == bet_id]. *)
Definition open_listing_of (bet_id : Z) (l : BetListing) : bool :=
  is_status "OPEN" (bl_status l) && bool_decide (bl_payload_bet_id l = Some bet_id).

Definition new_listing (s : DB) (me_id : Z) (ask : Q) (bet_id : option Z) : BetListing :=
  {| bl_id := next_id bl_id (bet_listing s); bl_user_id := me_id;
     bl_status := "OPEN"; bl_ask_price := Some ask;
     bl_payload_ask_price := Some ask; bl_payload_bet_id := bet_id;
     bl_buyer_id := None; bl_sale_price := None; bl_sold_at := None |}.

(** The tail of [trade_create_listing] once the wager, if any, is
    loaded: stake and price checks, the guard against a second OPEN
    listing, the insert and the lock.  [expires_at] is a [NOT NULL]
    column: without a usable deadline the commit raises and the handler
    answers [server_error] after the rollback. *)
Definition create_listing_row (me_id : Z) (p : ListingPayload) (bet : option PPPBet)
    (s : DB) : Response :=
  let stake := match lp_stake p with
               | Some v => Some v
               | None => pb_amount <$> bet
               end in
  match stake with
  | None => Rejected "invalid_stake"
  | Some stake =>
      if Qleb stake 0 then Rejected "invalid_stake"
      else
        let ask_price := default stake (lp_ask_price p) in
        if Qltb ask_price (stake - (1 # 1000000000)) then Rejected "price_too_low"
        else
          let has_expiry := match lp_deadline_key p with
                            | Parsed _ => true
                            | Invalid => false
                            | Missing => bool_decide (is_Some bet)
                            end in
          if match bet with
             | Some b => existsb (open_listing_of (pb_id b)) (bet_listing s)
             | None => false
             end
          then Rejected "already_listed"
          else if negb has_expiry then Rejected "server_error"
          else
            let row := new_listing s me_id ask_price (pb_id <$> bet) in
            let s1 := set_bet_listing (fun t => t ++ [row]) s in
            Accepted (match bet with
                      | Some b => lock_bet (pb_id b) 1 s1
                      | None => s1
                      end)
  end.

(** [trade_create_listing()] for the logged-in user [me_id]. *)
Definition trade_create_listing (me_id : Z) (p : ListingPayload) (s : DB) : Response :=
  match lp_bet_id p with
  | Invalid => Rejected "server_error"
  | Missing => create_listing_row me_id p None s
  | Parsed bet_id =>
      match list_find (fun b => pb_id b = bet_id) (ppp_bet_rows s) with
      | None => Rejected "bet_not_sellable"
      | Some (_, bet) =>
          if negb (pb_user_id bet =? me_id)%Z || negb (is_status "ACTIVE" (pb_status bet))
          then Rejected "bet_not_sellable"
          else create_listing_row me_id p (Some bet) s
      end
  end.

Definition cancel_row (row : BetListing) : BetListing :=
  {| bl_id := bl_id row; bl_user_id := bl_user_id row; bl_status := "CANCELLED";
     bl_ask_price := bl_ask_price row;
     bl_payload_ask_price := bl_payload_ask_price row;
     bl_payload_bet_id := bl_payload_bet_id row;
     bl_buyer_id := bl_buyer_id row; bl_sale_price := bl_sale_price row;
     bl_sold_at := bl_sold_at row |}.

(** [trade_cancel_listing(listing_id)] for the logged-in user [me_id]. *)
Definition trade_cancel_listing (me_id listing_id : Z) (s : DB) : Response :=
  match list_find (fun l => bl_id l = listing_id) (bet_listing s) with
  | None => Rejected "not_found"
  | Some (_, row) =>
      if negb (bl_user_id row =? me_id)%Z then Rejected "forbidden"
      else if negb (is_status "OPEN" (bl_status row))
      then Rejected ("not_open (status=" ++ bl_status row ++ ")")
      else
        let s1 := set_bet_listing
                    (fmap (fun l => if (bl_id l =? listing_id)%Z then cancel_row l else l))
                    s in
        Accepted (match bl_payload_bet_id row with
                  | Some bet_id => if (bet_id =? 0)%Z then s1 else lock_bet bet_id 0 s1
                  | None => s1
                  end)
  end.

(** User 1 (balance 100) holds the unlocked wager 7 (stake 12) for day
    10; user 2 has 20 points; nothing is listed. *)
Definition unlisted_scn : DB :=
  {| users := {[ 1%Z := mk_user 100 10; 2%Z := mk_user 20 10 ]};
     ppp_bet_rows :=
       [{| pb_id := 7; pb_user_id := 1; pb_bet_date := 10; pb_choice := "PLUIE";
           pb_amount := 12; pb_odds := 15 # 10; pb_status := "ACTIVE";
           pb_station_id := Some ""; pb_locked_for_trade := 0;
           pb_funded_from_balance := Some 1%Z; pb_target_time := Some "18:00";
           pb_target_dt := None; pb_preset_outcome := None; pb_verdict := None;
           pb_outcome := None; pb_observed_mm := None; pb_observed_at := None;
           pb_resolved_at := None |}];
     wet_bets := []; humidity_obs := []; meteo_obs_hourly := [];
     ppp_boosts := []; ppp_boosts_schema := ppp_boosts_schema empty_db;
     bet_listing := []; art_bets := [] |}.

(** The body that lists wager [bet_id] at [ask]. *)
Definition listing_payload (bet_id : Z) (ask : Q) : ListingPayload :=
  {| lp_stake := None; lp_ask_price := Some ask; lp_bet_id := Parsed bet_id;
     lp_deadline_key := Missing |}.

(** ** Private messages with gifts *)

Inductive GiftCmd := ToYou | ToMe.

(** The JSON body of [POST /api/chat/messages] after the handler's
    parsing: [cr_to] is [int(data.get("to", 0))], 0 when it raises;
    [cr_body_blank] tells that the stripped body is empty;
    [cr_tome_prefix] that the body starts with the [tome] gift code;
    [cr_gift] is the command and the amount matched by [GIFT_RE]. *)
Record ChatRequest := {
  cr_to : Z;
  cr_body_blank : bool;
  cr_tome_prefix : bool;
  cr_gift : option (GiftCmd * Q);
}.

(** The last line of the nested [parse_gift]: [(cmd, amt) if amt > 0
    else (None, None)]. *)
Definition parse_gift (m : option (GiftCmd * Q)) : option (GiftCmd * Q) :=
  match m with
  | Some (cmd, amt) => if Qltb 0 amt then Some (cmd, amt) else None
  | None => None
  end.

(** The nested [credit_points_exact]: [UPDATE user SET points =
    COALESCE(points, 0) + :amount WHERE id = :uid]. *)
Definition credit_points_exact (user_id : Z) (amount : Q) (s : DB) : DB :=
  add_points user_id amount s.

(** [chat_send()] for the logged-in user [frm_id]; the stored message
    is not part of the state. *)
Definition chat_send (frm_id : Z) (req : ChatRequest) (s : DB) : Response :=
  let to_id := cr_to req in
  if (to_id =? 0)%Z || cr_body_blank req
  then Rejected "Message vide ou destinataire manquant."
  else if (to_id =? frm_id)%Z && negb (cr_tome_prefix req)
  then Rejected "Destinataire invalide."
  else
    match users s !! to_id with
    | None => Rejected "Destinataire introuvable."
    | Some _ =>
        Accepted (match parse_gift (cr_gift req) with
                  | Some (ToYou, amt) => credit_points_exact to_id amt s
                  | Some (ToMe, amt) => credit_points_exact frm_id amt s
                  | None => s
                  end)
    end.

(** ** Wager on a drawing *)

Definition set_art_bets (f : list ArtBet -> list ArtBet) (s : DB) : DB :=
  {| users := users s; ppp_bet_rows := ppp_bet_rows s; wet_bets := wet_bets s;
     humidity_obs := humidity_obs s; meteo_obs_hourly := meteo_obs_hourly s;
     ppp_boosts := ppp_boosts s; ppp_boosts_schema := ppp_boosts_schema s;
     bet_listing := bet_listing s; art_bets := f (art_bets s) |}.

(** What [api_comment] has in hand once the comment is composed: the
    stake read from the body ([0.0] when absent or unreadable) and
    whether the verdict drawn by [_pick_verdict] is a win. *)
Record ArtRequest := {
  ar_stake : Q;
  ar_is_win : bool;
}.

(** [max(1, int(round(stake)))]. *)
Definition art_stake (raw : Q) : Z := Z.max 1 (py_round_int raw).

(** [UPDATE "user" SET points = COALESCE(points, 500.0) + :pout WHERE
    id = :uid]. *)
Definition credit_art (uid : Z) (pout : Q) (s : DB) : DB :=
  set_users (alter (fun u => {| u_points := Some (default 500 (u_points u) + pout);
                                u_bonus_points := u_bonus_points u;
                                u_bolts := u_bolts u |}) uid) s.

(** [UPDATE "user" SET bolts = COALESCE(bolts, 0) + 1 WHERE id = :uid]. *)
Definition add_bolt (uid : Z) (s : DB) : DB :=
  set_users (alter (fun u => {| u_points := u_points u;
                                u_bonus_points := u_bonus_points u;
                                u_bolts := Some (default 0 (u_bolts u) + 1)%Z |}) uid) s.

(** [f] on the last element that satisfies [p]: the row with
    [MAX(id)] among the rows of one user. *)
Fixpoint update_last {A} (p : A -> bool) (f : A -> A) (l : list A) : list A :=
  match l with
  | [] => []
  | x :: l' => if p x && negb (existsb p l') then f x :: l' else x :: update_last p f l'
  end.

(** [UPDATE art_bets SET payout = :pout WHERE id = (SELECT MAX(id) FROM
    art_bets WHERE user_id = :uid)]. *)
Definition set_last_payout (uid : Z) (pout : Q) (s : DB) : DB :=
  set_art_bets (update_last (fun a => (ab_user_id a =? uid)%Z)
                  (fun a => {| ab_user_id := ab_user_id a; ab_amount := ab_amount a;
                               ab_payout := pout |})) s.

(** The wagering part of [api_comment()] for the logged-in user
    [uid]. *)
Definition api_comment (env : Env) (uid : Z) (req : ArtRequest) (s : DB) : Response :=
  let stake := inject_Z (art_stake (ar_stake req)) in
  let points_now := remaining_points env s uid in
  if Qltb (points_now + (1 # 1000000)) stake then Rejected "solde insuffisant"
  else
    let payout := if ar_is_win req then stake * 13 else 0 in
    let s1 := set_art_bets (fun t => t ++ [{| ab_user_id := uid; ab_amount := stake;
                                              ab_payout := 0 |}]) s in
    let s2 := debit_points uid stake s1 in
    Accepted (if Qltb 0 payout
              then add_bolt uid (set_last_payout uid payout (credit_art uid payout s2))
              else s2).

(** ** Dropping a station *)

(** [delete_my_station(sid)] for the logged-in user [uid]: the two
    [DELETE ... WHERE user_id = :uid AND station_id = :sid] on wagers
    and boosts; the [user_station] association is not part of the
    state. *)
Definition delete_my_station (uid : Z) (sid : string) (s : DB) : DB :=
  set_ppp_boosts
    (filter (fun b => ~ (bo_user_id b = uid ∧ bo_station_id b = Some sid)))
    (set_ppp_bet_rows
       (filter (fun b => ~ (pb_user_id b = uid ∧ pb_station_id b = Some sid)))
       s).

(** ** Hourly odds table and station aliases *)

(** [{h: v for h in range(lo, hi)}]. *)
Definition dict_of_range (lo hi : Z) (v : Q) : list (Z * Q) :=
  (fun h => (h, v)) <$> seqZ lo (hi - lo).

(** [WET_ODDS]: the merge of five comprehensions over disjoint ranges. *)
Definition WET_ODDS : list (Z * Q) :=
  dict_of_range 1 7 (16 # 10) ++ dict_of_range 7 13 (18 # 10)
  ++ dict_of_range 13 25 (20 # 10) ++ dict_of_range 25 37 (22 # 10)
  ++ dict_of_range 37 49 (25 # 10).

Definition wet_odds_for_offset (hours_ahead : Z) : option Q :=
  dict_get WET_ODDS hours_ahead.

Definition PPP_STATION_ALIAS : list (string * string) :=
  [("lfpg_75", "cdg_07157"); ("lfpg_95", "cdg_07157")].

Fixpoint alias_get (d : list (string * string)) (k : string) : option string :=
  match d with
  | [] => None
  | (k', v) :: d' => if bool_decide (k' = k) then Some v else alias_get d' k
  end.

(** The loop that drops empty and repeated ids, keeping the order. *)
Definition dedup_ids (ids : list string) : list string :=
  (foldl (fun (acc : gset string * list string) x =>
            if negb (bool_decide (x = "")) && bool_decide (x ∉ acc.1)
            then ({[ x ]} ∪ acc.1, acc.2 ++ [x]) else acc)
         (∅, []) ids).2.

(** [_ppp_source_ids(scope)]; a [None] scope reads as the empty text. *)
Definition _ppp_source_ids (scope : option string) : list string :=
  let s := strip (default "" scope) in
  let alt := alias_get PPP_STATION_ALIAS s in
  let ids := (if bool_decide (s = "") then [] else [s])
             ++ match alt with
                | Some a => if bool_decide (a = "") then [] else [a]
                | None => []
                end in
  let out := dedup_ids ids in
  match out with
  | [] => if bool_decide (s = "") then ["cdg_07157"] else [s]
  | _ => out
  end.

(** Both hour offsets have odds in the table, the first not above the
    second, and both between 1.6 and 2.5. *)
Definition wet_odds_le (a b : Z) : bool :=
  match wet_odds_for_offset a, wet_odds_for_offset b with
  | Some x, Some y => Qle_bool (16 # 10) x && Qle_bool x y && Qle_bool y (25 # 10)
  | _, _ => false
  end.

(** * Properties *)

(** ** Comparisons *)

Lemma Qltb_lt a b : Qltb a b = true <-> a < b.
Proof.
  unfold Qltb. rewrite negb_true_iff. split.
  - intros H. apply Qnot_le_lt. intros Hle.
    apply Qle_bool_iff in Hle. congruence.
  - intros H. destruct (Qle_bool b a) eqn:E; [|reflexivity].
    apply Qle_bool_iff in E. lra.
Qed.

Lemma Qltb_ge a b : Qltb a b = false <-> b <= a.
Proof.
  unfold Qltb. rewrite negb_false_iff. apply Qle_bool_iff.
Qed.

Lemma Qleb_le a b : Qleb a b = true <-> a <= b.
Proof. apply Qle_bool_iff. Qed.

Lemma Qleb_gt a b : Qleb a b = false <-> b < a.
Proof.
  unfold Qleb. split.
  - intros H. apply Qnot_le_lt. intros Hle.
    apply Qle_bool_iff in Hle. congruence.
  - intros H. destruct (Qle_bool a b) eqn:E; [|reflexivity].
    apply Qle_bool_iff in E. lra.
Qed.


(** ** Fixed odds table (C6) *)

Example ppp_odds_5 : ppp_odds_for_offset 5 = Some (13 # 10).
Proof. reflexivity. Qed.

Lemma odds_le_spec d1 d2 o1 o2 :
  odds_le d1 d2 = true ->
  ppp_odds_for_offset d1 = Some o1 -> ppp_odds_for_offset d2 = Some o2 ->
  o1 <= o2.
Proof.
  unfold odds_le. intros H E1 E2. rewrite E1, E2 in H.
  by apply Qleb_le.
Qed.



(** Every base odds value of the table lies between 1.0, reached at
    offset 1, and 3.0, reached at offset 31. *)
Lemma PPP_ODDS_bounds (d : Z) (o : Q) :
  (1 <= d <= 31)%Z -> ppp_odds_for_offset d = Some o -> 1 <= o <= 3.
Proof.
  intros Hd Ho.
  assert (Hall : forallb (fun a => odds_le 1 a && odds_le a 31) (seqZ 1 31) = true)
    by (vm_compute; reflexivity).
  rewrite forallb_forall in Hall.
  assert (Hin : In d (seqZ 1 31)) by (apply list_elem_of_In, elem_of_seqZ; lia).
  apply Hall, andb_true_iff in Hin as [H1 H2].
  pose proof (odds_le_spec 1 d (10 # 10) o H1 eq_refl Ho).
  pose proof (odds_le_spec d 31 o (30 # 10) H2 Ho eq_refl).
  split; lra.
Qed.


(** ** Odds blend (C7) *)









(** With rain on every second day the historical odds are 2.0 for both
    choices; at offset 1 under a rain forecast the combined odds are
    (2.0 + 1.0 + 3 x 1.0) / 5 = 1.2 and (2.0 + 1.0 + 3 x 2.0) / 5 = 1.8;
    at offset 4 both are the average with the table value 1.2, that is
    1.6. *)
Example ppp_combined_odds_values :
  (exists c, ppp_combined_odds env_blend 0 "" 1 = inr c
     /\ co_combined_pluie c == 12 # 10 /\ co_combined_pas_pluie c == 18 # 10)
  /\ (exists c, ppp_combined_odds env_blend 0 "" 4 = inr c
        /\ co_combined_pluie c == 16 # 10 /\ co_combined_pas_pluie c == 16 # 10).
Proof.
  split; eexists; (split; [vm_compute; reflexivity|]); split; vm_compute; reflexivity.
Qed.

(** ** Hourly wager resolution (C1) *)

(** The settlement rule on the rounded observation: EXACT when it
    equals the target, WIN within 3 points, LOSE otherwise, with the
    payouts of the rule. *)
Lemma wet_decision_rule (bet : WetBet) (observed : Q) :
  let obs := py_round_int observed in
  wet_decision bet observed =
    if (obs =? wb_target_pct bet)%Z
    then (obs, "EXACT", wb_amount bet * wb_odds bet * 2)
    else if (Z.abs (obs - wb_target_pct bet) <=? 3)%Z
    then (obs, "WIN", wb_amount bet * wb_odds bet)
    else (obs, "LOSE", 0).
Proof. reflexivity. Qed.

Lemma resolve_wet_bet_users env station now uid s bet :
  users (resolve_wet_bet env station now uid s bet) = users s.
Proof.
  unfold resolve_wet_bet.
  destruct (get_observed_humidity_paris env s (wb_slot_dt bet) station); [|done].
  destruct (wet_decision bet q) as [[obs outcome] payout].
  by destruct (Qltb 0 payout).
Qed.

(** No run of the hourly resolver changes any row of [user]. *)
Lemma resolve_due_wet_bets_users env s uid now station :
  users (resolve_due_wet_bets env s uid now station) = users s.
Proof.
  unfold resolve_due_wet_bets. destruct (uid =? 0)%Z; [done|].
  generalize (due_wet_bets env s uid now). intros due. revert s.
  induction due as [|bet due IH]; intros s; [done|]. cbn [foldl].
  rewrite IH. apply resolve_wet_bet_users.
Qed.

(** C1 at its failing input: the wager of [wet_scn] is resolved EXACT
    with payout 10 x 1.5 x 2 = 30, marked RESOLVED with the observed
    percentage and the timestamp, yet the stored balance of its owner
    stays at 100: the crediting call raises and the handler only logs. *)
Theorem resolve_due_wet_bets_marks_but_does_not_credit :
  let s' := resolve_due_wet_bets env_default wet_scn 1 40000 "cdg_07157" in
  (exists bet, wet_bets s' = [bet]
     /\ wb_status bet = "RESOLVED" /\ wb_outcome bet = Some "EXACT"
     /\ wb_observed_pct bet = Some 80%Z /\ wb_resolved_at bet = Some 40000%Z
     /\ or_zero (wb_payout bet) == 30)
  /\ points_now wet_scn 1 = Some 100
  /\ points_now s' 1 = Some 100
  /\ remaining_points env_default s' 1 = remaining_points env_default wet_scn 1.
Proof.
  cbn zeta. split; [|split; [|split]].
  - eexists. repeat split; try (vm_compute; reflexivity).
  - reflexivity.
  - vm_compute; reflexivity.
  - vm_compute; reflexivity.
Qed.

(** ** Directional wager resolution: crediting (C2) *)

Lemma update_ppp_bet_users bid res now s :
  users (update_ppp_bet bid res now s) = users s.
Proof. reflexivity. Qed.

Lemma resolve_pending_bet_users env now cutoff s r :
  users (resolve_pending_bet env now cutoff s r).1 = users s.
Proof.
  unfold resolve_pending_bet.
  repeat (case_match; try done).
Qed.

(** The pending-bets resolver never writes to [user]. *)
Lemma resolve_pending_ppp_bets_users env now max_back_days s :
  users (resolve_pending_ppp_bets env now max_back_days s).1 = users s.
Proof.
  unfold resolve_pending_ppp_bets.
  generalize (pending_rows s) as rows.
  generalize 0%Z as n. revert s.
  intros s n rows. revert s n.
  induction rows as [|r rows IH]; intros s n; [done|].
  cbn [foldl fst snd].
  destruct (resolve_pending_bet env now _ s r) as [s1 upd] eqn:E.
  rewrite IH.
  change s1 with (s1, upd).1. rewrite <- E. apply resolve_pending_bet_users.
Qed.


(** ** Trading (C3) *)

(** On the default balance path (stored points readable, reconciliation
    off) the balance is a function of the [user] table alone. *)
Lemma remaining_points_default env s s' uid :
  POINTS_RECONCILE env = false ->
  is_Some (points_now s uid) ->
  users s' = users s ->
  remaining_points env s' uid = remaining_points env s uid.
Proof.
  intros Hrec [p Hp] Hu. unfold remaining_points, points_now, bonus_now in *.
  rewrite Hu, Hp, Hrec. reflexivity.
Qed.

(** A purchase writes to [ppp_bet] and [bet_listing] only. *)
Lemma trade_buy_listing_users env today now me_id listing_id s s' :
  trade_buy_listing env today now me_id listing_id s = Accepted s' ->
  users s' = users s.
Proof.
  unfold trade_buy_listing. intros H.
  repeat (case_match; try discriminate).
  by injection H as <-.
Qed.

(** C3 at its failing input: user 2 buys listing 3 of [trade_scn] for
    15 points.  The wager changes owner, is unlocked, and the listing is
    SOLD at 15; but [remaining_points] answers 100 for the seller and 20
    for the buyer both before and after the purchase. *)
Theorem trade_buy_listing_moves_no_points :
  exists s',
    trade_buy_listing env_default 5 0 2 3 trade_scn = Accepted s'
    /\ (exists b, ppp_bet_rows s' = [b]
          /\ pb_user_id b = 2%Z /\ pb_locked_for_trade b = 0%Z)
    /\ (exists l, bet_listing s' = [l]
          /\ bl_status l = "SOLD" /\ bl_buyer_id l = Some 2%Z
          /\ or_zero (bl_sale_price l) == 15)
    /\ remaining_points env_default trade_scn 1 == 100
    /\ remaining_points env_default s' 1 == 100
    /\ remaining_points env_default trade_scn 2 == 20
    /\ remaining_points env_default s' 2 == 20.
Proof.
  eexists. split; [vm_compute; reflexivity|].
  repeat split; try (eexists; repeat split); vm_compute; reflexivity.
Qed.

(** The same for every purchase on the default balance path: no balance
    moves. *)
Lemma trade_buy_listing_default_balances env today now me_id listing_id s s' uid :
  POINTS_RECONCILE env = false ->
  is_Some (points_now s uid) ->
  trade_buy_listing env today now me_id listing_id s = Accepted s' ->
  remaining_points env s' uid = remaining_points env s uid.
Proof.
  intros Hrec Hp Hbuy. apply remaining_points_default; [done..|].
  by eapply trade_buy_listing_users.
Qed.

(** Under [POINTS_RECONCILE=1] the ledger answers for both users of
    [trade_scn]: the buyer goes from 500 to 485, the seller from 488 to
    515, the price plus the stake the sold wager no longer locks. *)
Example trade_buy_listing_ledger_path :
  exists s',
    trade_buy_listing env_reconcile 5 0 2 3 trade_scn = Accepted s'
    /\ remaining_points env_reconcile trade_scn 2 == 500
    /\ remaining_points env_reconcile s' 2 == 485
    /\ remaining_points env_reconcile trade_scn 1 == 488
    /\ remaining_points env_reconcile s' 1 == 515.
Proof.
  eexists. split; [vm_compute; reflexivity|].
  repeat split; vm_compute; reflexivity.
Qed.

(** ** Boost rows and the schema (C9) *)

(** C9 at its failing inputs.  On a database made by [db.create_all()]
    the table has the model's constraint on two columns only, and every
    purchase ends in [server_error] with nothing written.  On a migrated
    database, where both constraints exist, a purchase for a second
    station of the same user and day ends in [conflict]; a repeated
    purchase for the same key is merged into the existing row. *)
Theorem ppp_boost_schema_mismatch :
  ppp_boost 1 (boost_req 10 "") create_all_db
    = (create_all_db, BoostError "server_error")
  /\ ppp_boost 1 (boost_req 10 "B") two_scopes_db
    = (two_scopes_db, BoostError "conflict")
  /\ (exists s' b,
        ppp_boost 1 (boost_req 10 "A") two_scopes_db = (s', BoostOk 10 9)
        /\ ppp_boosts s' = [b] /\ bo_station_id b = Some "A" /\ bo_value b == 10).
Proof.
  split; [vm_compute; reflexivity|].
  split; [vm_compute; reflexivity|].
  eexists _, _. split; [vm_compute; reflexivity|].
  repeat split; vm_compute; reflexivity.
Qed.

(** ** Hourly wager placement (C10) *)




(** ** Idempotent settlement (C8) *)

Lemma resolve_open_bet_unfold env now s r :
  resolve_open_bet env now s r =
    match open_resolution env s r with
    | None => (s, false)
    | Some res =>
        let s1 := update_ppp_bet (pb_id r) res now s in
        (if bool_decide (resolution_verdict res = "WIN")
         then credit_win r (coalesce_sid (pb_station_id r)) s1 else s1, true)
    end.
Proof.
  unfold resolve_open_bet, open_resolution.
  destruct (negb (is_choice (upper (pb_choice r)))); [done|].
  destruct (target_utc env r); [|done].
  by destruct (resolve_decision _ _ _ _ _).
Qed.

Lemma resolve_decision_obs s s' choice sid utc_from preset :
  meteo_obs_hourly s' = meteo_obs_hourly s ->
  resolve_decision s' choice sid utc_from preset
  = resolve_decision s choice sid utc_from preset.
Proof.
  intros H. unfold resolve_decision, _first_observation_after, first_obs_for.
  by rewrite H.
Qed.










(** ** Slot conflict rule (C5) *)

Lemma existsb_elem_of {A} (f : A -> bool) (l : list A) :
  existsb f l = true <-> exists x, x ∈ l /\ f x = true.
Proof.
  rewrite existsb_exists. split; intros (x & Hx & Hf); exists x; split;
    try done; by apply list_elem_of_In.
Qed.

Lemma hours_set_elem (bets : list PPPBet) (hhmm : string) :
  hhmm ∈ hours_set bets <-> exists b, b ∈ bets /\ b_hhmm b = hhmm.
Proof.
  unfold hours_set. rewrite elem_of_list_to_set, list_elem_of_fmap.
  split; intros (b & H1 & H2); exists b; done.
Qed.

(** C5: for a wager form on date [target], scope [bf_station_id] and
    time slot [hhmm]: (1) when an ACTIVE wager of the user with the
    opposite choice exists at that very (date, scope, time), the
    placement is rejected; (2) when three distinct time slots already
    carry ACTIVE wagers for (user, date, scope) and [hhmm] is a fourth
    one, the placement is rejected; (3) an otherwise valid placement
    (valid choice, positive amount within the budget, date within 1..31
    days) on one of the existing time slots, with no wager of the
    opposite choice on it, is accepted: the wager is stored on that
    slot, however many slots exist. *)
Theorem ppp_bet_slot_rules (env : Env) (today uid target : Z) (form : BetForm) (s : DB) :
  bf_date form = Parsed target ->
  let hhmm := clamp_hhmm (bf_target_time form) in
  let existing := existing_bets s uid target (bf_station_id form) in
  ((exists b, b ∈ ppp_bet_rows s
      /\ pb_user_id b = uid /\ pb_bet_date b = target
      /\ coalesce_sid (pb_station_id b) = bf_station_id form
      /\ pb_status b = "ACTIVE"
      /\ b_hhmm b = hhmm
      /\ upper (pb_choice b) = opposite_choice (bf_choice form)) ->
   exists msg, ppp_bet env today uid form s = Rejected msg)
  /\ ((3 <= size (hours_set existing))%nat -> hhmm ∉ hours_set existing ->
      exists msg, ppp_bet env today uid form s = Rejected msg)
  /\ (forall raw_amount,
        bf_amount form = Some raw_amount ->
        is_choice (bf_choice form) = true ->
        0 < py_round raw_amount 2 ->
        (1 <= target - today <= 31)%Z ->
        hhmm ∈ hours_set existing ->
        (forall b, b ∈ existing -> b_hhmm b = hhmm ->
                   upper (pb_choice b) <> opposite_choice (bf_choice form)) ->
        py_round raw_amount 2 <= remaining_points env s uid + (1 # 1000000) ->
        exists s' bet,
          ppp_bet env today uid form s = Accepted s'
          /\ ppp_bet_rows s' = ppp_bet_rows s ++ [bet]
          /\ pb_user_id bet = uid /\ pb_bet_date bet = target
          /\ pb_station_id bet = Some (bf_station_id form)
          /\ pb_target_time bet = Some hhmm
          /\ pb_choice bet = bf_choice form
          /\ pb_amount bet = py_round raw_amount 2
          /\ pb_status bet = "ACTIVE").
Proof.
  intros Hdate hhmm existing. unfold ppp_bet. rewrite Hdate.
  fold hhmm. fold existing.
  split; [|split].
  - intros (b & Hin & Hu & Hd & Hs & Hact & Hh & Hc).
    destruct (bf_amount form) as [raw|]; [|by eexists].
    destruct (negb (is_choice (bf_choice form)) || Qleb (py_round raw 2) 0);
      [by eexists|].
    destruct (target - today <? 1)%Z; [by eexists|].
    destruct (31 <? target - today)%Z; [by eexists|].
    assert (Hex : existsb (fun b => bool_decide (b_hhmm b = hhmm)
                     && bool_decide (upper (pb_choice b)
                                     = opposite_choice (bf_choice form)))
                    existing = true).
    { apply existsb_elem_of. exists b. split.
      - unfold existing, existing_bets. by apply list_elem_of_filter.
      - by rewrite !bool_decide_eq_true_2. }
    rewrite Hex. by eexists.
  - intros Hsize Hnew.
    destruct (bf_amount form) as [raw|]; [|by eexists].
    destruct (negb (is_choice (bf_choice form)) || Qleb (py_round raw 2) 0);
      [by eexists|].
    destruct (target - today <? 1)%Z; [by eexists|].
    destruct (31 <? target - today)%Z; [by eexists|].
    destruct (existsb _ existing); [by eexists|].
    rewrite (bool_decide_eq_true_2 _ Hnew).
    assert (Hs3 : (3 <=? size (hours_set existing))%nat = true)
      by (apply Nat.leb_le; lia).
    rewrite Hs3. by eexists.
  - intros raw Hraw Hchoice Hpos Hoff Hslot Hnoopp Hbudget.
    rewrite Hraw, Hchoice. cbn [negb orb].
    assert (E0 : Qleb (py_round raw 2) 0 = false) by (by apply Qleb_gt).
    rewrite E0.
    assert (E1 : (target - today <? 1)%Z = false) by lia.
    assert (E2 : (31 <? target - today)%Z = false) by lia.
    rewrite E1, E2.
    assert (E3 : existsb (fun b => bool_decide (b_hhmm b = hhmm)
                     && bool_decide (upper (pb_choice b)
                                     = opposite_choice (bf_choice form)))
                    existing = false).
    { apply not_true_is_false. intros Hex.
      apply existsb_elem_of in Hex as (b & Hb & Hf).
      apply andb_true_iff in Hf as [Hh Hc].
      apply bool_decide_eq_true in Hh, Hc. by apply (Hnoopp b). }
    rewrite E3.
    assert (E4 : bool_decide (hhmm ∉ hours_set existing) = false)
      by (apply bool_decide_eq_false; tauto).
    rewrite E4. cbn [andb].
    assert (E5 : Qltb (remaining_points env s uid + (1 # 1000000)) (py_round raw 2)
                 = false) by (by apply Qltb_ge).
    rewrite E5.
    eexists _, _. split; [reflexivity|].
    repeat split; reflexivity.
Qed.

Lemma ppp_bet_slot_rules_witness :
  (exists msg, ppp_bet env_default 5 1 (bet_form "PAS_PLUIE" 15 0) slot_scn = Rejected msg)
  /\ (exists msg, ppp_bet env_default 5 1 (bet_form "PLUIE" 12 0) slot_scn = Rejected msg)
  /\ (exists s' bet,
        ppp_bet env_default 5 1 (bet_form "PLUIE" 15 0) slot_scn = Accepted s'
        /\ ppp_bet_rows s' = ppp_bet_rows slot_scn ++ [bet]
        /\ pb_target_time bet = Some "15:00").
Proof.
  split; [|split].
  - destruct (ppp_bet_slot_rules env_default 5 1 10 (bet_form "PAS_PLUIE" 15 0) slot_scn
                eq_refl) as (H & _ & _).
    apply H. exists (slot_bet 2 "15:00").
    split; [apply list_elem_of_further, list_elem_of_here|].
    repeat split; reflexivity.
  - destruct (ppp_bet_slot_rules env_default 5 1 10 (bet_form "PLUIE" 12 0) slot_scn
                eq_refl) as (_ & H & _).
    apply H.
    + vm_compute. lia.
    + refine (bool_decide_eq_true_1 _ _); vm_compute; reflexivity.
  - destruct (ppp_bet_slot_rules env_default 5 1 10 (bet_form "PLUIE" 15 0) slot_scn
                eq_refl) as (_ & _ & H).
    destruct (H 5) as (s' & bet & Hacc & Hrows & _ & _ & _ & Htime & _).
    + reflexivity.
    + reflexivity.
    + reflexivity.
    + lia.
    + refine (bool_decide_eq_true_1 _ _); vm_compute; reflexivity.
    + intros b Hb _. vm_compute in Hb.
      repeat (apply elem_of_cons in Hb as [->|Hb]; [vm_compute; discriminate|]).
      by apply not_elem_of_nil in Hb.
    + vm_compute. discriminate.
    + exists s', bet. done.
Defined.

(** ** Boost cap (C4) *)

Lemma sum_where_nil {A} (P : A -> bool) (f : A -> Q) : sum_where P f [] = 0.
Proof. reflexivity. Qed.

Lemma sum_where_cons {A} (P : A -> bool) (f : A -> Q) (x : A) (t : list A) :
  sum_where P f (x :: t) == (if P x then f x else 0) + sum_where P f t.
Proof.
  unfold sum_where. destruct (P x) eqn:E.
  - rewrite filter_cons_True by done. cbn. reflexivity.
  - rewrite filter_cons_False by congruence. lra.
Qed.

Lemma sum_where_app {A} (P : A -> bool) (f : A -> Q) (t1 t2 : list A) :
  sum_where P f (t1 ++ t2) == sum_where P f t1 + sum_where P f t2.
Proof.
  induction t1 as [|x t1 IH].
  - rewrite sum_where_nil. cbn [app]. lra.
  - cbn [app]. rewrite !sum_where_cons, IH. lra.
Qed.

Lemma sum_where_alter {A} (P : A -> bool) (f : A -> Q) (g : A -> A) (t : list A) :
  forall i b,
    t !! i = Some b -> P (g b) = P b ->
    sum_where P f (alter g i t)
    == sum_where P f t + (if P b then f (g b) - f b else 0).
Proof.
  induction t as [|x t IH]; intros i b Hi Hg; [done|].
  destruct i as [|i]; cbn in Hi.
  - injection Hi as ->. cbn [alter list_alter].
    rewrite !sum_where_cons, Hg. destruct (P b); lra.
  - cbn [alter list_alter]. rewrite !sum_where_cons.
    fold (alter g i t). rewrite (IH i b Hi Hg). lra.
Qed.

Lemma boost_total_eq s uid d sid :
  boost_total s uid d sid = sum_where (boost_key uid d sid) bo_value (ppp_boosts s).
Proof. reflexivity. Qed.

Lemma upd_bolts_frame uid s s1 :
  upd_bolts uid s = Some s1 ->
  ppp_boosts s1 = ppp_boosts s
  /\ ppp_boosts_schema s1 = ppp_boosts_schema s
  /\ (0 < bolts_of s uid)%Z
  /\ bolts_of s1 uid = (bolts_of s uid - 1)%Z
  /\ (forall v, v <> uid -> users s1 !! v = users s !! v).
Proof.
  unfold upd_bolts, bolts_of. intros H.
  destruct (users s !! uid) as [u|] eqn:Hu; [|discriminate].
  destruct (Z.ltb_spec 0 (default 0%Z (u_bolts u))) as [Hpos|]; [|discriminate].
  injection H as <-. cbn.
  rewrite lookup_insert_eq. cbn.
  destruct (u_bolts u) as [n|]; cbn in *; [|lia].
  repeat split; try done; try lia.
  intros v Hv. by rewrite lookup_insert_ne.
Qed.

(** The upsert adds at most [inc] to the total of its own key, keeps
    the total below [cap] when it was, and leaves every other total as
    it was. *)
Lemma upsert_boost_total uid d sid inc cap s s2 u' d' sid' :
  upsert_boost uid d sid inc cap s = Return s2 ->
  users s2 = users s
  /\ (boost_key u' d' sid' {| bo_user_id := uid; bo_bet_date := d;
                            bo_station_id := Some sid; bo_value := 0 |} = false ->
      boost_total s2 u' d' sid' == boost_total s u' d' sid')
  /\ boost_total s2 uid d sid <= boost_total s uid d sid + inc.
Proof.
  unfold upsert_boost. intros H.
  destruct (negb _); [discriminate|].
  destruct (list_find _ (ppp_boosts s)) as [[i b]|] eqn:Hfind.
  - injection H as <-. apply list_find_Some in Hfind as (Hi & (Hu & Hd & Hs) & _).
    split; [done|].
    rewrite !boost_total_eq. cbn [ppp_boosts set_ppp_boosts].
    split.
    + intros Hkey.
      rewrite (sum_where_alter _ _ _ _ i b Hi) by done.
      assert (Hkb : boost_key u' d' sid' b = false).
      { rewrite <- Hkey. unfold boost_key. cbn. by rewrite Hu, Hd, Hs. }
      rewrite Hkb. lra.
    + rewrite (sum_where_alter _ _ _ _ i b Hi) by done.
      assert (Hkb : boost_key uid d sid b = true).
      { unfold boost_key. rewrite Hu, Hd, Hs, !Z.eqb_refl. cbn.
        by apply bool_decide_eq_true_2. }
      rewrite Hkb. cbn [boost_set_value bo_value].
      pose proof (Q.le_min_l (bo_value b + inc) cap). lra.
  - destruct (_ && _); [discriminate|]. injection H as <-.
    split; [done|].
    rewrite !boost_total_eq. cbn [ppp_boosts set_ppp_boosts].
    split.
    + intros Hkey. rewrite sum_where_app, sum_where_cons, sum_where_nil.
      assert (Hkb : boost_key u' d' sid'
                      {| bo_user_id := uid; bo_bet_date := d;
                         bo_station_id := Some sid; bo_value := Qmin inc cap |}
                    = false) by exact Hkey.
      rewrite Hkb. lra.
    + rewrite sum_where_app, sum_where_cons, sum_where_nil.
      assert (Hkb : boost_key uid d sid
                      {| bo_user_id := uid; bo_bet_date := d;
                         bo_station_id := Some sid; bo_value := Qmin inc cap |}
                    = true).
      { unfold boost_key. cbn. rewrite !Z.eqb_refl. cbn.
        by apply bool_decide_eq_true_2. }
      rewrite Hkb. cbn [bo_value].
      pose proof (Q.le_min_l inc cap). lra.
Qed.

(** The ways [ppp_boost] ends: an error with the state as it was, or a
    bolt decrement followed by the upsert of the clamped increment. *)
Lemma ppp_boost_cases uid req s :
  (exists e, ppp_boost uid req s = (s, BoostError e))
  \/ (exists inc_req d s1 s2,
        requested_increment req = Some inc_req
        /\ bq_date req = Parsed d
        /\ 0 < inc_req
        /\ eps12 < cap_value - boost_total s uid d (default "" (bq_station_id req))
        /\ upd_bolts uid s = Some s1
        /\ upsert_boost uid d (default "" (bq_station_id req))
             (Qmin inc_req (cap_value
                            - boost_total s uid d (default "" (bq_station_id req))))
             cap_value s1 = Return s2
        /\ ppp_boost uid req s
           = (s2, BoostOk (boost_total s2 uid d (default "" (bq_station_id req)))
                          (bolts_of s2 uid))).
Proof.
  unfold ppp_boost.
  destruct (requested_increment req) as [inc_req|]; [|left; by eexists].
  destruct (Qleb inc_req 0) eqn:Hinc; [left; by eexists|].
  apply Qleb_gt in Hinc.
  destruct (bq_date req) as [| |d]; [left; by eexists..|].
  destruct (Qleb (cap_value - _) _) eqn:Hrem; [left; by eexists|].
  apply Qleb_gt in Hrem.
  destruct (Qleb (Qmin _ _) _); [left; by eexists|].
  destruct (upd_bolts uid s) as [s1|] eqn:Hb; [|left; by eexists].
  destruct (upsert_boost _ _ _ _ _ s1) as [s2|e] eqn:Hup.
  - right. exists inc_req, d, s1, s2. done.
  - left. destruct e; by eexists.
Qed.

Lemma boost_key_own u' d' sid' uid d sid v :
  boost_key u' d' sid' {| bo_user_id := uid; bo_bet_date := d;
                          bo_station_id := Some sid; bo_value := v |} = true ->
  u' = uid /\ d' = d /\ sid' = sid.
Proof.
  unfold boost_key. cbn. intros H.
  apply andb_true_iff in H as [H H3]. apply andb_true_iff in H as [H1 H2].
  apply bool_decide_eq_true in H3. split; [lia|]. split; [lia|done].
Qed.

(** One purchase keeps every total at or below the cap. *)
Lemma ppp_boost_keeps_cap uid req s :
  (forall u d sid, boost_total s u d sid <= cap_value) ->
  forall u d sid, boost_total (ppp_boost uid req s).1 u d sid <= cap_value.
Proof.
  intros Hinv u' d' sid'.
  destruct (ppp_boost_cases uid req s)
    as [[e ->] | (inc_req & d & s1 & s2 & _ & _ & _ & _ & Hb & Hup & ->)];
    [apply Hinv|].
  cbn [fst].
  apply upd_bolts_frame in Hb as (Hrows & _).
  assert (Hsame : forall a b c, boost_total s1 a b c = boost_total s a b c).
  { intros. unfold boost_total. by rewrite Hrows. }
  pose proof (upsert_boost_total _ _ _ _ _ _ _ u' d' sid' Hup) as (_ & Hother & Hown).
  destruct (boost_key u' d' sid'
              {| bo_user_id := uid; bo_bet_date := d;
                 bo_station_id := Some (default "" (bq_station_id req));
                 bo_value := 0 |}) eqn:Hkey.
  - apply boost_key_own in Hkey as (-> & -> & ->).
    rewrite Hsame in Hown.
    pose proof (Q.le_min_r inc_req
                  (cap_value - boost_total s uid d (default "" (bq_station_id req)))).
    lra.
  - rewrite (Hother eq_refl), Hsame. apply Hinv.
Qed.

Lemma run_boosts_keeps_cap reqs :
  forall s,
    (forall u d sid, boost_total s u d sid <= cap_value) ->
    forall u d sid, boost_total (run_boosts reqs s) u d sid <= cap_value.
Proof.
  induction reqs as [|[uid req] reqs IH]; intros s Hinv; [exact Hinv|].
  unfold run_boosts. cbn [foldl fst snd]. apply IH.
  by apply ppp_boost_keeps_cap.
Qed.

(** Starting from a table without boost rows, no sequence of purchases
    brings an aggregate above the cap. *)
Lemma run_boosts_from_empty reqs s u d sid :
  ppp_boosts s = [] ->
  boost_total (run_boosts reqs s) u d sid <= cap_value.
Proof.
  intros Hempty. apply run_boosts_keeps_cap.
  intros u' d' sid'. rewrite boost_total_eq, Hempty, sum_where_nil.
  apply Qle_bool_iff. reflexivity.
Qed.



(** ** The scope-filtered resolver credits a WIN *)

Lemma list_find_update_by_id (rows : list PPPBet) (bid : Z) (g : PPPBet -> PPPBet) i b :
  (forall x, pb_id (g x) = pb_id x) ->
  list_find (fun x => pb_id x = bid) rows = Some (i, b) ->
  list_find (fun x => pb_id x = bid)
    ((fun x => if (pb_id x =? bid)%Z then g x else x) <$> rows)
  = Some (i, g b).
Proof.
  intros Hg Hfind. rewrite list_find_fmap.
  rewrite (list_find_ext _ (fun x => pb_id x = bid)).
  - rewrite Hfind. cbn. apply list_find_Some in Hfind as (_ & Hid & _).
    by rewrite Hid, Z.eqb_refl.
  - intros x. cbn. destruct (pb_id x =? bid)%Z; [by rewrite Hg|done].
Qed.

(** On the lazy path a WIN credits [amount * (odds + boost aggregate)]
    to the stored points of the owner in the same turn of the loop. *)
Lemma resolve_open_bet_credits_win env now s r res i b u :
  open_resolution env s r = Some res ->
  resolution_verdict res = "WIN" ->
  list_find (fun x => pb_id x = pb_id r) (ppp_bet_rows s) = Some (i, b) ->
  users s !! pb_user_id r = Some u ->
  0 < pb_amount b * (pb_odds b + boost_total s (pb_user_id r) (date_key r)
                                   (coalesce_sid (pb_station_id r))) ->
  points_now (resolve_open_bet env now s r).1 (pb_user_id r)
  = Some (or_zero (u_points u)
          + pb_amount b * (pb_odds b + boost_total s (pb_user_id r) (date_key r)
                                         (coalesce_sid (pb_station_id r)))).
Proof.
  intros Hres Hwin Hfind Hu Hpos.
  rewrite resolve_open_bet_unfold, Hres. cbn [fst].
  rewrite (bool_decide_eq_true_2 _ Hwin).
  unfold credit_win, update_ppp_bet. cbn [ppp_bet_rows set_ppp_bet_rows].
  rewrite (list_find_update_by_id _ _ (apply_resolution res now) i b) by done.
  cbn [apply_resolution pb_amount pb_odds].
  change (boost_total (set_ppp_bet_rows _ s)) with (boost_total s).
  apply Qltb_lt in Hpos. rewrite Hpos.
  unfold points_now, add_points. cbn [users set_users set_ppp_bet_rows].
  rewrite lookup_alter_eq, Hu. reflexivity.
Qed.

(** ** The upsert merges purchases for one key *)

Lemma boost_keys_alter g i rows :
  (forall b, bo_user_id (g b) = bo_user_id b /\ bo_bet_date (g b) = bo_bet_date b
             /\ bo_station_id (g b) = bo_station_id b) ->
  boost_keys (alter g i rows) = boost_keys rows.
Proof.
  intros Hg. unfold boost_keys. revert i.
  induction rows as [|x rows IH]; intros [|i]; try done.
  - cbn. destruct (Hg x) as (-> & -> & ->). done.
  - cbn. fold (alter g i rows). by rewrite IH.
Qed.

(** Uniqueness of the three-column key is kept by every purchase: a
    purchase for a key that has a row updates that row, and only a
    purchase for a new key adds one. *)
Lemma ppp_boost_keeps_unique_keys uid req s :
  NoDup (boost_keys (ppp_boosts s)) ->
  NoDup (boost_keys (ppp_boosts (ppp_boost uid req s).1)).
Proof.
  intros Hnd.
  destruct (ppp_boost_cases uid req s)
    as [[e ->] | (inc_req & d & s1 & s2 & _ & _ & _ & _ & Hb & Hup & ->)];
    [done|].
  cbn [fst]. apply upd_bolts_frame in Hb as (Hrows & _).
  unfold upsert_boost in Hup.
  destruct (negb _); [discriminate|]. rewrite Hrows in Hup.
  destruct (list_find _ (ppp_boosts s)) as [[i b]|] eqn:Hfind.
  - injection Hup as <-. cbn [ppp_boosts set_ppp_boosts]. rewrite Hrows.
    by rewrite boost_keys_alter.
  - destruct (_ && _); [discriminate|]. injection Hup as <-.
    cbn [ppp_boosts set_ppp_boosts]. rewrite Hrows.
    unfold boost_keys. rewrite omap_app. cbn.
    apply NoDup_app. split; [done|]. split; [|apply NoDup_singleton].
    intros k Hk Hin. apply list_elem_of_singleton in Hin as ->.
    apply list_elem_of_omap in Hk as (x & Hx & Hkx).
    destruct (bo_station_id x) as [sx|] eqn:Hsx; [|discriminate].
    cbn in Hkx. injection Hkx as Hu Hd ->.
    eapply list_find_None in Hfind. rewrite Forall_forall in Hfind.
    by apply (Hfind x Hx).
Qed.

(** * Further properties of the settlement and odds core *)

(** ** Rounding keeps bounds *)

Lemma py_round_int_ge (n : Z) (x : Q) :
  inject_Z n <= x -> (n <= py_round_int x)%Z.
Proof.
  intros H. unfold py_round_int.
  assert (Hf : (n <= Qfloor x)%Z).
  { rewrite <- (Qfloor_Z n). by apply Qfloor_resp_le. }
  destruct (Qcompare _ _); [destruct (Z.even _)|..]; lia.
Qed.

Lemma py_round_int_le (n : Z) (x : Q) :
  x <= inject_Z n -> (py_round_int x <= n)%Z.
Proof.
  intros H. unfold py_round_int.
  assert (Hf : (Qfloor x <= n)%Z).
  { rewrite <- (Qfloor_Z n). by apply Qfloor_resp_le. }
  destruct (Z.eq_dec (Qfloor x) n) as [Heq|Hne].
  - assert (Hx : x - inject_Z (Qfloor x) <= 0).
    { rewrite Heq. lra. }
    destruct (Qcompare _ _) eqn:E.
    + apply Qeq_alt in E. lra.
    + lia.
    + apply Qgt_alt in E. lra.
  - destruct (Qcompare _ _); [destruct (Z.even _)|..]; lia.
Qed.

(** Rounding to 2 decimals keeps a value between two bounds that are
    themselves whole numbers of hundredths. *)
Lemma py_round_2_bounds (a b : Z) (x : Q) :
  inject_Z a / 100 <= x <= inject_Z b / 100 ->
  inject_Z a / 100 <= py_round x 2 <= inject_Z b / 100.
Proof.
  intros [Ha Hb]. unfold py_round. change (pow10 2) with 100.
  assert (Hlo : (a <= py_round_int (x * 100))%Z).
  { apply py_round_int_ge.
    assert (E : inject_Z a / 100 == inject_Z a * (1 # 100)) by field.
    rewrite E in Ha. lra. }
  assert (Hhi : (py_round_int (x * 100) <= b)%Z).
  { apply py_round_int_le.
    assert (E : inject_Z b / 100 == inject_Z b * (1 # 100)) by field.
    rewrite E in Hb. lra. }
  rewrite Zle_Qle in Hlo, Hhi.
  set (k := inject_Z (py_round_int (x * 100))) in *.
  assert (E1 : inject_Z a / 100 == inject_Z a * (1 # 100)) by field.
  assert (E2 : inject_Z b / 100 == inject_Z b * (1 # 100)) by field.
  assert (E3 : k / 100 == k * (1 # 100)) by field.
  rewrite E1, E2, E3. split; lra.
Qed.

Lemma py_round_2_in_1_3 (x : Q) : 1 <= x <= 3 -> 1 <= py_round x 2 <= 3.
Proof.
  intros H.
  destruct (py_round_2_bounds 100 300 x) as [H1 H2].
  - split; [apply Qle_trans with 1 | apply Qle_trans with 3]; try tauto;
      apply Qle_bool_iff; reflexivity.
  - split; [apply Qle_trans with (inject_Z 100 / 100)
           | apply Qle_trans with (inject_Z 300 / 100)]; try done;
      apply Qle_bool_iff; reflexivity.
Qed.

(** ** Placement window and odds bounds *)

Lemma validate_window (target today : Z) :
  ((exists offset odds, ppp_validate_can_bet target today = inr (offset, odds))
   <-> (1 <= target - today <= 31)%Z)
  /\ (forall offset odds,
        ppp_validate_can_bet target today = inr (offset, odds) ->
        offset = (target - today)%Z /\ ppp_odds_for_offset offset = Some odds).
Proof.
  assert (Htotal : forall d, (1 <= d <= 31)%Z -> is_Some (ppp_odds_for_offset d)).
  { intros d Hd.
    assert (Hall : forallb (fun a => bool_decide (is_Some (ppp_odds_for_offset a)))
                     (seqZ 1 31) = true) by (vm_compute; reflexivity).
    rewrite forallb_forall in Hall.
    apply (bool_decide_eq_true_1 _), Hall, list_elem_of_In, elem_of_seqZ. lia. }
  unfold ppp_validate_can_bet. split; [split|].
  - intros (offset & odds & H).
    destruct (Z.ltb_spec target today); [discriminate|].
    destruct (Z.ltb_spec (target - today) 1); [discriminate|].
    destruct (Z.ltb_spec 31 (target - today)); [discriminate|]. lia.
  - intros Hd.
    destruct (Z.ltb_spec target today); [lia|].
    destruct (Z.ltb_spec (target - today) 1); [lia|].
    destruct (Z.ltb_spec 31 (target - today)); [lia|].
    destruct (Htotal _ Hd) as [o Ho]. rewrite Ho. by eexists _, _.
  - intros offset odds H.
    destruct (target <? today)%Z; [discriminate|].
    destruct (target - today <? 1)%Z; [discriminate|].
    destruct (31 <? target - today)%Z; [discriminate|].
    destruct (ppp_odds_for_offset (target - today)) eqn:E; [|discriminate].
    injection H as <- <-. done.
Qed.

Lemma odds_from_prob_in_1_3 (p : Q) :
  1 <= (_odds_from_prob p).1 <= 3 /\ 1 <= (_odds_from_prob p).2 <= 3.
Proof.
  unfold _odds_from_prob, PPP_ODDS_MIN, PPP_ODDS_MAX. cbn [fst snd].
  split; apply py_round_2_in_1_3; split;
    try apply Q.le_max_l;
    (apply Q.max_lub; [apply Qle_bool_iff; reflexivity | apply Q.le_min_l]).
Qed.

Lemma blend_in_1_3 (k d h predef f : Q) :
  0 <= k -> d == 2 + k -> 1 <= h <= 3 -> 1 <= predef <= 3 -> 1 <= f <= 3 ->
  1 <= (1 * h + 1 * predef + k * f) / d <= 3.
Proof.
  intros Hk Hd Hh Hp Hf.
  assert (Hpos : 0 < d) by lra.
  split.
  - apply Qle_shift_div_l; [done|]. nra.
  - apply Qle_shift_div_r; [done|]. nra.
Qed.

Lemma combined_odds_in_1_3 (env : Env) (today target : Z) (station : string)
    (comb : CombinedOdds) :
  ppp_combined_odds env today station target = inr comb ->
  1 <= co_base_odds comb <= 3
  /\ 1 <= co_combined_pluie comb <= 3
  /\ 1 <= co_combined_pas_pluie comb <= 3.
Proof.
  unfold ppp_combined_odds. intros H.
  destruct (ppp_validate_can_bet target today) as [msg|[offset base]] eqn:Hv;
    [discriminate|].
  pose proof (validate_window target today) as [[Hwin _] Hoff].
  destruct (Hoff _ _ Hv) as [-> Hodds].
  assert (Hrange : (1 <= target - today <= 31)%Z) by (apply Hwin; eauto).
  pose proof (PPP_ODDS_bounds _ _ Hrange Hodds) as Hbase.
  pose proof (py_round_2_in_1_3 _ Hbase) as Hb2.
  destruct (_hist_prob_pluie_for_mmdd env station target) as [p|].
  - pose proof (odds_from_prob_in_1_3 p) as [Hhp Hhd].
    destruct (_odds_from_prob p) as [hp hd]. cbn [fst snd] in Hhp, Hhd.
    assert (Hstd : forall h, 1 <= h <= 3 -> 1 <= py_round ((h + base) / 2) 2 <= 3).
    { intros h Hh. apply py_round_2_in_1_3. split.
      - apply Qle_shift_div_l; lra.
      - apply Qle_shift_div_r; lra. }
    destruct (negb _).
    { injection H as <-. cbn. auto. }
    destruct (ppp_forecast_signal_for_day env station target) as [sig|].
    2: { injection H as <-. cbn. auto. }
    destruct (bool_decide (sig = "PLUIE"));
      destruct (target - today =? 1)%Z; [| destruct (target - today =? 2)%Z | |
                                           destruct (target - today =? 2)%Z];
      injection H as <-; cbn [co_base_odds co_combined_pluie co_combined_pas_pluie];
      (split; [done|]); split; apply py_round_2_in_1_3;
      apply blend_in_1_3; first [lra | reflexivity | (split; lra) | done].
  - injection H as <-. cbn. auto.
Qed.

(** X1: [ppp_validate_can_bet] accepts a target exactly when it is 1 to
    31 days ahead, and then returns that offset with the table's odds
    for it; any other target gets a message and no odds. *)
Theorem ppp_validate_can_bet_window (target today : Z) :
  ((exists offset odds, ppp_validate_can_bet target today = inr (offset, odds))
   <-> (1 <= target - today <= 31)%Z)
  /\ (forall offset odds,
        ppp_validate_can_bet target today = inr (offset, odds) ->
        offset = (target - today)%Z /\ ppp_odds_for_offset offset = Some odds).
Proof. exact (validate_window target today). Qed.

(** X2: whatever the probability, even outside [0, 1], the two odds of
    [_odds_from_prob] lie between 1.0 and 3.0. *)
Theorem _odds_from_prob_bounds (p : Q) :
  1 <= (_odds_from_prob p).1 <= 3 /\ 1 <= (_odds_from_prob p).2 <= 3.
Proof. exact (odds_from_prob_in_1_3 p). Qed.

(** X3: whenever [ppp_combined_odds] returns odds, the base odds and
    the combined odds of both choices lie between 1.0 and 3.0, with or
    without a historical sample or a forecast. *)
Theorem ppp_combined_odds_bounds (env : Env) (today target : Z) (station : string)
    (comb : CombinedOdds) :
  ppp_combined_odds env today station target = inr comb ->
  1 <= co_base_odds comb <= 3
  /\ 1 <= co_combined_pluie comb <= 3
  /\ 1 <= co_combined_pas_pluie comb <= 3.
Proof. exact (combined_odds_in_1_3 env today target station comb). Qed.

Lemma ppp_combined_odds_bounds_witness :
  exists comb,
    ppp_combined_odds env_blend 0 "" 1 = inr comb
    /\ 1 <= co_combined_pluie comb <= 3.
Proof.
  eexists. split; [vm_compute; reflexivity|].
  refine (proj1 (proj2 (ppp_combined_odds_bounds env_blend 0 1 "" _ _))).
  vm_compute; reflexivity.
Defined.

(** ** Placing a directional wager *)

Lemma captured_odds_in_1_3 env today scope target choice :
  1 <= captured_odds env today scope target choice <= 3.
Proof.
  unfold captured_odds.
  destruct (ppp_combined_odds env today scope target) as [msg|comb] eqn:E.
  { split; apply Qle_bool_iff; reflexivity. }
  destruct (combined_odds_in_1_3 _ _ _ _ _ E) as (Hb & Hp & Hd).
  set (pick := if bool_decide (choice = "PLUIE") then _ else _).
  assert (Hpick : 1 <= pick <= 3) by (unfold pick; by destruct (bool_decide _)).
  set (final := if Qeq_bool pick 0 then _ else _).
  assert (Hfinal : 1 <= final <= 3) by (unfold final; by destruct (Qeq_bool _ _)).
  assert (Hpos : Qltb 0 final = true) by (apply Qltb_lt; lra).
  by rewrite Hpos.
Qed.

(** The time text [clamp_hhmm] makes has the five characters HH:MM. *)
Lemma clamp_hhmm_shape raw :
  exists a b c d,
    clamp_hhmm raw = String a (String b (String ":" (String c (String d EmptyString)))).
Proof. destruct raw as [[h m]|]; eexists _, _, _, _; reflexivity. Qed.

Lemma take5_clamp_hhmm raw : take5 (clamp_hhmm raw) = clamp_hhmm raw.
Proof. destruct (clamp_hhmm_shape raw) as (a & b & c & d & ->). reflexivity. Qed.

Lemma b_hhmm_new_bet s uid target choice amount odds scope raw :
  b_hhmm (new_ppp_bet s uid target choice amount odds scope (clamp_hhmm raw))
  = clamp_hhmm raw.
Proof.
  unfold b_hhmm. cbn [pb_target_time new_ppp_bet].
  destruct (clamp_hhmm_shape raw) as (a & b & c & d & E). rewrite E. reflexivity.
Qed.

(** The ways [ppp_bet] accepts: all checks passed, one row appended and
    one debit. *)
Lemma ppp_bet_accepted_inv env today uid form s s' :
  ppp_bet env today uid form s = Accepted s' ->
  exists raw target,
    bf_amount form = Some raw /\ bf_date form = Parsed target
    /\ is_choice (bf_choice form) = true
    /\ 0 < py_round raw 2
    /\ (1 <= target - today <= 31)%Z
    /\ py_round raw 2 <= remaining_points env s uid + (1 # 1000000)
    /\ s' = debit_points uid (py_round raw 2)
              (set_ppp_bet_rows
                 (fun t => t ++ [new_ppp_bet s uid target (bf_choice form) (py_round raw 2)
                                   (captured_odds env today (bf_station_id form) target
                                      (bf_choice form))
                                   (bf_station_id form)
                                   (clamp_hhmm (bf_target_time form))]) s).
Proof.
  unfold ppp_bet. intros H.
  destruct (bf_amount form) as [raw|]; [|discriminate].
  destruct (bf_date form) as [| |target]; [discriminate| |].
  { by destruct (_ || _). }
  destruct (is_choice (bf_choice form)) eqn:Hc; [|discriminate].
  cbn [negb orb] in H.
  destruct (Qleb (py_round raw 2) 0) eqn:Hpos; [discriminate|].
  apply Qleb_gt in Hpos.
  destruct (Z.ltb_spec (target - today) 1); [discriminate|].
  destruct (Z.ltb_spec 31 (target - today)); [discriminate|].
  destruct (existsb _ _); [discriminate|].
  destruct (_ && _); [discriminate|].
  destruct (Qltb _ _) eqn:Hb; [discriminate|].
  apply Qltb_ge in Hb.
  injection H as <-. exists raw, target. repeat split; try done; lia.
Qed.

(** X4: an accepted directional wager is stored as one new ACTIVE row,
    funded from the balance and not locked, on a date 1 to 31 days
    ahead, with a positive stake rounded to 2 decimals, a valid choice,
    a five-character HH:MM time, and captured odds between 1.0 and 3.0;
    the rows already stored are kept as they were. *)
Theorem ppp_bet_accepted_row (env : Env) (today uid : Z) (form : BetForm) (s s' : DB) :
  ppp_bet env today uid form s = Accepted s' ->
  exists bet,
    ppp_bet_rows s' = ppp_bet_rows s ++ [bet]
    /\ pb_user_id bet = uid
    /\ pb_status bet = "ACTIVE"
    /\ pb_funded_from_balance bet = Some 1%Z
    /\ pb_locked_for_trade bet = 0%Z
    /\ (1 <= pb_bet_date bet - today <= 31)%Z
    /\ is_choice (pb_choice bet) = true
    /\ 0 < pb_amount bet
    /\ (exists raw, bf_amount form = Some raw /\ pb_amount bet = py_round raw 2)
    /\ 1 <= pb_odds bet <= 3
    /\ (exists t, pb_target_time bet = Some t /\ String.length t = 5%nat /\ take5 t = t).
Proof.
  intros H.
  apply ppp_bet_accepted_inv in H
    as (raw & target & Hraw & _ & Hc & Hpos & Hoff & _ & ->).
  eexists. split; [reflexivity|].
  cbn [new_ppp_bet pb_user_id pb_status pb_funded_from_balance pb_locked_for_trade
       pb_bet_date pb_choice pb_amount pb_odds pb_target_time].
  repeat split; try done; try lia; try apply captured_odds_in_1_3.
  { by exists raw. }
  exists (clamp_hhmm (bf_target_time form)). split; [done|].
  split; [|apply take5_clamp_hhmm].
  destruct (clamp_hhmm_shape (bf_target_time form)) as (a & b & c & d & ->).
  reflexivity.
Qed.

Lemma ppp_bet_accepted_row_witness :
  exists s' bet,
    ppp_bet env_default 5 1 (bet_form "PLUIE" 15 0) slot_scn = Accepted s'
    /\ ppp_bet_rows s' = ppp_bet_rows slot_scn ++ [bet]
    /\ 1 <= pb_odds bet <= 3.
Proof.
  eexists.
  destruct (ppp_bet_accepted_row env_default 5 1 (bet_form "PLUIE" 15 0) slot_scn _
              ltac:(vm_compute; reflexivity))
    as (bet & Hrows & _ & _ & _ & _ & _ & _ & _ & _ & Hodds & _).
  exists bet. split; [reflexivity|]. split; [exact Hrows | exact Hodds].
Defined.

Lemma debit_points_lookup uid amt s v :
  users (debit_points uid amt s) !! v
  = if decide (v = uid)
    then (fun u => {| u_points := Some (default 500 (u_points u) - amt);
                      u_bonus_points := u_bonus_points u;
                      u_bolts := u_bolts u |}) <$> users s !! uid
    else users s !! v.
Proof.
  unfold debit_points. cbn [users set_users].
  destruct (decide (v = uid)) as [->|Hne].
  - by rewrite lookup_alter_eq.
  - by rewrite lookup_alter_ne.
Qed.

(** X5: an accepted directional wager debits the stored points of the
    placing user by exactly the stake of the stored row (an unset
    balance counts as 500)
    and writes to no other user; on the default balance path the
    balance returned by [remaining_points] falls by the stake and is
    not below -0.000001 afterwards. *)
Theorem ppp_bet_debits_stake (env : Env) (today uid : Z) (form : BetForm) (s s' : DB) :
  ppp_bet env today uid form s = Accepted s' ->
  exists bet amount,
    ppp_bet_rows s' = ppp_bet_rows s ++ [bet] /\ pb_amount bet = amount
    /\ 0 < amount
    /\ (forall v, v <> uid -> users s' !! v = users s !! v)
    /\ (forall u, users s !! uid = Some u ->
          exists u', users s' !! uid = Some u'
            /\ u_points u' = Some (default 500 (u_points u) - amount)
            /\ u_bonus_points u' = u_bonus_points u /\ u_bolts u' = u_bolts u)
    /\ (uid <> 0%Z -> POINTS_RECONCILE env = false -> is_Some (points_now s uid) ->
        remaining_points env s' uid == remaining_points env s uid - amount
        /\ - (1 # 1000000) <= remaining_points env s' uid).
Proof.
  intros H.
  apply ppp_bet_accepted_inv in H
    as (raw & target & _ & _ & _ & Hpos & _ & Hbud & ->).
  eexists _, (py_round raw 2). split; [reflexivity|]. split; [reflexivity|].
  split; [done|]. split; [|split].
  - intros v Hv. rewrite debit_points_lookup. by rewrite decide_False.
  - intros u Hu. rewrite debit_points_lookup, decide_True by done.
    cbn [users set_ppp_bet_rows]. rewrite Hu.
    eexists. split; [reflexivity|]. done.
  - intros Hid Hrec [p Hp].
    assert (Hz : (uid =? 0)%Z = false) by lia.
    unfold points_now in Hp.
    destruct (users s !! uid) as [u|] eqn:Hu; [|discriminate]. cbn in Hp.
    assert (Hafter : remaining_points env
                       (debit_points uid (py_round raw 2)
                          (set_ppp_bet_rows
                             (fun t => t ++ [new_ppp_bet s uid target (bf_choice form)
                                               (py_round raw 2)
                                               (captured_odds env today (bf_station_id form)
                                                  target (bf_choice form))
                                               (bf_station_id form)
                                               (clamp_hhmm (bf_target_time form))]) s))
                       uid
                     = p - py_round raw 2 + or_zero (u_bonus_points u)).
    { unfold remaining_points, points_now, bonus_now.
      rewrite Hz, debit_points_lookup, decide_True by done.
      cbn [users set_ppp_bet_rows]. rewrite Hu, Hrec. cbn. by rewrite Hp. }
    assert (Hbefore : remaining_points env s uid = p + or_zero (u_bonus_points u)).
    { unfold remaining_points, points_now, bonus_now.
      rewrite Hz, Hu, Hrec. cbn. by rewrite Hp. }
    rewrite Hafter. rewrite Hbefore in *. split; lra.
Qed.

Lemma ppp_bet_debits_stake_witness :
  exists s',
    ppp_bet env_default 5 1 (bet_form "PLUIE" 15 0) slot_scn = Accepted s'
    /\ remaining_points env_default slot_scn 1 == 500
    /\ remaining_points env_default s' 1 == 495.
Proof.
  eexists. split; [vm_compute; reflexivity|].
  destruct (ppp_bet_debits_stake env_default 5 1 (bet_form "PLUIE" 15 0) slot_scn _
              ltac:(vm_compute; reflexivity)) as (bet & amount & _).
  split; vm_compute; reflexivity.
Defined.

Lemma is_choice_cases c :
  is_choice c = true -> c = "PLUIE" \/ c = "PAS_PLUIE".
Proof.
  unfold is_choice. intros H. apply orb_true_iff in H as [H|H];
    apply bool_decide_eq_true in H; auto.
Qed.

(** X6: once a directional wager is accepted, a placement by the same
    user with the opposite choice on the same date, scope and time is
    rejected, whatever its amount. *)
Theorem ppp_bet_then_opposite_rejected (env : Env) (today uid : Z)
    (form form' : BetForm) (s s' : DB) :
  ppp_bet env today uid form s = Accepted s' ->
  bf_date form' = bf_date form ->
  bf_station_id form' = bf_station_id form ->
  bf_target_time form' = bf_target_time form ->
  bf_choice form' = opposite_choice (bf_choice form) ->
  exists msg, ppp_bet env today uid form' s' = Rejected msg.
Proof.
  intros H Hd Hs Ht Hc.
  apply ppp_bet_accepted_inv in H
    as (raw & target & _ & Hdate & Hchoice & _ & _ & _ & ->).
  set (bet := new_ppp_bet s uid target (bf_choice form) (py_round raw 2)
                (captured_odds env today (bf_station_id form) target (bf_choice form))
                (bf_station_id form) (clamp_hhmm (bf_target_time form))).
  unfold ppp_bet. rewrite Hd, Hdate, Hs, Ht.
  destruct (bf_amount form') as [raw'|]; [|by eexists].
  destruct (negb (is_choice (bf_choice form')) || Qleb (py_round raw' 2) 0);
    [by eexists|].
  destruct (target - today <? 1)%Z; [by eexists|].
  destruct (31 <? target - today)%Z; [by eexists|].
  assert (Hex : existsb (fun b => bool_decide (b_hhmm b = clamp_hhmm (bf_target_time form))
                     && bool_decide (upper (pb_choice b)
                                     = opposite_choice (bf_choice form')))
                  (existing_bets
                     (debit_points uid (py_round raw 2)
                        (set_ppp_bet_rows (fun t => t ++ [bet]) s))
                     uid target (bf_station_id form)) = true).
  { apply existsb_elem_of. exists bet. split.
    - unfold existing_bets. apply list_elem_of_filter. split; [done|].
      cbn [ppp_bet_rows debit_points set_users set_ppp_bet_rows].
      apply elem_of_app. right. apply list_elem_of_here.
    - unfold bet. rewrite b_hhmm_new_bet, bool_decide_eq_true_2 by done.
      cbn [andb new_ppp_bet pb_choice]. apply bool_decide_eq_true_2.
      rewrite Hc. by destruct (is_choice_cases _ Hchoice) as [-> | ->]. }
  rewrite Hex. by eexists.
Qed.

Lemma ppp_bet_then_opposite_rejected_witness :
  exists s' msg,
    ppp_bet env_default 5 1 (bet_form "PLUIE" 15 0) slot_scn = Accepted s'
    /\ ppp_bet env_default 5 1 (bet_form "PAS_PLUIE" 15 0) s' = Rejected msg.
Proof.
  eexists.
  destruct (ppp_bet_then_opposite_rejected env_default 5 1
              (bet_form "PLUIE" 15 0) (bet_form "PAS_PLUIE" 15 0) slot_scn _
              ltac:(vm_compute; reflexivity) eq_refl eq_refl eq_refl eq_refl)
    as [msg Hmsg].
  exists msg. split; [vm_compute; reflexivity | exact Hmsg].
Defined.

(** X7: [clamp_hhmm] always answers a time HH:MM of five characters
    with the hour in 0..23 and the minute in 0..59; hours and minutes
    out of range are clamped to the nearest bound, a text that does not
    parse gives 18:00, and a time already in range is kept. *)
Theorem clamp_hhmm_range (raw : option (Z * Z)) :
  exists h m,
    (0 <= h <= 23)%Z /\ (0 <= m <= 59)%Z
    /\ clamp_hhmm raw = fmt02 h +:+ ":" +:+ fmt02 m
    /\ String.length (clamp_hhmm raw) = 5%nat
    /\ clamp_hhmm (Some (h, m)) = clamp_hhmm raw
    /\ match raw with
       | Some (h0, m0) =>
           (h = Z.max 0 (Z.min 23 h0) /\ m = Z.max 0 (Z.min 59 m0))
           /\ ((0 <= h0 <= 23)%Z -> h = h0) /\ ((0 <= m0 <= 59)%Z -> m = m0)
       | None => h = 18%Z /\ m = 0%Z
       end.
Proof.
  destruct raw as [[h0 m0]|].
  - exists (Z.max 0 (Z.min 23 h0)), (Z.max 0 (Z.min 59 m0)).
    split; [lia|]. split; [lia|]. split; [reflexivity|]. split; [reflexivity|].
    split.
    + unfold clamp_hhmm.
      replace (Z.max 0 (Z.min 23 (Z.max 0 (Z.min 23 h0))))
        with (Z.max 0 (Z.min 23 h0)) by lia.
      replace (Z.max 0 (Z.min 59 (Z.max 0 (Z.min 59 m0))))
        with (Z.max 0 (Z.min 59 m0)) by lia.
      reflexivity.
    + repeat split; lia.
  - exists 18%Z, 0%Z. repeat split; try lia; reflexivity.
Qed.

(** ** Placing an hourly wager *)

Lemma wet_at_accepted_inv env now uid form s s' :
  wet_at env now uid form s = Accepted s' ->
  exists slot_dt target_pct amount,
    wf_slot form = Parsed slot_dt /\ wf_numbers form = Some (target_pct, amount)
    /\ (0 <= target_pct <= 100)%Z /\ 0 < amount
    /\ (floor_hour now + 7200 <= slot_dt)%Z
    /\ (utc_to_paris env now < slot_dt)%Z
    /\ (is_Some (users s !! uid) ->
        amount <= remaining_points env s uid + (1 # 1000000000))
    /\ match list_find (fun b => wb_user_id b = uid /\ wb_slot_dt b = slot_dt
                                 /\ wb_status b = "ACTIVE") (wet_bets s) with
       | Some (_, e) => wb_target_pct e = target_pct
       | None => True
       end
    /\ s' = set_wet_bets
              (fun t => t ++ [new_wet_bet s uid slot_dt target_pct amount
                                (wet_odds slot_dt (utc_to_paris env now))]) s.
Proof.
  unfold wet_at. intros H.
  destruct (wf_numbers form) as [[target_pct amount]|]; [|discriminate].
  destruct (wf_slot form) as [| |slot_dt]; [discriminate| |].
  { by destruct (_ || _). }
  destruct (Z.ltb_spec target_pct 0); [discriminate|].
  destruct (Z.ltb_spec 100 target_pct); [discriminate|].
  cbn [orb] in H.
  destruct (Qleb amount 0) eqn:Hpos; [discriminate|]. apply Qleb_gt in Hpos.
  destruct (Z.ltb_spec slot_dt (floor_hour now + 2 * 3600)); [discriminate|].
  destruct (Qltb _ amount) eqn:Hb; [discriminate|]. apply Qltb_ge in Hb.
  assert (Hbud : is_Some (users s !! uid) ->
                 amount <= remaining_points env s uid + (1 # 1000000000)).
  { intros [u Hu]. by rewrite Hu in Hb. }
  clear Hb. cbn zeta in H.
  destruct (list_find _ (wet_bets s)) as [[i e]|] eqn:Hfind.
  - destruct (Z.eqb_spec (wb_target_pct e) target_pct); [|discriminate].
    cbn [negb] in H.
    destruct (Z.leb_spec slot_dt (utc_to_paris env now)); [discriminate|].
    injection H as <-. exists slot_dt, target_pct, amount.
    rewrite Hfind. repeat split; try done; try lia.
  - destruct (Z.leb_spec slot_dt (utc_to_paris env now)); [discriminate|].
    injection H as <-. exists slot_dt, target_pct, amount.
    rewrite Hfind. repeat split; try done; try lia.
Qed.

Lemma wet_odds_bounds slot_dt now_paris :
  12 # 10 <= wet_odds slot_dt now_paris <= 3.
Proof.
  unfold wet_odds. split; [apply Q.le_max_l|].
  apply Q.max_lub; [apply Qle_bool_iff; reflexivity | apply Q.le_min_l].
Qed.

(** The one-clock reading of the route is its two-clock reading at an
    instant where both wall clocks show the same time. *)
Lemma wet_at_same_clock env now uid form s :
  utc_to_paris env now = now ->
  wet_at env now uid form s = wet env now uid form s.
Proof. intros H. unfold wet_at, wet. cbn zeta. by rewrite H. Qed.

(** X8: an accepted hourly wager is stored as one new ACTIVE row of the
    placing user, on a slot at least two hours after the start of the
    current hour of the UTC wall clock and later than the current Paris
    time, with a target between 0 and 100, a positive stake rounded to 6
    decimals that the balance of an existing user covers (within
    0.000000001), and odds between 1.2 and 3.0; the rows already stored
    are kept as they were. *)
Theorem wet_accepted_row (env : Env) (now uid : Z) (form : WetForm) (s s' : DB) :
  wet_at env now uid form s = Accepted s' ->
  exists bet amount,
    wet_bets s' = wet_bets s ++ [bet]
    /\ wb_user_id bet = uid
    /\ wb_status bet = "ACTIVE"
    /\ (floor_hour now + 7200 <= wb_slot_dt bet)%Z
    /\ (utc_to_paris env now < wb_slot_dt bet)%Z
    /\ (0 <= wb_target_pct bet <= 100)%Z
    /\ 0 < amount /\ wb_amount bet = py_round amount 6
    /\ (is_Some (users s !! uid) ->
        amount <= remaining_points env s uid + (1 # 1000000000))
    /\ 12 # 10 <= wb_odds bet <= 3
    /\ wb_payout bet = None /\ wb_outcome bet = None.
Proof.
  intros H.
  apply wet_at_accepted_inv in H
    as (slot & target & amount & _ & _ & Ht & Hpos & Hcut & Hnow & Hbud & _ & ->).
  eexists _, amount. split; [reflexivity|].
  cbn [new_wet_bet wb_user_id wb_status wb_slot_dt wb_target_pct wb_amount wb_odds
       wb_payout wb_outcome].
  repeat split; try done; try lia; apply wet_odds_bounds.
Qed.

Lemma wet_accepted_row_witness :
  exists s' bet,
    wet_at env_default 0 1 (wet_form 36000 80 10) wet_scn = Accepted s'
    /\ wet_bets s' = wet_bets wet_scn ++ [bet]
    /\ 12 # 10 <= wb_odds bet <= 3.
Proof.
  eexists.
  destruct (wet_accepted_row env_default 0 1 (wet_form 36000 80 10) wet_scn _
              ltac:(vm_compute; reflexivity))
    as (bet & amount & Hrows & _ & _ & _ & _ & _ & _ & _ & _ & Hodds & _).
  exists bet. split; [vm_compute; reflexivity|]. split; [exact Hrows | exact Hodds].
Defined.

(** X9: one target per slot.  After an hourly wager is accepted, a
    placement by the same user on the same slot with another target is
    rejected, whenever it is made; only the same target can be staked
    again. *)
Theorem wet_then_other_target_rejected (env : Env) (now now' uid : Z)
    (form form' : WetForm) (s s' : DB) (slot_dt target target' : Z) (amount amount' : Q) :
  wet_at env now uid form s = Accepted s' ->
  wf_slot form = Parsed slot_dt -> wf_numbers form = Some (target, amount) ->
  wf_slot form' = Parsed slot_dt -> wf_numbers form' = Some (target', amount') ->
  target' <> target ->
  exists msg, wet_at env now' uid form' s' = Rejected msg.
Proof.
  intros H Hs Hn Hs' Hn' Hne.
  apply wet_at_accepted_inv in H
    as (slot & tg & am & Hs2 & Hn2 & _ & _ & _ & _ & _ & Hfirst & ->).
  rewrite Hs in Hs2. rewrite Hn in Hn2. injection Hs2 as <-. injection Hn2 as <- <-.
  unfold wet_at. rewrite Hn', Hs'.
  destruct (_ || _); [by eexists|].
  destruct (slot_dt <? _)%Z; [by eexists|].
  destruct (Qltb _ amount'); [by eexists|].
  cbn [wet_bets set_wet_bets].
  set (P := fun b => wb_user_id b = uid /\ wb_slot_dt b = slot_dt
                     /\ wb_status b = "ACTIVE") in *.
  set (bet := new_wet_bet s uid slot_dt target amount
                (wet_odds slot_dt (utc_to_paris env now))).
  assert (Hfound : exists i e, list_find P (wet_bets s ++ [bet]) = Some (i, e)
                               /\ wb_target_pct e = target).
  { destruct (list_find P (wet_bets s)) as [[i e]|] eqn:Hf.
    - exists i, e. split; [|done]. apply list_find_app_Some. by left.
    - exists (length (wet_bets s) + 0)%nat, bet. split; [|done].
      apply list_find_app_Some. right. split; [lia|]. split; [done|].
      replace (length (wet_bets s) + 0 - length (wet_bets s))%nat with 0%nat by lia.
      apply list_find_Some. split; [done|]. split; [done|]. intros j y _ Hj. lia. }
  destruct Hfound as (i & e & -> & Ht).
  rewrite Ht.
  assert (Hneq : (target =? target')%Z = false) by lia.
  rewrite Hneq. by eexists.
Qed.

Lemma wet_then_other_target_rejected_witness :
  exists s' msg,
    wet_at env_default 0 1 (wet_form 36000 80 10) wet_scn = Accepted s'
    /\ wet_at env_default 3600 1 (wet_form 36000 70 10) s' = Rejected msg.
Proof.
  eexists.
  destruct (wet_then_other_target_rejected env_default 0 3600 1
              (wet_form 36000 80 10) (wet_form 36000 70 10) wet_scn _
              36000 80 70 10 10
              ltac:(vm_compute; reflexivity) eq_refl eq_refl eq_refl eq_refl
              ltac:(lia))
    as [msg Hmsg].
  exists msg. split; [vm_compute; reflexivity | exact Hmsg].
Defined.

(** ** Hourly resolver: idempotence and frame *)

Lemma get_observed_humidity_obs env s s' slot station :
  humidity_obs s' = humidity_obs s ->
  get_observed_humidity_paris env s' slot station
  = get_observed_humidity_paris env s slot station.
Proof. intros H. unfold get_observed_humidity_paris. by rewrite H. Qed.

(** One turn of the hourly loop: without an observation nothing
    changes; with one, the rows with the wager's id become RESOLVED. *)
Lemma resolve_wet_bet_effect env station now uid s bet :
  humidity_obs (resolve_wet_bet env station now uid s bet) = humidity_obs s
  /\ match get_observed_humidity_paris env s (wb_slot_dt bet) station with
     | None => resolve_wet_bet env station now uid s bet = s
     | Some observed =>
         exists bet',
           wb_status bet' = "RESOLVED" /\ wb_id bet' = wb_id bet
           /\ wb_user_id bet' = wb_user_id bet
           /\ wet_bets (resolve_wet_bet env station now uid s bet)
              = (fun b => if (wb_id b =? wb_id bet)%Z then bet' else b) <$> wet_bets s
     end.
Proof.
  unfold resolve_wet_bet.
  destruct (get_observed_humidity_paris env s (wb_slot_dt bet) station) as [obs|];
    [|done].
  destruct (wet_decision bet obs) as [[o out] pay].
  split.
  - by destruct (Qltb 0 pay).
  - eexists. split; [|split; [|split]]; cycle 3.
    + destruct (Qltb 0 pay); cbn; reflexivity.
    + reflexivity.
    + reflexivity.
    + reflexivity.
Qed.

Lemma resolve_wet_fold_inv env station now uid rows :
  forall s,
    let final := foldl (resolve_wet_bet env station now uid) s rows in
    humidity_obs final = humidity_obs s
    /\ forall b, b ∈ wet_bets final -> wb_status b = "ACTIVE" ->
         b ∈ wet_bets s
         /\ forall r, r ∈ rows -> wb_id r = wb_id b ->
              get_observed_humidity_paris env s (wb_slot_dt r) station = None.
Proof.
  induction rows as [|r rows IH]; intros s; cbn zeta.
  - cbn [foldl]. split; [done|]. intros b Hb _. split; [done|].
    intros r Hr. by apply not_elem_of_nil in Hr.
  - cbn [foldl].
    destruct (IH (resolve_wet_bet env station now uid s r)) as [Hobs Hrows].
    pose proof (resolve_wet_bet_effect env station now uid s r) as [Hobs1 Heff].
    split; [by rewrite Hobs|].
    intros b Hb Hact. destruct (Hrows b Hb Hact) as [Hin Hnone].
    destruct (get_observed_humidity_paris env s (wb_slot_dt r) station) as [o|] eqn:Ho.
    + destruct Heff as (bet' & Hst & Hid & _ & Heq).
      rewrite Heq in Hin. apply list_elem_of_fmap in Hin as (x & -> & Hx).
      cbn beta in *.
      destruct (Z.eqb_spec (wb_id x) (wb_id r)) as [Heq'|Hne]; [congruence|].
      split; [done|].
      intros r' Hr' Hid'. apply elem_of_cons in Hr' as [->|Hr']; [congruence|].
      rewrite <- (get_observed_humidity_obs env s _ _ station Hobs1). by apply Hnone.
    + rewrite Heff in Hin. split; [done|].
      intros r' Hr' Hid'. apply elem_of_cons in Hr' as [->|Hr']; [done|].
      rewrite <- (get_observed_humidity_obs env s _ _ station Hobs1). by apply Hnone.
Qed.

Lemma resolve_wet_fold_skip env station now uid rows s :
  (forall r, r ∈ rows ->
             get_observed_humidity_paris env s (wb_slot_dt r) station = None) ->
  foldl (resolve_wet_bet env station now uid) s rows = s.
Proof.
  induction rows as [|r rows IH]; intros H; [done|].
  cbn [foldl].
  assert (Hr : resolve_wet_bet env station now uid s r = s).
  { unfold resolve_wet_bet. by rewrite (H r) by apply list_elem_of_here. }
  rewrite Hr. apply IH. intros r' Hr'. apply H. by apply list_elem_of_further.
Qed.

Lemma elem_of_due_wet_bets env s uid now b :
  b ∈ due_wet_bets env s uid now
  <-> (wb_user_id b = uid /\ wb_status b = "ACTIVE"
       /\ (wb_slot_dt b <= floor_hour (utc_to_paris env now))%Z)
      /\ b ∈ wet_bets s.
Proof.
  unfold due_wet_bets. rewrite merge_sort_Permutation.
  by rewrite list_elem_of_filter.
Qed.

Lemma resolve_due_wet_bets_twice env s uid now now' station :
  floor_hour (utc_to_paris env now') = floor_hour (utc_to_paris env now) ->
  let s1 := resolve_due_wet_bets env s uid now station in
  resolve_due_wet_bets env s1 uid now' station = s1.
Proof.
  intros Hclock. cbn zeta. unfold resolve_due_wet_bets.
  destruct (uid =? 0)%Z; [done|].
  pose proof (resolve_wet_fold_inv env station now uid (due_wet_bets env s uid now) s)
    as [Hobs Hrows].
  set (s1 := foldl (resolve_wet_bet env station now uid) s (due_wet_bets env s uid now))
    in *.
  apply resolve_wet_fold_skip. intros r Hr.
  apply elem_of_due_wet_bets in Hr as [(Hu & Hact & Hdue) Hin].
  destruct (Hrows r Hin Hact) as [Hin0 Hnone].
  rewrite (get_observed_humidity_obs env s s1 _ station Hobs).
  apply Hnone; [|done]. apply elem_of_due_wet_bets. rewrite <- Hclock. done.
Qed.

(** X10: running the hourly resolver a second time within the same
    Paris hour on the state a first run produced changes nothing: the wagers
    it resolved are RESOLVED and no longer selected, and those it left
    ACTIVE for lack of an observation are left again. *)
Theorem resolve_due_wet_bets_idempotent (env : Env) (s : DB) (uid now now' : Z)
    (station : string) :
  floor_hour (utc_to_paris env now') = floor_hour (utc_to_paris env now) ->
  resolve_due_wet_bets env (resolve_due_wet_bets env s uid now station) uid now' station
  = resolve_due_wet_bets env s uid now station.
Proof. exact (resolve_due_wet_bets_twice env s uid now now' station). Qed.

Lemma resolve_due_wet_bets_idempotent_witness :
  resolve_due_wet_bets env_default
    (resolve_due_wet_bets env_default wet_scn 1 40000 "cdg_07157") 1 40000 "cdg_07157"
  = resolve_due_wet_bets env_default wet_scn 1 40000 "cdg_07157".
Proof.
  apply (resolve_due_wet_bets_idempotent env_default wet_scn 1 40000 40000 "cdg_07157").
  reflexivity.
Defined.

Lemma resolve_wet_fold_keeps env station now uid rows :
  forall s b,
    b ∈ wet_bets s ->
    (forall r, r ∈ rows -> wb_id r = wb_id b ->
               get_observed_humidity_paris env s (wb_slot_dt r) station = None) ->
    b ∈ wet_bets (foldl (resolve_wet_bet env station now uid) s rows).
Proof.
  induction rows as [|r rows IH]; intros s b Hb Hnone; [done|].
  cbn [foldl].
  pose proof (resolve_wet_bet_effect env station now uid s r) as [Hobs1 Heff].
  apply IH.
  - destruct (get_observed_humidity_paris env s (wb_slot_dt r) station) as [o|] eqn:Ho.
    + destruct Heff as (bet' & _ & _ & _ & ->).
      apply list_elem_of_fmap. exists b. split; [|done].
      destruct (Z.eqb_spec (wb_id b) (wb_id r)) as [Heq|]; [|done].
      rewrite (Hnone r) in Ho; [discriminate|apply list_elem_of_here|done].
    + by rewrite Heff.
  - intros r' Hr' Hid.
    rewrite (get_observed_humidity_obs env s _ _ station Hobs1).
    apply Hnone; [by apply list_elem_of_further|done].
Qed.

Lemma resolve_wet_fold_length env station now uid rows :
  forall s,
    length (wet_bets (foldl (resolve_wet_bet env station now uid) s rows))
    = length (wet_bets s).
Proof.
  induction rows as [|r rows IH]; intros s; [done|].
  cbn [foldl]. rewrite IH.
  pose proof (resolve_wet_bet_effect env station now uid s r) as [_ Heff].
  destruct (get_observed_humidity_paris env s (wb_slot_dt r) station).
  - destruct Heff as (bet' & _ & _ & _ & ->). by rewrite length_fmap.
  - by rewrite Heff.
Qed.

Lemma NoDup_fmap_elem_eq {A B} (f : A -> B) (l : list A) (x y : A) :
  NoDup (f <$> l) -> x ∈ l -> y ∈ l -> f x = f y -> x = y.
Proof.
  intros Hnd Hx Hy Hf.
  apply list_elem_of_lookup in Hx as [i Hi]. apply list_elem_of_lookup in Hy as [j Hj].
  assert (i = j).
  { eapply NoDup_lookup; [exact Hnd| |].
    - rewrite list_lookup_fmap, Hi. reflexivity.
    - rewrite list_lookup_fmap, Hj. cbn. by rewrite Hf. }
  subst j. congruence.
Qed.

(** X11: the hourly resolver changes only wagers of the given user that
    are ACTIVE, due, and have an observation.  With distinct wager ids,
    every other row (another user's, already resolved, not yet due, or
    without an observation) is kept as it was, and no row is added or
    removed. *)
Theorem resolve_due_wet_bets_frame (env : Env) (s : DB) (uid now : Z)
    (station : string) (b : WetBet) :
  NoDup (wb_id <$> wet_bets s) ->
  b ∈ wet_bets s ->
  wb_user_id b <> uid \/ wb_status b <> "ACTIVE"
  \/ (floor_hour (utc_to_paris env now) < wb_slot_dt b)%Z
  \/ get_observed_humidity_paris env s (wb_slot_dt b) station = None ->
  b ∈ wet_bets (resolve_due_wet_bets env s uid now station)
  /\ length (wet_bets (resolve_due_wet_bets env s uid now station))
     = length (wet_bets s).
Proof.
  intros Hnd Hb Hcond. unfold resolve_due_wet_bets.
  destruct (uid =? 0)%Z; [done|].
  split; [|apply resolve_wet_fold_length].
  apply resolve_wet_fold_keeps; [done|].
  intros r Hr Hid.
  apply elem_of_due_wet_bets in Hr as [(Hu & Hact & Hdue) Hin].
  assert (r = b) as -> by (by eapply (NoDup_fmap_elem_eq wb_id)).
  destruct Hcond as [?|[?|[?|?]]]; try done. lia.
Qed.

Lemma resolve_due_wet_bets_frame_witness :
  wet_scn_bet ∈ wet_bets (resolve_due_wet_bets env_default wet_scn 2 40000 "cdg_07157")
  /\ length (wet_bets (resolve_due_wet_bets env_default wet_scn 2 40000 "cdg_07157"))
     = length (wet_bets wet_scn).
Proof.
  apply (resolve_due_wet_bets_frame env_default wet_scn 2 40000 "cdg_07157" wet_scn_bet).
  - vm_compute. repeat constructor. apply not_elem_of_nil.
  - apply list_elem_of_here.
  - left. vm_compute. discriminate.
Defined.

(** ** The catch-up resolver *)

Lemma resolve_pending_bet_cases env now cutoff s r :
  (resolve_pending_bet env now cutoff s r = (s, false))
  \/ exists res, resolve_pending_bet env now cutoff s r
                 = (update_ppp_bet (pb_id r) res now s, true).
Proof.
  unfold resolve_pending_bet.
  destruct (negb _); [by left|].
  destruct (target_utc env r); [|by left].
  destruct (_ || _); [by left|].
  destruct (resolve_decision _ _ _ _ _) as [res|]; [right; by exists res|by left].
Qed.

Lemma resolve_pending_bet_obs env now cutoff s s' r :
  meteo_obs_hourly s' = meteo_obs_hourly s ->
  (resolve_pending_bet env now cutoff s' r).2
  = (resolve_pending_bet env now cutoff s r).2.
Proof.
  intros H. unfold resolve_pending_bet.
  destruct (negb _); [done|].
  destruct (target_utc env r); [|done].
  destruct (_ || _); [done|].
  rewrite (resolve_decision_obs s s' _ _ _ _ H).
  by destruct (resolve_decision _ _ _ _ _).
Qed.

Lemma resolve_pending_bet_skip env now cutoff s r :
  (resolve_pending_bet env now cutoff s r).2 = false ->
  resolve_pending_bet env now cutoff s r = (s, false).
Proof.
  destruct (resolve_pending_bet_cases env now cutoff s r) as [->|[res ->]]; [done|].
  discriminate.
Qed.

Lemma resolve_pending_bet_meteo env now cutoff s r :
  meteo_obs_hourly (resolve_pending_bet env now cutoff s r).1 = meteo_obs_hourly s.
Proof.
  by destruct (resolve_pending_bet_cases env now cutoff s r) as [->|[res ->]].
Qed.

Lemma resolve_pending_step_fst env now cutoff (acc : DB * Z) r :
  (let '(s', upd) := resolve_pending_bet env now cutoff acc.1 r in
   (s', if upd then (acc.2 + 1)%Z else acc.2)).1
  = (resolve_pending_bet env now cutoff acc.1 r).1.
Proof. by destruct (resolve_pending_bet env now cutoff acc.1 r). Qed.

(** After the loop over [rows], a row that is still ACTIVE is a row of
    the initial table whose turns were all skipped. *)
Lemma resolve_pending_fold_inv env now cutoff rows :
  forall acc,
    let final := foldl (fun acc r =>
                          let '(s', upd) := resolve_pending_bet env now cutoff acc.1 r in
                          (s', if upd then (acc.2 + 1)%Z else acc.2)) acc rows in
    meteo_obs_hourly final.1 = meteo_obs_hourly acc.1
    /\ forall b, b ∈ ppp_bet_rows final.1 ->
         (pb_status b = "RESOLVED" \/ b ∈ ppp_bet_rows acc.1)
         /\ (pb_status b = "ACTIVE" ->
             b ∈ ppp_bet_rows acc.1
             /\ forall r, r ∈ rows -> pb_id r = pb_id b ->
                  (resolve_pending_bet env now cutoff acc.1 r).2 = false).
Proof.
  induction rows as [|r rows IH]; intros acc; cbn zeta.
  - cbn [foldl]. split; [done|]. intros b Hb. split; [by right|].
    intros _. split; [done|]. intros r Hr. by apply not_elem_of_nil in Hr.
  - cbn [foldl].
    match goal with |- context [foldl ?f ?a rows] => destruct (IH a) as [Hobs Hrows] end.
    rewrite resolve_pending_step_fst in Hobs, Hrows.
    pose proof (resolve_pending_bet_meteo env now cutoff acc.1 r) as Hobs1.
    split; [by rewrite Hobs|].
    intros b Hb. destruct (Hrows b Hb) as [Hres Hact].
    destruct (resolve_pending_bet_cases env now cutoff acc.1 r) as [E|[res E]].
    + rewrite E in Hres, Hact, Hobs1. cbn [fst] in *. split; [done|].
      intros Ha. destruct (Hact Ha) as [Hin Hskip]. split; [done|].
      intros r' Hr' Hid. apply elem_of_cons in Hr' as [->|Hr'].
      * by rewrite E.
      * by apply Hskip.
    + rewrite E in Hres, Hact, Hobs1. cbn [fst] in *.
      assert (Hcase : forall x, x ∈ ppp_bet_rows (update_ppp_bet (pb_id r) res now acc.1) ->
                pb_status x = "RESOLVED"
                \/ (x ∈ ppp_bet_rows acc.1 /\ pb_id x <> pb_id r)).
      { intros x Hx. unfold update_ppp_bet in Hx. cbn [ppp_bet_rows set_ppp_bet_rows] in Hx.
        apply list_elem_of_fmap in Hx as (y & -> & Hy).
        destruct (Z.eqb_spec (pb_id y) (pb_id r)); [by left|by right]. }
      split.
      * destruct Hres as [?|Hin]; [by left|].
        destruct (Hcase b Hin) as [?|[? _]]; [by left|by right].
      * intros Ha. destruct (Hact Ha) as [Hin Hskip].
        destruct (Hcase b Hin) as [Hr|[Hin0 Hne]]; [by rewrite Ha in Hr|].
        split; [done|].
        intros r' Hr' Hid. apply elem_of_cons in Hr' as [->|Hr']; [congruence|].
        rewrite <- (resolve_pending_bet_obs env now cutoff acc.1 _ r' Hobs1).
        by apply Hskip.
Qed.

Lemma resolve_pending_fold_skip env now cutoff rows s n :
  (forall r, r ∈ rows -> (resolve_pending_bet env now cutoff s r).2 = false) ->
  foldl (fun acc r =>
           let '(s', upd) := resolve_pending_bet env now cutoff acc.1 r in
           (s', if upd then (acc.2 + 1)%Z else acc.2)) (s, n) rows = (s, n).
Proof.
  induction rows as [|r rows IH]; intros H; [done|].
  cbn [foldl fst snd].
  rewrite (resolve_pending_bet_skip env now cutoff s r) by (apply H, list_elem_of_here).
  apply IH. intros r' Hr'. apply H. by apply list_elem_of_further.
Qed.

Lemma pending_row_active b : pending_row b = true -> pb_status b = "ACTIVE".
Proof.
  unfold pending_row, is_status. intros H.
  apply andb_true_iff in H as [_ H]. by apply bool_decide_eq_true in H.
Qed.

Lemma resolve_pending_ppp_bets_twice env now max_back_days s :
  let s1 := (resolve_pending_ppp_bets env now max_back_days s).1 in
  resolve_pending_ppp_bets env now max_back_days s1 = (s1, 0%Z)
  /\ forall b, b ∈ ppp_bet_rows s1 ->
       pb_status b = "RESOLVED" \/ b ∈ ppp_bet_rows s.
Proof.
  cbn zeta. unfold resolve_pending_ppp_bets. cbn zeta.
  set (cutoff := (now - max_back_days * 86400)%Z).
  pose proof (resolve_pending_fold_inv env now cutoff (pending_rows s) (s, 0%Z))
    as [Hobs Hrows]. cbn zeta in Hobs, Hrows. cbn [fst] in Hobs, Hrows.
  match type of Hobs with meteo_obs_hourly (?f).1 = _ => set (s1 := f.1) in * end.
  split.
  - apply resolve_pending_fold_skip.
    intros r Hr. unfold pending_rows in Hr.
    apply list_elem_of_filter in Hr as [Hsel Hin].
    destruct (Hrows r Hin) as [_ Hact].
    destruct (Hact (pending_row_active _ Hsel)) as [Hin0 Hskip].
    rewrite (resolve_pending_bet_obs env now cutoff s s1 r Hobs).
    apply Hskip; [|done]. unfold pending_rows. by apply list_elem_of_filter.
  - intros b Hb. by destruct (Hrows b Hb) as [H _].
Qed.

(** X12: the catch-up resolver run a second time at the same instant on
    the state its first run produced changes nothing and counts no
    wager; and every row of that state is RESOLVED or a row of the
    initial table: no wager is added or deleted by it. *)
Theorem resolve_pending_ppp_bets_idempotent (env : Env) (now max_back_days : Z) (s : DB) :
  let s1 := (resolve_pending_ppp_bets env now max_back_days s).1 in
  resolve_pending_ppp_bets env now max_back_days s1 = (s1, 0%Z)
  /\ forall b, b ∈ ppp_bet_rows s1 ->
       pb_status b = "RESOLVED" \/ b ∈ ppp_bet_rows s.
Proof. exact (resolve_pending_ppp_bets_twice env now max_back_days s). Qed.

(** ** The resolver only ever credits *)








(** ** Observation look-ups *)

Lemma first_asc_foldl {A} (key : A -> Z) (l : list A) :
  forall acc,
    let step := fun acc x =>
                  match acc with
                  | None => Some x
                  | Some m => if (key x <? key m)%Z then Some x else Some m
                  end in
    match foldl step acc l with
    | None => acc = None /\ l = []
    | Some m =>
        (Some m = acc \/ m ∈ l)
        /\ (forall a, acc = Some a -> (key m <= key a)%Z)
        /\ (forall x, x ∈ l -> (key m <= key x)%Z)
    end.
Proof.
  induction l as [|x l IH]; intros acc; cbn zeta.
  - cbn [foldl]. destruct acc as [a|]; [|done].
    split; [by left|]. split; [intros ? [= <-]; lia|].
    intros x Hx. by apply not_elem_of_nil in Hx.
  - cbn [foldl].
    match goal with |- context [foldl ?f ?a l] => specialize (IH a) end.
    cbn zeta in IH.
    match goal with |- context [foldl ?f ?a l] => destruct (foldl f a l) as [m|] end.
    + destruct IH as (Hm & Hacc & Hl).
      destruct acc as [a|].
      * destruct (Z.ltb_spec (key x) (key a)).
        -- split; [right; destruct Hm as [[= ->]|Hm];
                   [apply list_elem_of_here|by apply list_elem_of_further]|].
           split.
           ++ intros a' [= <-]. specialize (Hacc x eq_refl). lia.
           ++ intros y Hy. apply elem_of_cons in Hy as [->|Hy]; [by apply Hacc|by apply Hl].
        -- split; [destruct Hm as [Hm|Hm]; [by left|right; by apply list_elem_of_further]|].
           split.
           ++ intros a' [= <-]. by apply Hacc.
           ++ intros y Hy. apply elem_of_cons in Hy as [->|Hy]; [|by apply Hl].
              specialize (Hacc a eq_refl). lia.
      * split; [right; destruct Hm as [[= ->]|Hm];
                [apply list_elem_of_here|by apply list_elem_of_further]|].
        split; [done|].
        intros y Hy. apply elem_of_cons in Hy as [->|Hy]; [by apply Hacc|by apply Hl].
    + destruct IH as [IH _]. by destruct acc as [a|]; [destruct (_ <? _)%Z|].
Qed.

Lemma first_asc_Some {A} (key : A -> Z) (l : list A) m :
  first_asc key l = Some m -> m ∈ l /\ forall x, x ∈ l -> (key m <= key x)%Z.
Proof.
  intros H. pose proof (first_asc_foldl key l None) as F. cbn zeta in F.
  unfold first_asc in H. rewrite H in F. destruct F as ([?|?] & _ & ?); done.
Qed.

Lemma first_asc_None {A} (key : A -> Z) (l : list A) :
  first_asc key l = None <-> l = [].
Proof.
  split; [|by intros ->].
  intros H. pose proof (first_asc_foldl key l None) as F. cbn zeta in F.
  unfold first_asc in H. rewrite H in F. by destruct F.
Qed.

Lemma mm_eff_nonneg o : 0 <= mm_eff o.
Proof.
  unfold mm_eff. destruct (mo_rain_mm o) as [mm|].
  - destruct (Qleb 0 mm) eqn:E; [by apply Qleb_le in E|lra].
  - destruct (mo_code o) as [c|]; [|lra]. destruct (60 <=? c)%Z; lra.
Qed.

Lemma first_obs_for_Some s sid t0 o :
  first_obs_for s sid t0 = Some o ->
  o ∈ meteo_obs_hourly s /\ mo_station_id o = sid /\ (t0 <= mo_ts_utc o)%Z
  /\ forall o', o' ∈ meteo_obs_hourly s -> mo_station_id o' = sid ->
       (t0 <= mo_ts_utc o')%Z -> (mo_ts_utc o <= mo_ts_utc o')%Z.
Proof.
  intros H. apply first_asc_Some in H as [Hin Hmin].
  apply list_elem_of_filter in Hin as [[Hs Ht] Hin].
  repeat split; try done.
  intros o' Ho' Hs' Ht'. apply Hmin. by apply list_elem_of_filter.
Qed.

Lemma first_obs_for_None s sid t0 :
  first_obs_for s sid t0 = None <->
  forall o, o ∈ meteo_obs_hourly s -> mo_station_id o = sid -> (mo_ts_utc o < t0)%Z.
Proof.
  unfold first_obs_for. rewrite first_asc_None. split.
  - intros H o Ho Hs. destruct (Z.lt_ge_cases (mo_ts_utc o) t0) as [|Hge]; [done|].
    assert (o ∈ filter (fun o => mo_station_id o = sid ∧ (t0 ≤ mo_ts_utc o)%Z)
                       (meteo_obs_hourly s)) as Hin
      by (by apply list_elem_of_filter).
    rewrite H in Hin. by apply not_elem_of_nil in Hin.
  - intros H.
    destruct (filter _ _) as [|x l] eqn:E; [done|].
    assert (x ∈ filter (fun o => mo_station_id o = sid ∧ (t0 ≤ mo_ts_utc o)%Z)
                       (meteo_obs_hourly s)) as Hin
      by (rewrite E; apply list_elem_of_here).
    apply list_elem_of_filter in Hin as [[Hs Ht] Hin].
    specialize (H x Hin Hs). lia.
Qed.

Lemma first_observation_after_Some s station_id t0 t mm :
  _first_observation_after s station_id t0 = Some (t, mm) ->
  exists o,
    o ∈ meteo_obs_hourly s /\ mo_ts_utc o = t /\ mm_eff o = mm
    /\ (t0 <= t)%Z /\ 0 <= mm
    /\ (if bool_decide (strip station_id = "")
        then mo_station_id o = "lfpg_95"
             \/ (mo_station_id o = "lfpg_75"
                 /\ forall o', o' ∈ meteo_obs_hourly s ->
                      mo_station_id o' = "lfpg_95" -> (mo_ts_utc o' < t0)%Z)
        else mo_station_id o = strip station_id)
    /\ forall o', o' ∈ meteo_obs_hourly s -> mo_station_id o' = mo_station_id o ->
         (t0 <= mo_ts_utc o')%Z -> (t <= mo_ts_utc o')%Z.
Proof.
  unfold _first_observation_after. cbn zeta. intros H.
  apply fmap_Some in H as (o & Hf & [= -> ->]).
  exists o.
  assert (Hgen : forall sid, first_obs_for s sid t0 = Some o ->
            o ∈ meteo_obs_hourly s /\ mo_ts_utc o = mo_ts_utc o /\ mm_eff o = mm_eff o
            /\ (t0 <= mo_ts_utc o)%Z /\ 0 <= mm_eff o).
  { intros sid Hs. apply first_obs_for_Some in Hs as (? & ? & ? & ?).
    repeat split; try done. apply mm_eff_nonneg. }
  destruct (bool_decide (strip station_id = "")).
  - cbn [first_some] in Hf.
    destruct (first_obs_for s "lfpg_95" t0) as [o1|] eqn:E1.
    + injection Hf as ->. destruct (Hgen _ E1) as (? & ? & ? & ? & ?).
      apply first_obs_for_Some in E1 as (_ & Hst & _ & Hmin).
      repeat split; try done; [by left|]. intros o' ? Hs'. apply Hmin; congruence.
    + destruct (first_obs_for s "lfpg_75" t0) as [o2|] eqn:E2; [|done].
      injection Hf as ->. destruct (Hgen _ E2) as (? & ? & ? & ? & ?).
      apply first_obs_for_Some in E2 as (_ & Hst & _ & Hmin).
      repeat split; try done.
      * right. split; [done|]. by apply first_obs_for_None.
      * intros o' ? Hs'. apply Hmin; congruence.
  - cbn [first_some] in Hf.
    destruct (first_obs_for s (strip station_id) t0) as [o1|] eqn:E1; [|done].
    injection Hf as ->. destruct (Hgen _ E1) as (? & ? & ? & ? & ?).
    apply first_obs_for_Some in E1 as (_ & Hst & _ & Hmin).
    repeat split; try done. intros o' ? Hs'. apply Hmin; congruence.
Qed.

Lemma first_observation_after_None s station_id t0 :
  _first_observation_after s station_id t0 = None <->
  forall o, o ∈ meteo_obs_hourly s ->
    (if bool_decide (strip station_id = "")
     then mo_station_id o = "lfpg_95" \/ mo_station_id o = "lfpg_75"
     else mo_station_id o = strip station_id) ->
    (mo_ts_utc o < t0)%Z.
Proof.
  unfold _first_observation_after. cbn zeta. rewrite fmap_None.
  destruct (bool_decide (strip station_id = "")); cbn [first_some].
  - split.
    + intros H o Ho Hs.
      destruct (first_obs_for s "lfpg_95" t0) eqn:E1; [done|].
      destruct (first_obs_for s "lfpg_75" t0) eqn:E2; [done|].
      destruct Hs as [Hs|Hs]; [by eapply first_obs_for_None in E1|
                                by eapply first_obs_for_None in E2].
    + intros H.
      assert (first_obs_for s "lfpg_95" t0 = None) as ->
        by (apply first_obs_for_None; intros o ? ?; apply H; [done|by left]).
      assert (first_obs_for s "lfpg_75" t0 = None) as ->
        by (apply first_obs_for_None; intros o ? ?; apply H; [done|by right]).
      done.
  - split.
    + intros H o Ho Hs.
      destruct (first_obs_for s (strip station_id) t0) eqn:E1; [done|].
      by eapply first_obs_for_None in E1.
    + intros H.
      assert (first_obs_for s (strip station_id) t0 = None) as ->
        by (apply first_obs_for_None; intros o ? ?; by apply H).
      done.
Qed.

(** X14: the observation look-up of the resolvers.  A result is the
    instant and effective millimetres of a stored observation that is
    not before the target instant, has non-negative millimetres, is the
    earliest such one of its station, and belongs to the asked station,
    or, for an empty station, to [lfpg_95], or to [lfpg_75] when
    [lfpg_95] has none; and there is no result exactly when no observation
    of these stations is at or after the target instant. *)
Theorem _first_observation_after_spec (s : DB) (station_id : string) (t0 : Z) :
  (forall t mm,
     _first_observation_after s station_id t0 = Some (t, mm) ->
     exists o,
       o ∈ meteo_obs_hourly s /\ mo_ts_utc o = t /\ mm_eff o = mm
       /\ (t0 <= t)%Z /\ 0 <= mm
       /\ (if bool_decide (strip station_id = "")
           then mo_station_id o = "lfpg_95"
                \/ (mo_station_id o = "lfpg_75"
                    /\ forall o', o' ∈ meteo_obs_hourly s ->
                         mo_station_id o' = "lfpg_95" -> (mo_ts_utc o' < t0)%Z)
           else mo_station_id o = strip station_id)
       /\ forall o', o' ∈ meteo_obs_hourly s -> mo_station_id o' = mo_station_id o ->
            (t0 <= mo_ts_utc o')%Z -> (t <= mo_ts_utc o')%Z)
  /\ (_first_observation_after s station_id t0 = None <->
      forall o, o ∈ meteo_obs_hourly s ->
        (if bool_decide (strip station_id = "")
         then mo_station_id o = "lfpg_95" \/ mo_station_id o = "lfpg_75"
         else mo_station_id o = strip station_id) ->
        (mo_ts_utc o < t0)%Z).
Proof.
  split.
  - intros t mm. exact (first_observation_after_Some s station_id t0 t mm).
  - exact (first_observation_after_None s station_id t0).
Qed.


Lemma filter_nil_not_elem {A} (P : A -> Prop) `{forall x, Decision (P x)} (l : list A) :
  filter P l = [] <-> forall x, x ∈ l -> ~ P x.
Proof.
  split.
  - intros E x Hx HP.
    assert (x ∈ filter P l) as Hin by (by apply list_elem_of_filter).
    rewrite E in Hin. by apply not_elem_of_nil in Hin.
  - intros Hno. destruct (filter P l) as [|x l'] eqn:E; [done|].
    assert (x ∈ filter P l) as Hin by (rewrite E; apply list_elem_of_here).
    apply list_elem_of_filter in Hin as [HP Hin]. by destruct (Hno x Hin).
Qed.

Lemma get_observed_humidity_paris_Some env s slot station h :
  get_observed_humidity_paris env s slot station = Some h ->
  let start_utc := paris_to_utc env slot in
  exists o,
    o ∈ humidity_obs s /\ ho_station_id o = station /\ ho_humidity o = h
    /\ (ho_obs_time o <= start_utc + 3599)%Z
    /\ forall o', o' ∈ humidity_obs s -> ho_station_id o' = station ->
         (ho_obs_time o' <= start_utc + 3599)%Z ->
         if (start_utc <=? ho_obs_time o)%Z
         then (start_utc <= ho_obs_time o')%Z -> (ho_obs_time o <= ho_obs_time o')%Z
         else (ho_obs_time o' <= ho_obs_time o)%Z.
Proof.
  unfold get_observed_humidity_paris. cbn zeta.
  set (start_utc := paris_to_utc env slot).
  destruct (first_asc _ _) as [o|] eqn:Ewin.
  - intros [= <-]. apply first_asc_Some in Ewin as [Hin Hmin].
    apply list_elem_of_filter in Hin as [(Hs & H1 & H2) Hin].
    exists o. repeat split; try done.
    intros o' Ho' Hs' He'.
    destruct (Z.leb_spec start_utc (ho_obs_time o)); [|lia].
    intros Hge. apply Hmin. by apply list_elem_of_filter.
  - intros H. apply fmap_Some in H as (o & Hfb & ->).
    apply first_asc_None in Ewin.
    apply first_asc_Some in Hfb as [Hin Hmax].
    apply list_elem_of_filter in Hin as [(Hs & H2) Hin].
    exists o. repeat split; try done.
    intros o' Ho' Hs' He'.
    destruct (Z.leb_spec start_utc (ho_obs_time o)) as [Hge|Hlt].
    + exfalso. eapply (proj1 (filter_nil_not_elem _ _) Ewin o Hin). done.
    + assert (o' ∈ filter (fun o => ho_station_id o = station
                                   ∧ (ho_obs_time o ≤ start_utc + 3599)%Z)
                          (humidity_obs s)) as Hin'
        by (by apply list_elem_of_filter).
      specialize (Hmax o' Hin'). cbn beta in Hmax. lia.
Qed.

Lemma get_observed_humidity_paris_None env s slot station :
  get_observed_humidity_paris env s slot station = None <->
  forall o, o ∈ humidity_obs s -> ho_station_id o = station ->
    (paris_to_utc env slot + 3599 < ho_obs_time o)%Z.
Proof.
  unfold get_observed_humidity_paris. cbn zeta.
  set (start_utc := paris_to_utc env slot).
  split.
  - destruct (first_asc _ _) as [o|] eqn:Ewin; [done|].
    intros H. apply fmap_None in H. apply first_asc_None in H.
    intros o Ho Hs.
    destruct (Z.lt_ge_cases (start_utc + 3599) (ho_obs_time o)) as [|Hle]; [done|].
    exfalso. eapply (proj1 (filter_nil_not_elem _ _) H o Ho). split; [done|lia].
  - intros H.
    assert (E1 : filter (fun o => ho_station_id o = station
                                  ∧ (start_utc ≤ ho_obs_time o)%Z
                                  ∧ (ho_obs_time o ≤ start_utc + 3599)%Z)
                        (humidity_obs s) = []).
    { apply filter_nil_not_elem. intros o Ho (Hs & _ & Hle).
      specialize (H o Ho Hs). lia. }
    assert (E2 : filter (fun o => ho_station_id o = station
                                  ∧ (ho_obs_time o ≤ start_utc + 3599)%Z)
                        (humidity_obs s) = []).
    { apply filter_nil_not_elem. intros o Ho (Hs & Hle).
      specialize (H o Ho Hs). lia. }
    rewrite E1. cbn. unfold first_desc. by rewrite E2.
Qed.

(** X15: the humidity look-up of the hourly resolver.  A result is the
    humidity of a stored observation of the station taken no later than
    the end of the slot's hour: the earliest one inside the hour if
    there is one, else the latest one before the hour.  There is no
    result exactly when every observation of the station is later than
    the end of the hour. *)
Theorem get_observed_humidity_paris_spec (env : Env) (s : DB) (slot : Z)
    (station : string) :
  let start_utc := paris_to_utc env slot in
  (forall h,
     get_observed_humidity_paris env s slot station = Some h ->
     exists o,
       o ∈ humidity_obs s /\ ho_station_id o = station /\ ho_humidity o = h
       /\ (ho_obs_time o <= start_utc + 3599)%Z
       /\ forall o', o' ∈ humidity_obs s -> ho_station_id o' = station ->
            (ho_obs_time o' <= start_utc + 3599)%Z ->
            if (start_utc <=? ho_obs_time o)%Z
            then (start_utc <= ho_obs_time o')%Z -> (ho_obs_time o <= ho_obs_time o')%Z
            else (ho_obs_time o' <= ho_obs_time o)%Z)
  /\ (get_observed_humidity_paris env s slot station = None <->
      forall o, o ∈ humidity_obs s -> ho_station_id o = station ->
        (start_utc + 3599 < ho_obs_time o)%Z).
Proof.
  split.
  - intros h. exact (get_observed_humidity_paris_Some env s slot station h).
  - exact (get_observed_humidity_paris_None env s slot station).
Qed.

(** ** Purchases on the trading overlay *)

Lemma parse_price_pos cands price : _parse_price cands = Some price -> 0 < price.
Proof.
  unfold _parse_price. induction cands as [|c cands IH]; [done|].
  cbn [first_some]. destruct c as [f|]; [|done].
  destruct (Qltb 0 f) eqn:E; [|done]. intros [= <-]. by apply Qltb_lt.
Qed.

Lemma trade_buy_listing_accepted_inv env today now me_id listing_id s s' :
  trade_buy_listing env today now me_id listing_id s = Accepted s' ->
  exists i row price bet_id j b,
    list_find (fun l => bl_id l = listing_id) (bet_listing s) = Some (i, row)
    /\ bl_status row = "OPEN" /\ bl_user_id row <> me_id
    /\ _parse_price [bl_ask_price row; bl_payload_ask_price row] = Some price
    /\ price <= remaining_points env s me_id + (1 # 1000000000)
    /\ bl_payload_bet_id row = Some bet_id /\ bet_id <> 0%Z
    /\ list_find (fun b => pb_id b = bet_id) (ppp_bet_rows s) = Some (j, b)
    /\ pb_status b = "ACTIVE" /\ (today <= pb_bet_date b)%Z
    /\ s' = set_bet_listing
              (fmap (fun l => if (bl_id l =? listing_id)%Z
                              then seal_sold me_id price now l else l))
              (set_ppp_bet_rows
                 (fmap (fun x => if (pb_id x =? bet_id)%Z then sell_to me_id x else x))
                 s).
Proof.
  unfold trade_buy_listing. intros H.
  destruct (list_find _ (bet_listing s)) as [[i row]|] eqn:Hrow; [|done].
  destruct (is_status "OPEN" (bl_status row)) eqn:Hopen; [|done]. cbn [negb] in H.
  destruct (Z.eqb_spec (bl_user_id row) me_id) as [|Hne]; [done|].
  destruct (_parse_price _) as [price|] eqn:Hprice; [|done].
  destruct (Qltb _ price) eqn:Hb; [done|].
  destruct (bl_payload_bet_id row) as [bet_id|] eqn:Hbid; [|done].
  destruct (Z.eqb_spec bet_id 0) as [|Hnz]; [done|].
  destruct (list_find _ (ppp_bet_rows s)) as [[j b]|] eqn:Hbet; [|done].
  destruct (is_status "ACTIVE" (pb_status b)) eqn:Hact; [|done]. cbn [negb] in H.
  destruct (Z.ltb_spec (pb_bet_date b) today); [done|].
  injection H as <-.
  exists i, row, price, bet_id, j, b.
  apply bool_decide_eq_true_1 in Hopen, Hact. apply Qltb_ge in Hb.
  repeat split; done.
Qed.

Lemma trade_buy_listing_sale env today now me_id listing_id s s' :
  trade_buy_listing env today now me_id listing_id s = Accepted s' ->
  exists row price bet_id,
    row ∈ bet_listing s /\ bl_id row = listing_id /\ bl_status row = "OPEN"
    /\ bl_user_id row <> me_id
    /\ bl_payload_bet_id row = Some bet_id
    /\ 0 < price <= remaining_points env s me_id + (1 # 1000000000)
    /\ (forall l, l ∈ bet_listing s' -> bl_id l = listing_id ->
          bl_status l = "SOLD" /\ bl_buyer_id l = Some me_id
          /\ bl_sale_price l = Some price /\ bl_sold_at l = Some now)
    /\ (forall l, l ∈ bet_listing s' -> bl_id l <> listing_id -> l ∈ bet_listing s)
    /\ (forall x, x ∈ ppp_bet_rows s' -> pb_id x = bet_id ->
          pb_user_id x = me_id /\ pb_locked_for_trade x = 0%Z
          /\ pb_funded_from_balance x = Some 0%Z)
    /\ (forall x, x ∈ ppp_bet_rows s' -> pb_id x <> bet_id -> x ∈ ppp_bet_rows s)
    /\ (exists x, x ∈ ppp_bet_rows s' /\ pb_id x = bet_id
                  /\ pb_status x = "ACTIVE" /\ (today <= pb_bet_date x)%Z)
    /\ length (ppp_bet_rows s') = length (ppp_bet_rows s)
    /\ length (bet_listing s') = length (bet_listing s).
Proof.
  intros H.
  apply trade_buy_listing_accepted_inv in H
    as (i & row & price & bet_id & j & b & Hrow & Hopen & Hne & Hprice & Hle
        & Hbid & Hnz & Hbet & Hact & Hdate & ->).
  apply list_find_Some in Hrow as (Hirow & Hid & _).
  apply list_find_Some in Hbet as (Hjb & Hbidb & _).
  exists row, price, bet_id.
  cbn [bet_listing set_bet_listing ppp_bet_rows set_ppp_bet_rows].
  assert (Hl : forall l, l ∈ (fun l => if (bl_id l =? listing_id)%Z
                                        then seal_sold me_id price now l else l)
                               <$> bet_listing s ->
            (bl_id l = listing_id ->
               bl_status l = "SOLD" /\ bl_buyer_id l = Some me_id
               /\ bl_sale_price l = Some price /\ bl_sold_at l = Some now)
            /\ (bl_id l <> listing_id -> l ∈ bet_listing s)).
  { intros l Hl. apply list_elem_of_fmap in Hl as (y & -> & Hy).
    destruct (Z.eqb_spec (bl_id y) listing_id) as [Heq|Hneq]; split; try done;
      intros Hc; by destruct Hc. }
  assert (Hx : forall x, x ∈ (fun x => if (pb_id x =? bet_id)%Z
                                        then sell_to me_id x else x)
                               <$> ppp_bet_rows s ->
            (pb_id x = bet_id ->
               pb_user_id x = me_id /\ pb_locked_for_trade x = 0%Z
               /\ pb_funded_from_balance x = Some 0%Z)
            /\ (pb_id x <> bet_id -> x ∈ ppp_bet_rows s)).
  { intros x Hx. apply list_elem_of_fmap in Hx as (y & -> & Hy).
    destruct (Z.eqb_spec (pb_id y) bet_id) as [Heq|Hneq]; split; try done;
      intros Hc; by destruct Hc. }
  split; [by eapply list_elem_of_lookup_2|].
  do 4 (split; [done|]).
  split; [split; [by eapply parse_price_pos|done]|].
  split; [intros l Hin; by apply Hl|].
  split; [intros l Hin; by apply Hl|].
  split; [intros x Hin; by apply Hx|].
  split; [intros x Hin; by apply Hx|].
  split.
  { exists (sell_to me_id b). split; [|done].
    apply list_elem_of_fmap. exists b. split; [|by eapply list_elem_of_lookup_2].
    destruct (Z.eqb_spec (pb_id b) bet_id) as [|Hneq]; [done|]. by destruct Hneq. }
  by rewrite !length_fmap.
Qed.

Lemma trade_buy_listing_again env today now me_id listing_id s s' :
  trade_buy_listing env today now me_id listing_id s = Accepted s' ->
  forall env' today' now' buyer,
    trade_buy_listing env' today' now' buyer listing_id s' = Rejected "not_open".
Proof.
  intros H env' today' now' buyer.
  apply trade_buy_listing_accepted_inv in H
    as (i & row & price & bet_id & j & b & Hrow & Hopen & Hne & Hprice & Hle
        & Hbid & Hnz & Hbet & Hact & Hdate & ->).
  unfold trade_buy_listing. cbn [bet_listing set_bet_listing].
  clear Hrow Hbet.
  destruct (list_find _ _) as [[k l]|] eqn:Hfind; [|done].
  apply list_find_Some in Hfind as (Hk & Hid & _).
  apply list_elem_of_lookup_2 in Hk. apply list_elem_of_fmap in Hk as (y & -> & Hy).
  destruct (Z.eqb_spec (bl_id y) listing_id) as [Heq|Hneq]; [done|].
  by destruct Hneq.
Qed.

(** X16: an accepted purchase sells an OPEN listing of another user at
    a positive price within the buyer's remaining points.  Afterwards
    every listing with that id is SOLD to the buyer at that price, every
    wager with the listed id belongs to the buyer, unlocked and not
    funded from balance, and still ACTIVE and not expired; every other
    listing and wager is a row of the former state, and no row is added
    or removed. *)
Theorem trade_buy_listing_accepted (env : Env) (today now me_id listing_id : Z)
    (s s' : DB) :
  trade_buy_listing env today now me_id listing_id s = Accepted s' ->
  exists row price bet_id,
    row ∈ bet_listing s /\ bl_id row = listing_id /\ bl_status row = "OPEN"
    /\ bl_user_id row <> me_id
    /\ bl_payload_bet_id row = Some bet_id
    /\ 0 < price <= remaining_points env s me_id + (1 # 1000000000)
    /\ (forall l, l ∈ bet_listing s' -> bl_id l = listing_id ->
          bl_status l = "SOLD" /\ bl_buyer_id l = Some me_id
          /\ bl_sale_price l = Some price /\ bl_sold_at l = Some now)
    /\ (forall l, l ∈ bet_listing s' -> bl_id l <> listing_id -> l ∈ bet_listing s)
    /\ (forall x, x ∈ ppp_bet_rows s' -> pb_id x = bet_id ->
          pb_user_id x = me_id /\ pb_locked_for_trade x = 0%Z
          /\ pb_funded_from_balance x = Some 0%Z)
    /\ (forall x, x ∈ ppp_bet_rows s' -> pb_id x <> bet_id -> x ∈ ppp_bet_rows s)
    /\ (exists x, x ∈ ppp_bet_rows s' /\ pb_id x = bet_id
                  /\ pb_status x = "ACTIVE" /\ (today <= pb_bet_date x)%Z)
    /\ length (ppp_bet_rows s') = length (ppp_bet_rows s)
    /\ length (bet_listing s') = length (bet_listing s).
Proof. exact (trade_buy_listing_sale env today now me_id listing_id s s'). Qed.

Lemma trade_buy_listing_accepted_witness :
  exists s' x,
    trade_buy_listing env_default 5 0 2 3 trade_scn = Accepted s'
    /\ x ∈ ppp_bet_rows s' /\ pb_id x = 7%Z /\ pb_user_id x = 2%Z.
Proof.
  eexists.
  destruct (trade_buy_listing_accepted env_default 5 0 2 3 trade_scn _
              ltac:(vm_compute; reflexivity))
    as (row & price & bet_id & Hrow & _ & _ & _ & Hbid & _ & _ & _ & Hown & _
        & (x & Hx & Hxid & _) & _).
  apply list_elem_of_singleton in Hrow. subst row. injection Hbid as <-.
  exists x. split; [reflexivity|]. split; [exact Hx|]. split; [exact Hxid|].
  exact (proj1 (Hown x Hx Hxid)).
Defined.

(** X17: a listing is sold at most once: after an accepted purchase,
    any further purchase of the same listing, by whoever and whenever,
    is rejected with [not_open]. *)
Theorem trade_buy_listing_sold_once (env : Env) (today now me_id listing_id : Z)
    (s s' : DB) :
  trade_buy_listing env today now me_id listing_id s = Accepted s' ->
  forall env' today' now' buyer,
    trade_buy_listing env' today' now' buyer listing_id s' = Rejected "not_open".
Proof. exact (trade_buy_listing_again env today now me_id listing_id s s'). Qed.

Lemma trade_buy_listing_sold_once_witness :
  exists s',
    trade_buy_listing env_default 5 0 2 3 trade_scn = Accepted s'
    /\ trade_buy_listing env_reconcile 6 100 1 3 s' = Rejected "not_open".
Proof.
  eexists. split; [vm_compute; reflexivity|].
  apply (trade_buy_listing_sold_once env_default 5 0 2 3 trade_scn).
  vm_compute; reflexivity.
Defined.

(** ** Boost purchases and the stock of bolts *)

Lemma users_bolts_spent_refl s s' : users s' = users s -> users_bolts_spent s s'.
Proof.
  intros H v. rewrite H. destruct (users s !! v); [|done].
  repeat split; try done; lia.
Qed.

Lemma users_bolts_spent_trans s1 s2 s3 :
  users_bolts_spent s1 s2 -> users_bolts_spent s2 s3 -> users_bolts_spent s1 s3.
Proof.
  intros H12 H23 v. specialize (H12 v). specialize (H23 v).
  destruct (users s1 !! v), (users s2 !! v), (users s3 !! v); try done.
  destruct H12 as (? & ? & ? & ?), H23 as (? & ? & ? & ?).
  split; [congruence|]. split; [congruence|]. split; [lia|auto].
Qed.

Lemma upd_bolts_spent uid s s1 : upd_bolts uid s = Some s1 -> users_bolts_spent s s1.
Proof.
  unfold upd_bolts. intros H v.
  destruct (users s !! uid) as [u|] eqn:Hu; [|discriminate].
  destruct (Z.ltb_spec 0 (default 0%Z (u_bolts u))) as [Hpos|]; [|discriminate].
  injection H as <-. cbn [users set_users].
  destruct (decide (v = uid)) as [->|Hne].
  - rewrite lookup_insert_eq, Hu. cbn.
    destruct (u_bolts u) as [n|]; cbn in *; repeat split; try done; lia.
  - rewrite lookup_insert_ne by done. destruct (users s !! v); [|done].
    repeat split; try done; lia.
Qed.

Lemma ppp_boost_spent uid req s : users_bolts_spent s (ppp_boost uid req s).1.
Proof.
  destruct (ppp_boost_cases uid req s)
    as [[e ->] | (inc_req & d & s1 & s2 & _ & _ & _ & _ & Hb & Hup & ->)];
    [by apply users_bolts_spent_refl|].
  cbn [fst]. eapply users_bolts_spent_trans; [by eapply upd_bolts_spent|].
  apply users_bolts_spent_refl.
  by destruct (upsert_boost_total _ _ _ _ _ _ _ 0%Z 0%Z "" Hup) as [-> _].
Qed.

Lemma run_boosts_spent reqs : forall s, users_bolts_spent s (run_boosts reqs s).
Proof.
  induction reqs as [|[uid req] reqs IH]; intros s; [by apply users_bolts_spent_refl|].
  unfold run_boosts. cbn [foldl fst snd].
  eapply users_bolts_spent_trans; [apply ppp_boost_spent|apply IH].
Qed.

(** X18: whatever sequence of boost purchases is made, the users stay
    the same, nobody's points or bonus points change, and nobody's stock
    of bolts grows or, if it was not negative, becomes negative. *)
Theorem run_boosts_bolts (reqs : list (Z * BoostRequest)) (s : DB) (v : Z) :
  match users s !! v, users (run_boosts reqs s) !! v with
  | Some u, Some u' =>
      u_points u' = u_points u /\ u_bonus_points u' = u_bonus_points u
      /\ (default 0 (u_bolts u') <= default 0 (u_bolts u))%Z
      /\ ((0 <= default 0 (u_bolts u))%Z -> (0 <= default 0 (u_bolts u'))%Z)
  | None, None => True
  | _, _ => False
  end.
Proof. exact (run_boosts_spent reqs s v). Qed.

(** ** The balance under reconciliation *)

Lemma ledger_points_nonneg s uid : 0 <= ledger_points s uid.
Proof. unfold ledger_points. apply Q.le_max_l. Qed.

Lemma remaining_points_near_ledger env s uid :
  POINTS_RECONCILE env = true -> uid <> 0%Z ->
  Qabs (remaining_points env s uid - ledger_points s uid) <= 1 # 2.
Proof.
  intros Hrec Hne. unfold remaining_points.
  destruct (Z.eqb_spec uid 0) as [|_]; [done|].
  rewrite Hrec. cbn [andb].
  assert (Hself : Qabs (ledger_points s uid - ledger_points s uid) <= 1 # 2)
    by (apply Qabs_Qle_condition; split; lra).
  destruct (points_now s uid) as [p|]; [|done]. cbn zeta.
  destruct (Qltb _ _) eqn:E; [done|]. by apply Qltb_ge in E.
Qed.

(** X19: with [POINTS_RECONCILE] set, the balance shown for a user is
    never further than 0.5 from the ledger recomputed from the tables;
    the ledger itself is never negative, so the balance is at least
    -0.5; and a user without a readable points column gets exactly the
    ledger. *)
Theorem remaining_points_reconciled (env : Env) (s : DB) (uid : Z) :
  POINTS_RECONCILE env = true -> uid <> 0%Z ->
  0 <= ledger_points s uid
  /\ Qabs (remaining_points env s uid - ledger_points s uid) <= 1 # 2
  /\ - (1 # 2) <= remaining_points env s uid
  /\ (points_now s uid = None -> remaining_points env s uid = ledger_points s uid).
Proof.
  intros Hrec Hne.
  pose proof (ledger_points_nonneg s uid) as Hl.
  pose proof (remaining_points_near_ledger env s uid Hrec Hne) as Hnear.
  split; [done|]. split; [done|]. split.
  - apply Qabs_Qle_condition in Hnear as [Hlo _]. lra.
  - intros Hnone. unfold remaining_points.
    destruct (Z.eqb_spec uid 0) as [|_]; [done|]. by rewrite Hnone.
Qed.

Lemma remaining_points_reconciled_witness :
  Qabs (remaining_points env_reconcile trade_scn 1 - ledger_points trade_scn 1) <= 1 # 2.
Proof.
  refine (proj1 (proj2 (remaining_points_reconciled env_reconcile trade_scn 1 _ _))).
  - reflexivity.
  - discriminate.
Defined.

(** ** Listing and withdrawing a wager *)

Lemma next_id_fresh {A} (id : A -> Z) (t : list A) x :
  x ∈ t -> (id x < next_id id t)%Z.
Proof.
  unfold next_id. induction t as [|y t IH]; intros Hx.
  - by apply not_elem_of_nil in Hx.
  - cbn [fmap list_fmap foldr]. apply elem_of_cons in Hx as [->|Hx]; [lia|].
    specialize (IH Hx). cbn [fmap] in IH. lia.
Qed.

Lemma create_listing_row_inv me_id p bet s s' :
  create_listing_row me_id p bet s = Accepted s' ->
  exists stake,
    (match lp_stake p with Some v => Some v | None => pb_amount <$> bet end) = Some stake
    /\ 0 < stake
    /\ stake - (1 # 1000000000) <= default stake (lp_ask_price p)
    /\ (forall b, bet = Some b ->
          existsb (open_listing_of (pb_id b)) (bet_listing s) = false)
    /\ s' = (match bet with
             | Some b => lock_bet (pb_id b) 1
             | None => fun s => s
             end)
              (set_bet_listing
                 (fun t => t ++ [new_listing s me_id (default stake (lp_ask_price p))
                                   (pb_id <$> bet)]) s).
Proof.
  unfold create_listing_row. intros H.
  destruct (match lp_stake p with Some v => Some v | None => pb_amount <$> bet end)
    as [stake|]; [|done].
  destruct (Qleb stake 0) eqn:Hpos; [done|]. apply Qleb_gt in Hpos.
  destruct (Qltb _ _) eqn:Hfloor; [done|]. apply Qltb_ge in Hfloor.
  destruct (match bet with Some b => _ | None => false end) eqn:Hdup; [done|].
  destruct (negb _); [done|].
  exists stake. split; [done|]. split; [done|]. split; [done|].
  split.
  - intros b ->. done.
  - destruct bet; by injection H as <-.
Qed.

Lemma trade_create_listing_inv me_id p s s' :
  trade_create_listing me_id p s = Accepted s' ->
  exists bet,
    create_listing_row me_id p bet s = Accepted s'
    /\ match lp_bet_id p with
       | Missing => bet = None
       | Invalid => False
       | Parsed bet_id =>
           exists i b, bet = Some b
             /\ list_find (fun b => pb_id b = bet_id) (ppp_bet_rows s) = Some (i, b)
             /\ pb_user_id b = me_id /\ pb_status b = "ACTIVE"
       end.
Proof.
  unfold trade_create_listing. intros H.
  destruct (lp_bet_id p) as [| |bet_id]; [by exists None|done|].
  destruct (list_find _ _) as [[i b]|] eqn:Hfind; [|done].
  destruct (Z.eqb_spec (pb_user_id b) me_id) as [Hu|]; [|done].
  destruct (is_status "ACTIVE" (pb_status b)) eqn:Hact; [|done].
  cbn [negb orb] in H. apply bool_decide_eq_true_1 in Hact.
  exists (Some b). split; [done|]. by exists i, b.
Qed.

Lemma lock_bet_rows bet_id v s x :
  x ∈ ppp_bet_rows (lock_bet bet_id v s) ->
  (pb_id x = bet_id -> pb_locked_for_trade x = v)
  /\ (pb_id x <> bet_id -> x ∈ ppp_bet_rows s)
  /\ exists y, y ∈ ppp_bet_rows s /\ pb_id y = pb_id x /\ pb_user_id y = pb_user_id x
               /\ pb_status y = pb_status x /\ pb_amount y = pb_amount x
               /\ pb_odds y = pb_odds x /\ pb_bet_date y = pb_bet_date x
               /\ pb_choice y = pb_choice x
               /\ pb_funded_from_balance y = pb_funded_from_balance x.
Proof.
  unfold lock_bet. cbn [ppp_bet_rows set_ppp_bet_rows]. intros Hx.
  apply list_elem_of_fmap in Hx as (y & -> & Hy).
  destruct (Z.eqb_spec (pb_id y) bet_id) as [Heq|Hne].
  - split; [done|]. split; [intros Hc; by destruct Hc|]. by exists y.
  - split; [done|]. split; [done|]. by exists y.
Qed.

Lemma trade_create_listing_effect me_id p s s' :
  trade_create_listing me_id p s = Accepted s' ->
  exists row stake ask,
    bet_listing s' = bet_listing s ++ [row]
    /\ users s' = users s
    /\ length (ppp_bet_rows s') = length (ppp_bet_rows s)
    /\ bl_status row = "OPEN" /\ bl_user_id row = me_id
    /\ (forall l, l ∈ bet_listing s -> (bl_id l < bl_id row)%Z)
    /\ bl_ask_price row = Some ask /\ bl_payload_ask_price row = Some ask
    /\ bl_buyer_id row = None /\ bl_sale_price row = None
    /\ 0 < stake /\ stake - (1 # 1000000000) <= ask
    /\ match lp_bet_id p with
       | Parsed bet_id =>
           bl_payload_bet_id row = Some bet_id
           /\ (exists b, b ∈ ppp_bet_rows s /\ pb_id b = bet_id
                         /\ pb_user_id b = me_id /\ pb_status b = "ACTIVE"
                         /\ stake = default (pb_amount b) (lp_stake p))
           /\ (forall l, l ∈ bet_listing s -> bl_status l = "OPEN" ->
                         bl_payload_bet_id l <> Some bet_id)
           /\ (forall x, x ∈ ppp_bet_rows s' -> pb_id x = bet_id ->
                         pb_locked_for_trade x = 1%Z)
           /\ (forall x, x ∈ ppp_bet_rows s' -> pb_id x <> bet_id ->
                         x ∈ ppp_bet_rows s)
       | _ =>
           bl_payload_bet_id row = None
           /\ lp_stake p = Some stake
           /\ ppp_bet_rows s' = ppp_bet_rows s
       end.
Proof.
  intros H. apply trade_create_listing_inv in H as (bet & Hrow & Hbet).
  apply create_listing_row_inv in Hrow as (stake & Hstake & Hpos & Hfloor & Hdup & ->).
  exists (new_listing s me_id (default stake (lp_ask_price p)) (pb_id <$> bet)),
         stake, (default stake (lp_ask_price p)).
  assert (Hfresh : forall l, l ∈ bet_listing s ->
            (bl_id l < next_id bl_id (bet_listing s))%Z)
    by (intros l; apply next_id_fresh).
  destruct (lp_bet_id p) as [| |bet_id].
  - subst bet. cbn. repeat split; try done.
    by destruct (lp_stake p).
  - done.
  - destruct Hbet as (i & b & -> & Hfind & Hu & Hact).
    apply list_find_Some in Hfind as (Hi & Hid & _).
    cbn [fmap option_fmap option_map] in *.
    split; [done|]. split; [done|].
    split; [unfold lock_bet; cbn; by rewrite length_fmap|].
    do 9 (split; [done|]).
    rewrite Hid.
    split; [done|]. split.
    { exists b. split; [by eapply list_elem_of_lookup_2|].
      repeat split; try done.
      destruct (lp_stake p); cbn in *; congruence. }
    split.
    { intros l Hl Hopen Hpay.
      specialize (Hdup b eq_refl).
      assert (existsb (open_listing_of (pb_id b)) (bet_listing s) = true) as Hc.
      { apply existsb_elem_of. exists l. split; [done|].
        unfold open_listing_of, is_status. rewrite Hid.
        by rewrite !bool_decide_eq_true_2. }
      congruence. }
    split.
    + intros x Hx. by apply lock_bet_rows in Hx as (? & _).
    + intros x Hx. apply lock_bet_rows in Hx as (_ & Hx & _).
      intros Hne. by apply Hx in Hne.
Qed.

(** X20: an accepted listing request appends one OPEN listing owned by
    the caller with a fresh id, writes no user row and adds or removes
    no wager.  Its price is not below the stake less 1e-9, where the
    stake is positive and is the one the request states, or, when it
    states none, the amount of the listed wager.  For a request that
    names a wager: the wager is an ACTIVE wager of the caller, no OPEN
    listing carried it before, and afterwards it is locked for trade
    while the other wagers are untouched. *)
Theorem trade_create_listing_accepted (me_id : Z) (p : ListingPayload) (s s' : DB) :
  trade_create_listing me_id p s = Accepted s' ->
  exists row stake ask,
    bet_listing s' = bet_listing s ++ [row]
    /\ users s' = users s
    /\ length (ppp_bet_rows s') = length (ppp_bet_rows s)
    /\ bl_status row = "OPEN" /\ bl_user_id row = me_id
    /\ (forall l, l ∈ bet_listing s -> (bl_id l < bl_id row)%Z)
    /\ bl_ask_price row = Some ask /\ bl_payload_ask_price row = Some ask
    /\ bl_buyer_id row = None /\ bl_sale_price row = None
    /\ 0 < stake /\ stake - (1 # 1000000000) <= ask
    /\ match lp_bet_id p with
       | Parsed bet_id =>
           bl_payload_bet_id row = Some bet_id
           /\ (exists b, b ∈ ppp_bet_rows s /\ pb_id b = bet_id
                         /\ pb_user_id b = me_id /\ pb_status b = "ACTIVE"
                         /\ stake = default (pb_amount b) (lp_stake p))
           /\ (forall l, l ∈ bet_listing s -> bl_status l = "OPEN" ->
                         bl_payload_bet_id l <> Some bet_id)
           /\ (forall x, x ∈ ppp_bet_rows s' -> pb_id x = bet_id ->
                         pb_locked_for_trade x = 1%Z)
           /\ (forall x, x ∈ ppp_bet_rows s' -> pb_id x <> bet_id ->
                         x ∈ ppp_bet_rows s)
       | _ =>
           bl_payload_bet_id row = None
           /\ lp_stake p = Some stake
           /\ ppp_bet_rows s' = ppp_bet_rows s
       end.
Proof. exact (trade_create_listing_effect me_id p s s'). Qed.

Lemma trade_create_listing_accepted_witness :
  exists s' row,
    trade_create_listing 1 (listing_payload 7 15) unlisted_scn = Accepted s'
    /\ bet_listing s' = bet_listing unlisted_scn ++ [row]
    /\ bl_status row = "OPEN".
Proof.
  eexists.
  destruct (trade_create_listing_accepted 1 (listing_payload 7 15) unlisted_scn _
              ltac:(vm_compute; reflexivity))
    as (row & stake & ask & Hrows & _ & _ & Hopen & _).
  exists row. split; [reflexivity|]. split; [exact Hrows|exact Hopen].
Defined.

Lemma list_find_snoc_fresh {A} (P : A -> Prop) `{forall x, Decision (P x)}
    (t : list A) (row : A) :
  (forall x, x ∈ t -> ~ P x) -> P row ->
  list_find P (t ++ [row]) = Some (length t, row).
Proof.
  intros Hno Hrow. apply list_find_app_Some. right.
  split; [lia|]. split.
  - apply list_find_None, Forall_forall. exact Hno.
  - rewrite Nat.sub_diag. cbn. by rewrite decide_True.
Qed.

Lemma create_listing_row_dup me_id p b s :
  (exists l, l ∈ bet_listing s /\ bl_status l = "OPEN"
             /\ bl_payload_bet_id l = Some (pb_id b)) ->
  exists msg, create_listing_row me_id p (Some b) s = Rejected msg.
Proof.
  intros (l & Hl & Hopen & Hpay). unfold create_listing_row.
  destruct (match lp_stake p with Some v => Some v | None => _ end) as [stake|];
    [|by eexists].
  destruct (Qleb stake 0); [by eexists|].
  destruct (Qltb _ _); [by eexists|].
  assert (existsb (open_listing_of (pb_id b)) (bet_listing s) = true) as ->.
  { apply existsb_elem_of. exists l. split; [done|].
    unfold open_listing_of, is_status. by rewrite !bool_decide_eq_true_2. }
  by eexists.
Qed.

Lemma trade_create_listing_listed me_id p bet_id s :
  lp_bet_id p = Parsed bet_id ->
  (exists l, l ∈ bet_listing s /\ bl_status l = "OPEN"
             /\ bl_payload_bet_id l = Some bet_id) ->
  exists msg, trade_create_listing me_id p s = Rejected msg.
Proof.
  intros Hp Hdup. unfold trade_create_listing. rewrite Hp.
  destruct (list_find _ _) as [[i b]|] eqn:Hfind; [|by eexists].
  destruct (_ || _); [by eexists|].
  apply list_find_Some in Hfind as (_ & Hid & _). rewrite <- Hid in Hdup.
  by apply create_listing_row_dup.
Qed.

Lemma trade_create_listing_twice me_id p bet_id s s' :
  trade_create_listing me_id p s = Accepted s' ->
  lp_bet_id p = Parsed bet_id ->
  trade_create_listing me_id p s' = Rejected "already_listed"
  /\ forall caller p', lp_bet_id p' = Parsed bet_id ->
       exists msg, trade_create_listing caller p' s' = Rejected msg.
Proof.
  intros H Hp.
  pose proof (trade_create_listing_effect _ _ _ _ H)
    as (row & stake & ask & Hrows & _ & _ & Hopen & _ & _ & _ & _ & _ & _ & _ & _ & Hbet).
  rewrite Hp in Hbet. destruct Hbet as (Hpay & _).
  assert (Hdup : exists l, l ∈ bet_listing s' /\ bl_status l = "OPEN"
                           /\ bl_payload_bet_id l = Some bet_id).
  { exists row. split; [|done]. rewrite Hrows. apply elem_of_app. right.
    apply list_elem_of_here. }
  split; [|intros caller p' Hp'; by apply (trade_create_listing_listed caller p' bet_id)].
  apply trade_create_listing_inv in H as (bet & Hrow & Hb). rewrite Hp in Hb.
  destruct Hb as (i & b & -> & Hfind & Hu & Hact).
  apply create_listing_row_inv in Hrow as (stake' & Hstake & Hpos & Hfloor & _ & Hs').
  cbn [fmap option_fmap option_map] in *.
  pose proof Hfind as Hfind0.
  apply list_find_Some in Hfind0 as (_ & Hid & _).
  unfold trade_create_listing. rewrite Hp.
  assert (Hfind' : list_find (fun b => pb_id b = bet_id) (ppp_bet_rows s')
                   = Some (i, set_locked_for_trade 1 b)).
  { rewrite Hs'. unfold lock_bet. cbn [ppp_bet_rows set_ppp_bet_rows set_bet_listing].
    rewrite Hid. by apply (list_find_update_by_id _ _ (set_locked_for_trade 1)). }
  rewrite Hfind'. cbn [set_locked_for_trade pb_user_id pb_status].
  rewrite Hu, Z.eqb_refl. unfold is_status at 1. rewrite bool_decide_eq_true_2 by done.
  cbn [negb orb]. unfold create_listing_row.
  cbn [fmap option_fmap option_map set_locked_for_trade pb_amount pb_id].
  rewrite Hstake.
  apply Qleb_gt in Hpos. rewrite Hpos.
  apply Qltb_ge in Hfloor. rewrite Hfloor.
  assert (existsb (open_listing_of (pb_id b)) (bet_listing s') = true) as ->; [|done].
  apply existsb_elem_of. destruct Hdup as (l & Hl & Hlo & Hlp). exists l.
  split; [done|]. unfold open_listing_of, is_status. rewrite Hid.
  by rewrite !bool_decide_eq_true_2.
Qed.

(** X21: a wager cannot be listed twice.  After an accepted listing
    request for a wager, the same request again is answered
    [already_listed], and every listing request for that wager, whoever
    makes it and whatever it states, is rejected. *)
Theorem trade_create_listing_once (me_id : Z) (p : ListingPayload) (bet_id : Z)
    (s s' : DB) :
  trade_create_listing me_id p s = Accepted s' ->
  lp_bet_id p = Parsed bet_id ->
  trade_create_listing me_id p s' = Rejected "already_listed"
  /\ forall caller p', lp_bet_id p' = Parsed bet_id ->
       exists msg, trade_create_listing caller p' s' = Rejected msg.
Proof. exact (trade_create_listing_twice me_id p bet_id s s'). Qed.

Lemma trade_create_listing_once_witness :
  exists s',
    trade_create_listing 1 (listing_payload 7 15) unlisted_scn = Accepted s'
    /\ trade_create_listing 1 (listing_payload 7 15) s' = Rejected "already_listed".
Proof.
  eexists. split; [vm_compute; reflexivity|].
  refine (proj1 (trade_create_listing_once 1 (listing_payload 7 15) 7 unlisted_scn _ _ _)).
  - vm_compute. reflexivity.
  - reflexivity.
Defined.

Lemma trade_cancel_listing_inv me_id listing_id s s' :
  trade_cancel_listing me_id listing_id s = Accepted s' ->
  exists i row,
    list_find (fun l => bl_id l = listing_id) (bet_listing s) = Some (i, row)
    /\ bl_user_id row = me_id /\ bl_status row = "OPEN"
    /\ s' = (match bl_payload_bet_id row with
             | Some bet_id => if (bet_id =? 0)%Z then fun s => s else lock_bet bet_id 0
             | None => fun s => s
             end)
              (set_bet_listing
                 (fmap (fun l => if (bl_id l =? listing_id)%Z then cancel_row l else l))
                 s).
Proof.
  unfold trade_cancel_listing. intros H.
  destruct (list_find _ _) as [[i row]|] eqn:Hfind; [|done].
  destruct (Z.eqb_spec (bl_user_id row) me_id) as [Hu|]; [|done].
  destruct (is_status "OPEN" (bl_status row)) eqn:Hopen; [|done].
  cbn [negb] in H. apply bool_decide_eq_true_1 in Hopen.
  exists i, row. repeat split; try done.
  injection H as <-. destruct (bl_payload_bet_id row) as [b|]; [|done].
  by destruct (b =? 0)%Z.
Qed.

Lemma trade_cancel_listing_frame me_id listing_id s s' :
  trade_cancel_listing me_id listing_id s = Accepted s' ->
  users s' = users s
  /\ bet_listing s'
     = (fun l => if (bl_id l =? listing_id)%Z then cancel_row l else l) <$> bet_listing s.
Proof.
  intros H. apply trade_cancel_listing_inv in H as (i & row & _ & _ & _ & ->).
  destruct (bl_payload_bet_id row) as [b|]; [|done]. by destruct (b =? 0)%Z.
Qed.

Lemma trade_cancel_listing_effect me_id listing_id s s' :
  trade_cancel_listing me_id listing_id s = Accepted s' ->
  exists row,
    row ∈ bet_listing s /\ bl_id row = listing_id
    /\ bl_user_id row = me_id /\ bl_status row = "OPEN"
    /\ users s' = users s
    /\ length (bet_listing s') = length (bet_listing s)
    /\ length (ppp_bet_rows s') = length (ppp_bet_rows s)
    /\ (forall l, l ∈ bet_listing s' -> bl_id l = listing_id ->
          bl_status l = "CANCELLED")
    /\ (forall l, l ∈ bet_listing s' -> bl_id l <> listing_id -> l ∈ bet_listing s)
    /\ (forall x, x ∈ ppp_bet_rows s' ->
          match bl_payload_bet_id row with
          | Some bet_id =>
              if (bet_id =? 0)%Z then x ∈ ppp_bet_rows s
              else (pb_id x = bet_id -> pb_locked_for_trade x = 0%Z)
                   /\ (pb_id x <> bet_id -> x ∈ ppp_bet_rows s)
          | None => x ∈ ppp_bet_rows s
          end).
Proof.
  intros H. pose proof (trade_cancel_listing_frame _ _ _ _ H) as [Hus Hls].
  apply trade_cancel_listing_inv in H as (i & row & Hfind & Hu & Hopen & Hs').
  apply list_find_Some in Hfind as (Hi & Hid & _).
  exists row. split; [by eapply list_elem_of_lookup_2|].
  do 4 (split; [done|]).
  split; [by rewrite Hls, length_fmap|].
  split.
  { rewrite Hs'. destruct (bl_payload_bet_id row) as [b|]; [|done].
    destruct (b =? 0)%Z; [done|]. unfold lock_bet. cbn. by rewrite length_fmap. }
  split.
  { intros l Hl Hlid. rewrite Hls in Hl.
    apply list_elem_of_fmap in Hl as (y & -> & Hy).
    destruct (Z.eqb_spec (bl_id y) listing_id) as [|Hne]; [done|]. by destruct Hne. }
  split.
  { intros l Hl Hlid. rewrite Hls in Hl.
    apply list_elem_of_fmap in Hl as (y & -> & Hy).
    destruct (Z.eqb_spec (bl_id y) listing_id) as [Heq|Hne]; [|done]. by destruct Hlid. }
  intros x Hx. rewrite Hs' in Hx.
  destruct (bl_payload_bet_id row) as [b|]; [|done].
  destruct (b =? 0)%Z; [done|].
  apply lock_bet_rows in Hx as (H1 & H2 & _). done.
Qed.

Lemma listing_find_update_by_id (rows : list BetListing) (lid : Z)
    (g : BetListing -> BetListing) i row :
  (forall x, bl_id (g x) = bl_id x) ->
  list_find (fun l => bl_id l = lid) rows = Some (i, row) ->
  list_find (fun l => bl_id l = lid)
    ((fun l => if (bl_id l =? lid)%Z then g l else l) <$> rows)
  = Some (i, g row).
Proof.
  intros Hg Hfind. rewrite list_find_fmap.
  rewrite (list_find_ext _ (fun x => bl_id x = lid)).
  - rewrite Hfind. cbn. apply list_find_Some in Hfind as (_ & Hid & _).
    by rewrite Hid, Z.eqb_refl.
  - intros x. cbn. destruct (bl_id x =? lid)%Z; [by rewrite Hg|done].
Qed.

Lemma trade_cancel_listing_closed me_id listing_id s s' :
  trade_cancel_listing me_id listing_id s = Accepted s' ->
  (forall env today now buyer,
     trade_buy_listing env today now buyer listing_id s' = Rejected "not_open")
  /\ trade_cancel_listing me_id listing_id s' = Rejected "not_open (status=CANCELLED)"
  /\ forall caller, exists msg, trade_cancel_listing caller listing_id s' = Rejected msg.
Proof.
  intros H. pose proof (trade_cancel_listing_frame _ _ _ _ H) as [_ Hls].
  apply trade_cancel_listing_inv in H as (i & row & Hfind & Hu & _ & _).
  assert (Hfind' : list_find (fun l => bl_id l = listing_id) (bet_listing s')
                   = Some (i, cancel_row row))
    by (rewrite Hls; by apply (listing_find_update_by_id _ _ cancel_row)).
  split; [|split].
  - intros. unfold trade_buy_listing. by rewrite Hfind'.
  - unfold trade_cancel_listing. rewrite Hfind'. cbn [cancel_row bl_user_id bl_status].
    by rewrite Hu, Z.eqb_refl.
  - intros caller. unfold trade_cancel_listing. rewrite Hfind'.
    cbn [cancel_row bl_user_id bl_status].
    destruct (negb _); by eexists.
Qed.

(** X22: only the owner can withdraw a listing, and only while it is
    OPEN.  An accepted withdrawal marks the listing CANCELLED, writes no
    user row, adds or removes no row, touches no other listing, and
    unlocks the wager the listing names while leaving the other wagers
    as they were.  Afterwards the listing can be neither bought nor
    withdrawn again. *)
Theorem trade_cancel_listing_accepted (me_id listing_id : Z) (s s' : DB) :
  trade_cancel_listing me_id listing_id s = Accepted s' ->
  (exists row,
     row ∈ bet_listing s /\ bl_id row = listing_id
     /\ bl_user_id row = me_id /\ bl_status row = "OPEN"
     /\ users s' = users s
     /\ length (bet_listing s') = length (bet_listing s)
     /\ length (ppp_bet_rows s') = length (ppp_bet_rows s)
     /\ (forall l, l ∈ bet_listing s' -> bl_id l = listing_id ->
           bl_status l = "CANCELLED")
     /\ (forall l, l ∈ bet_listing s' -> bl_id l <> listing_id -> l ∈ bet_listing s)
     /\ (forall x, x ∈ ppp_bet_rows s' ->
           match bl_payload_bet_id row with
           | Some bet_id =>
               if (bet_id =? 0)%Z then x ∈ ppp_bet_rows s
               else (pb_id x = bet_id -> pb_locked_for_trade x = 0%Z)
                    /\ (pb_id x <> bet_id -> x ∈ ppp_bet_rows s)
           | None => x ∈ ppp_bet_rows s
           end))
  /\ (forall env today now buyer,
        trade_buy_listing env today now buyer listing_id s' = Rejected "not_open")
  /\ trade_cancel_listing me_id listing_id s' = Rejected "not_open (status=CANCELLED)"
  /\ forall caller, exists msg, trade_cancel_listing caller listing_id s' = Rejected msg.
Proof.
  intros H. split.
  - exact (trade_cancel_listing_effect me_id listing_id s s' H).
  - exact (trade_cancel_listing_closed me_id listing_id s s' H).
Qed.

Lemma trade_cancel_listing_accepted_witness :
  exists s',
    trade_cancel_listing 1 3 trade_scn = Accepted s'
    /\ trade_buy_listing env_default 5 0 2 3 s' = Rejected "not_open".
Proof.
  eexists. split; [vm_compute; reflexivity|].
  refine (proj1 (proj2 (trade_cancel_listing_accepted 1 3 trade_scn _ _)) _ _ _ _).
  vm_compute. reflexivity.
Defined.

Lemma trade_buy_then_cancel me_id listing_id env today now s s' :
  trade_buy_listing env today now me_id listing_id s = Accepted s' ->
  forall caller,
    trade_cancel_listing caller listing_id s'
    = Rejected (if negb (default 0%Z
                           (bl_user_id <$>
                              (snd <$> list_find (fun l => bl_id l = listing_id)
                                         (bet_listing s))) =? caller)%Z
                then "forbidden" else "not_open (status=SOLD)").
Proof.
  intros H caller.
  apply trade_buy_listing_accepted_inv in H
    as (i & row & price & bet_id & j & b & Hrow & Hopen & Hne & Hprice & Hle
        & Hbid & Hnz & Hbet & Hact & Hdate & ->).
  unfold trade_cancel_listing. cbn [bet_listing set_bet_listing].
  rewrite (listing_find_update_by_id _ _ (seal_sold me_id price now) i row) by done.
  rewrite Hrow. cbn [seal_sold bl_user_id bl_status fmap option_fmap option_map snd default].
  by destruct (negb _).
Qed.

(** X23: a sold listing cannot be withdrawn: after an accepted purchase
    every withdrawal of that listing is rejected, with [forbidden] for
    anyone but the seller and with [not_open] for the seller; the buyer
    in particular always gets [forbidden]. *)
Theorem trade_sold_listing_not_withdrawn (env : Env) (today now me_id listing_id : Z)
    (s s' : DB) :
  trade_buy_listing env today now me_id listing_id s = Accepted s' ->
  (forall caller, exists msg, trade_cancel_listing caller listing_id s' = Rejected msg)
  /\ trade_cancel_listing me_id listing_id s' = Rejected "forbidden"
  /\ forall seller row,
       row ∈ bet_listing s -> bl_id row = listing_id -> bl_user_id row = seller ->
       NoDup (bl_id <$> bet_listing s) ->
       trade_cancel_listing seller listing_id s' = Rejected "not_open (status=SOLD)".
Proof.
  intros H. pose proof (trade_buy_then_cancel _ _ _ _ _ _ _ H) as Hc.
  pose proof (trade_buy_listing_accepted_inv _ _ _ _ _ _ _ H)
    as (i & row & price & bet_id & j & b & Hrow & Hopen & Hne & _).
  rewrite Hrow in Hc. cbn in Hc.
  split; [intros caller; rewrite Hc; by eexists|].
  split.
  - rewrite Hc. destruct (Z.eqb_spec (bl_user_id row) me_id); done.
  - intros seller row' Hin Hid Hu Hnd. rewrite Hc.
    apply list_find_Some in Hrow as (Hi & Hid' & _).
    assert (row' = row) as ->.
    { eapply (NoDup_fmap_elem_eq bl_id); [done|done|by eapply list_elem_of_lookup_2|].
      congruence. }
    by rewrite Hu, Z.eqb_refl.
Qed.

Lemma trade_sold_listing_not_withdrawn_witness :
  exists s',
    trade_buy_listing env_default 5 0 2 3 trade_scn = Accepted s'
    /\ trade_cancel_listing 2 3 s' = Rejected "forbidden".
Proof.
  eexists. split; [vm_compute; reflexivity|].
  refine (proj1 (proj2 (trade_sold_listing_not_withdrawn env_default 5 0 2 3
                          trade_scn _ _))).
  vm_compute. reflexivity.
Defined.

Lemma fmap_fixed {A} (f : A -> A) (l : list A) :
  (forall x, x ∈ l -> f x = x) -> f <$> l = l.
Proof.
  intros H. rewrite <- (list_fmap_id l) at 2.
  apply Forall_fmap_ext, Forall_forall. exact H.
Qed.

Lemma set_locked_for_trade_undo b :
  pb_locked_for_trade b = 0%Z ->
  set_locked_for_trade 0 (set_locked_for_trade 1 b) = b.
Proof. destruct b. cbn. by intros ->. Qed.

Lemma lock_unlock_rows bet_id (rows : list PPPBet) :
  (forall x, x ∈ rows -> pb_id x = bet_id -> pb_locked_for_trade x = 0%Z) ->
  (fun x => if (pb_id x =? bet_id)%Z then set_locked_for_trade 0 x else x) <$>
    ((fun x => if (pb_id x =? bet_id)%Z then set_locked_for_trade 1 x else x) <$> rows)
  = rows.
Proof.
  intros H. rewrite <- list_fmap_compose. apply fmap_fixed.
  intros x Hx. cbn. destruct (Z.eqb_spec (pb_id x) bet_id) as [Heq|Hne].
  - cbn [set_locked_for_trade pb_id]. rewrite <- Heq at 1. rewrite Z.eqb_refl.
    apply set_locked_for_trade_undo. by apply H.
  - by destruct (Z.eqb_spec (pb_id x) bet_id).
Qed.

Lemma cancel_fresh_row (t : list BetListing) (row : BetListing) :
  (forall l, l ∈ t -> (bl_id l < bl_id row)%Z) ->
  (fun l => if (bl_id l =? bl_id row)%Z then cancel_row l else l) <$> (t ++ [row])
  = t ++ [cancel_row row].
Proof.
  intros Hfresh. rewrite fmap_app. cbn. rewrite Z.eqb_refl. f_equal.
  apply fmap_fixed. intros l Hl. specialize (Hfresh l Hl).
  destruct (Z.eqb_spec (bl_id l) (bl_id row)); [lia|done].
Qed.

Lemma trade_create_then_cancel me_id p bet_id s s1 :
  trade_create_listing me_id p s = Accepted s1 ->
  lp_bet_id p = Parsed bet_id -> bet_id <> 0%Z ->
  (forall x, x ∈ ppp_bet_rows s -> pb_id x = bet_id -> pb_locked_for_trade x = 0%Z) ->
  exists row s2,
    bet_listing s1 = bet_listing s ++ [row]
    /\ trade_cancel_listing me_id (bl_id row) s1 = Accepted s2
    /\ ppp_bet_rows s2 = ppp_bet_rows s
    /\ users s2 = users s
    /\ bet_listing s2 = bet_listing s ++ [cancel_row row]
    /\ exists s3, trade_create_listing me_id p s2 = Accepted s3.
Proof.
  intros H Hp Hnz Hunlocked.
  pose proof (trade_create_listing_inv _ _ _ _ H) as (bet & Hrow & Hb).
  rewrite Hp in Hb. destruct Hb as (i & b & -> & Hfind & Hu & Hact).
  pose proof Hrow as Hrow0.
  apply create_listing_row_inv in Hrow as (stake & Hstake & Hpos & Hfloor & Hdup & Hs1).
  pose proof Hfind as Hfind0. apply list_find_Some in Hfind0 as (_ & Hid & _).
  cbn [fmap option_fmap option_map] in *.
  set (row := new_listing s me_id (default stake (lp_ask_price p)) (Some (pb_id b))) in *.
  assert (Hfresh : forall l, l ∈ bet_listing s -> (bl_id l < bl_id row)%Z)
    by (intros l; apply next_id_fresh).
  assert (Hl1 : bet_listing s1 = bet_listing s ++ [row]) by (by rewrite Hs1).
  assert (Hfindrow : list_find (fun l => bl_id l = bl_id row) (bet_listing s1)
                     = Some (length (bet_listing s), row)).
  { rewrite Hl1. apply list_find_snoc_fresh; [|done].
    intros l Hl. specialize (Hfresh l Hl). lia. }
  set (s2 := lock_bet bet_id 0
               (set_bet_listing
                  (fmap (fun l => if (bl_id l =? bl_id row)%Z then cancel_row l else l))
                  s1)).
  assert (Hcancel : trade_cancel_listing me_id (bl_id row) s1 = Accepted s2).
  { unfold trade_cancel_listing. rewrite Hfindrow.
    cbn [row new_listing bl_user_id bl_status bl_payload_bet_id].
    rewrite Z.eqb_refl. cbn [negb]. unfold is_status.
    rewrite bool_decide_eq_true_2 by done. cbn [negb].
    rewrite Hid. destruct (Z.eqb_spec bet_id 0); [done|]. done. }
  assert (Hrows2 : ppp_bet_rows s2 = ppp_bet_rows s).
  { unfold s2, lock_bet. cbn [ppp_bet_rows set_ppp_bet_rows set_bet_listing].
    rewrite Hs1. unfold lock_bet. cbn [ppp_bet_rows set_ppp_bet_rows set_bet_listing].
    rewrite Hid. by apply lock_unlock_rows. }
  assert (Hl2 : bet_listing s2 = bet_listing s ++ [cancel_row row]).
  { unfold s2, lock_bet. cbn [bet_listing set_ppp_bet_rows set_bet_listing].
    rewrite Hl1. by apply cancel_fresh_row. }
  assert (Hus : users s2 = users s) by (unfold s2; rewrite Hs1; reflexivity).
  exists row, s2. do 5 (split; [assumption|]).
  unfold trade_create_listing. rewrite Hp, Hrows2, Hfind, Hu, Z.eqb_refl.
  unfold is_status at 1. rewrite bool_decide_eq_true_2 by done. cbn [negb orb].
  unfold create_listing_row in *.
  cbn [fmap option_fmap option_map] in *.
  rewrite Hstake in *.
  destruct (Qleb stake 0); [done|].
  destruct (Qltb _ _); [done|].
  assert (existsb (open_listing_of (pb_id b)) (bet_listing s2) = false) as ->.
  { rewrite Hl2, existsb_app, (Hdup b eq_refl). cbn. reflexivity. }
  rewrite (Hdup b eq_refl) in Hrow0.
  destruct (negb _); [done|]. by eexists.
Qed.

(** X24: listing a wager and withdrawing the listing is a round trip.
    When the wager named by an accepted listing request was not locked,
    the owner's withdrawal of the new listing is accepted and gives back
    the table of wagers and the users exactly as they were; the only
    trace is the CANCELLED listing, and the same listing request is
    accepted again. *)
Theorem trade_create_cancel_round_trip (me_id : Z) (p : ListingPayload) (bet_id : Z)
    (s s1 : DB) :
  trade_create_listing me_id p s = Accepted s1 ->
  lp_bet_id p = Parsed bet_id -> bet_id <> 0%Z ->
  (forall x, x ∈ ppp_bet_rows s -> pb_id x = bet_id -> pb_locked_for_trade x = 0%Z) ->
  exists row s2,
    bet_listing s1 = bet_listing s ++ [row]
    /\ trade_cancel_listing me_id (bl_id row) s1 = Accepted s2
    /\ ppp_bet_rows s2 = ppp_bet_rows s
    /\ users s2 = users s
    /\ bet_listing s2 = bet_listing s ++ [cancel_row row]
    /\ exists s3, trade_create_listing me_id p s2 = Accepted s3.
Proof. exact (trade_create_then_cancel me_id p bet_id s s1). Qed.

Lemma trade_create_cancel_round_trip_witness :
  exists s1 row s2,
    trade_create_listing 1 (listing_payload 7 15) unlisted_scn = Accepted s1
    /\ trade_cancel_listing 1 (bl_id row) s1 = Accepted s2
    /\ ppp_bet_rows s2 = ppp_bet_rows unlisted_scn.
Proof.
  eexists.
  destruct (trade_create_cancel_round_trip 1 (listing_payload 7 15) 7 unlisted_scn _
              ltac:(vm_compute; reflexivity) ltac:(reflexivity) ltac:(discriminate))
    as (row & s2 & _ & Hc & Hrows & _).
  - intros x Hx _. apply list_elem_of_singleton in Hx. by subst x.
  - exists row, s2. split; [reflexivity|]. split; [exact Hc|exact Hrows].
Defined.

Lemma trade_create_then_buy env today now me_id p bet_id ask buyer s s1 :
  trade_create_listing me_id p s = Accepted s1 ->
  lp_bet_id p = Parsed bet_id -> bet_id <> 0%Z ->
  lp_ask_price p = Some ask -> 0 < ask ->
  buyer <> me_id ->
  ask <= remaining_points env s1 buyer + (1 # 1000000000) ->
  (forall b, b ∈ ppp_bet_rows s -> pb_id b = bet_id -> (today <= pb_bet_date b)%Z) ->
  exists row s2,
    bet_listing s1 = bet_listing s ++ [row]
    /\ trade_buy_listing env today now buyer (bl_id row) s1 = Accepted s2
    /\ users s2 = users s
    /\ forall x, x ∈ ppp_bet_rows s2 -> pb_id x = bet_id ->
         pb_user_id x = buyer /\ pb_locked_for_trade x = 0%Z
         /\ pb_funded_from_balance x = Some 0%Z.
Proof.
  intros H Hp Hnz Hask Hpos Hne Hfunds Hdate.
  pose proof (trade_create_listing_inv _ _ _ _ H) as (bet & Hrow & Hb).
  rewrite Hp in Hb. destruct Hb as (i & b & -> & Hfind & Hu & Hact).
  apply create_listing_row_inv in Hrow as (stake & Hstake & _ & _ & _ & Hs1).
  pose proof Hfind as Hfind0. apply list_find_Some in Hfind0 as (Hi & Hid & _).
  cbn [fmap option_fmap option_map] in *.
  rewrite Hask in Hs1. cbn [default] in Hs1.
  set (row := new_listing s me_id ask (Some (pb_id b))) in *.
  assert (Hfresh : forall l, l ∈ bet_listing s -> (bl_id l < bl_id row)%Z)
    by (intros l; apply next_id_fresh).
  assert (Hl1 : bet_listing s1 = bet_listing s ++ [row]) by (by rewrite Hs1).
  assert (Hfindrow : list_find (fun l => bl_id l = bl_id row) (bet_listing s1)
                     = Some (length (bet_listing s), row)).
  { rewrite Hl1. apply list_find_snoc_fresh; [|done].
    intros l Hl. specialize (Hfresh l Hl). lia. }
  assert (Hfind1 : list_find (fun b => pb_id b = bet_id) (ppp_bet_rows s1)
                   = Some (i, set_locked_for_trade 1 b)).
  { rewrite Hs1. unfold lock_bet. cbn [ppp_bet_rows set_ppp_bet_rows set_bet_listing].
    rewrite Hid. by apply (list_find_update_by_id _ _ (set_locked_for_trade 1)). }
  assert (Hbuy : exists s2,
            trade_buy_listing env today now buyer (bl_id row) s1 = Accepted s2).
  { unfold trade_buy_listing. rewrite Hfindrow.
    cbn [row new_listing bl_user_id bl_status bl_payload_bet_id bl_ask_price
         bl_payload_ask_price].
    unfold is_status at 1. rewrite bool_decide_eq_true_2 by done. cbn [negb].
    destruct (Z.eqb_spec me_id buyer) as [Heq|_]; [by destruct Hne|].
    unfold _parse_price. cbn [first_some].
    apply Qltb_lt in Hpos. rewrite Hpos.
    apply Qltb_ge in Hfunds. rewrite Hfunds.
    rewrite Hid. destruct (Z.eqb_spec bet_id 0); [done|].
    rewrite Hfind1. cbn [set_locked_for_trade pb_status pb_bet_date].
    unfold is_status. rewrite bool_decide_eq_true_2 by done. cbn [negb].
    assert (today <= pb_bet_date b)%Z
      by (apply Hdate; [by eapply list_elem_of_lookup_2|done]).
    destruct (Z.ltb_spec (pb_bet_date b) today); [lia|]. by eexists. }
  destruct Hbuy as [s2 Hbuy]. exists row, s2.
  split; [done|]. split; [done|].
  split.
  { rewrite (trade_buy_listing_users _ _ _ _ _ _ _ Hbuy). by rewrite Hs1. }
  pose proof (trade_buy_listing_sale _ _ _ _ _ _ _ Hbuy)
    as (row' & price & bid' & Hin' & Hid' & _ & _ & Hpay' & _ & _ & _ & Hown & _).
  assert (row' = row) as ->.
  { rewrite Hl1 in Hin'. apply elem_of_app in Hin' as [Hin'|Hin'].
    - specialize (Hfresh row' Hin'). lia.
    - by apply list_elem_of_singleton in Hin'. }
  cbn [row new_listing bl_payload_bet_id] in Hpay'. injection Hpay' as <-.
  rewrite <- Hid. exact Hown.
Qed.

(** X25: a listed wager can be bought.  After an accepted listing
    request that names a wager and a positive price, a purchase of the
    new listing by another user who has the price in remaining points is
    accepted as long as the wager's date is not past; the wager then
    belongs to the buyer, unlocked and not funded from balance, and no
    user row was written by the two requests. *)
Theorem trade_listed_wager_is_buyable (env : Env) (today now me_id : Z)
    (p : ListingPayload) (bet_id : Z) (ask : Q) (buyer : Z) (s s1 : DB) :
  trade_create_listing me_id p s = Accepted s1 ->
  lp_bet_id p = Parsed bet_id -> bet_id <> 0%Z ->
  lp_ask_price p = Some ask -> 0 < ask ->
  buyer <> me_id ->
  ask <= remaining_points env s1 buyer + (1 # 1000000000) ->
  (forall b, b ∈ ppp_bet_rows s -> pb_id b = bet_id -> (today <= pb_bet_date b)%Z) ->
  exists row s2,
    bet_listing s1 = bet_listing s ++ [row]
    /\ trade_buy_listing env today now buyer (bl_id row) s1 = Accepted s2
    /\ users s2 = users s
    /\ forall x, x ∈ ppp_bet_rows s2 -> pb_id x = bet_id ->
         pb_user_id x = buyer /\ pb_locked_for_trade x = 0%Z
         /\ pb_funded_from_balance x = Some 0%Z.
Proof. exact (trade_create_then_buy env today now me_id p bet_id ask buyer s s1). Qed.

Lemma trade_listed_wager_is_buyable_witness :
  exists s1 row s2,
    trade_create_listing 1 (listing_payload 7 15) unlisted_scn = Accepted s1
    /\ trade_buy_listing env_default 5 0 2 (bl_id row) s1 = Accepted s2
    /\ users s2 = users unlisted_scn.
Proof.
  eexists.
  destruct (trade_listed_wager_is_buyable env_default 5 0 1 (listing_payload 7 15) 7 15 2
              unlisted_scn _
              ltac:(vm_compute; reflexivity) ltac:(reflexivity) ltac:(discriminate)
              ltac:(reflexivity) ltac:(reflexivity) ltac:(discriminate))
    as (row & s2 & _ & Hbuy & Hus & _).
  - apply Qle_bool_iff. vm_compute. reflexivity.
  - intros b Hb _. apply list_elem_of_singleton in Hb. subst b. cbn. lia.
  - exists row, s2. split; [reflexivity|]. split; [exact Hbuy|exact Hus].
Defined.

(** ** Gifts in private messages *)

Lemma parse_gift_pos m cmd amt : parse_gift m = Some (cmd, amt) -> 0 < amt.
Proof.
  unfold parse_gift. destruct m as [[c a]|]; [|done].
  destruct (Qltb 0 a) eqn:E; [|done]. intros [= _ <-]. by apply Qltb_lt.
Qed.

Lemma add_points_row uid p s v :
  users (add_points uid p s) !! v
  = if decide (v = uid)
    then (fun u => {| u_points := Some (or_zero (u_points u) + p);
                      u_bonus_points := u_bonus_points u;
                      u_bolts := u_bolts u |}) <$> users s !! uid
    else users s !! v.
Proof.
  unfold add_points. cbn [users set_users].
  destruct (decide (v = uid)) as [->|Hne].
  - by rewrite lookup_alter_eq.
  - by rewrite lookup_alter_ne.
Qed.

Lemma chat_send_effect frm_id req s s' :
  chat_send frm_id req s = Accepted s' ->
  cr_to req <> 0%Z /\ is_Some (users s !! cr_to req)
  /\ match parse_gift (cr_gift req) with
     | Some (cmd, amt) =>
         let target := match cmd with ToYou => cr_to req | ToMe => frm_id end in
         0 < amt
         /\ (forall v, v <> target -> users s' !! v = users s !! v)
         /\ (forall u, users s !! target = Some u ->
               users s' !! target
               = Some {| u_points := Some (or_zero (u_points u) + amt);
                         u_bonus_points := u_bonus_points u;
                         u_bolts := u_bolts u |})
         /\ (users s !! target = None -> users s' !! target = None)
     | None => s' = s
     end.
Proof.
  unfold chat_send. cbn zeta. intros H.
  destruct (Z.eqb_spec (cr_to req) 0) as [|Hnz]; [done|]. cbn [orb] in H.
  destruct (cr_body_blank req); [done|].
  destruct (_ && _); [done|].
  destruct (users s !! cr_to req) as [u0|] eqn:Hto; [|done].
  injection H as <-. split; [done|]. split; [done|].
  destruct (parse_gift (cr_gift req)) as [[cmd amt]|] eqn:Hg; [|done].
  apply parse_gift_pos in Hg. cbn zeta. split; [done|].
  unfold credit_points_exact.
  destruct cmd.
  - split; [|split].
    + intros v Hv. rewrite add_points_row. by rewrite decide_False.
    + intros u Hu. rewrite add_points_row, decide_True by done. by rewrite Hu.
    + intros Hu. rewrite add_points_row, decide_True by done. by rewrite Hu.
  - split; [|split].
    + intros v Hv. rewrite add_points_row. by rewrite decide_False.
    + intros u Hu. rewrite add_points_row, decide_True by done. by rewrite Hu.
    + intros Hu. rewrite add_points_row, decide_True by done. by rewrite Hu.
Qed.

(** X26: what a private message does to the balances.  An accepted
    message without a gift code changes nothing.  With a gift code of
    amount [amt], positive, exactly one user row is written: the
    recipient's for [toyou], the sender's own for [tome]; its points grow
    by [amt] and no other row changes.  So a [toyou] gift costs its
    sender nothing, and a [tome] message credits its sender. *)
Theorem chat_send_gift_credits (frm_id : Z) (req : ChatRequest) (s s' : DB) :
  chat_send frm_id req s = Accepted s' ->
  cr_to req <> 0%Z /\ is_Some (users s !! cr_to req)
  /\ match parse_gift (cr_gift req) with
     | Some (cmd, amt) =>
         let target := match cmd with ToYou => cr_to req | ToMe => frm_id end in
         0 < amt
         /\ (forall v, v <> target -> users s' !! v = users s !! v)
         /\ (forall u, users s !! target = Some u ->
               users s' !! target
               = Some {| u_points := Some (or_zero (u_points u) + amt);
                         u_bonus_points := u_bonus_points u;
                         u_bolts := u_bolts u |})
         /\ (users s !! target = None -> users s' !! target = None)
     | None => s' = s
     end.
Proof. exact (chat_send_effect frm_id req s s'). Qed.

Lemma chat_send_gift_credits_witness :
  exists s',
    chat_send 1 {| cr_to := 2; cr_body_blank := false; cr_tome_prefix := false;
                   cr_gift := Some (ToYou, 30) |} trade_scn = Accepted s'
    /\ users s' !! 1%Z = users trade_scn !! 1%Z.
Proof.
  eexists. split; [vm_compute; reflexivity|].
  pose proof (chat_send_gift_credits 1
                {| cr_to := 2; cr_body_blank := false; cr_tome_prefix := false;
                   cr_gift := Some (ToYou, 30) |} trade_scn _ eq_refl)
    as (_ & _ & Hg).
  cbn in Hg. destruct Hg as (_ & Hother & _).
  apply Hother. discriminate.
Defined.

(** ** Wager on a drawing *)

Lemma update_last_snoc {A} (p : A -> bool) (f : A -> A) (t : list A) (x : A) :
  p x = true -> update_last p f (t ++ [x]) = t ++ [f x].
Proof.
  intros Hx. induction t as [|y t IH].
  - cbn. by rewrite Hx.
  - cbn [app update_last].
    assert (existsb p (t ++ [x]) = true) as ->
      by (rewrite existsb_app; cbn; rewrite Hx; by rewrite orb_true_r).
    rewrite andb_false_r. by rewrite IH.
Qed.

Lemma art_stake_ge_1 raw : 1 <= inject_Z (art_stake raw).
Proof.
  unfold art_stake. change 1 with (inject_Z 1). rewrite <- Zle_Qle. lia.
Qed.

Lemma api_comment_effect env uid req s s' :
  api_comment env uid req s = Accepted s' ->
  let stake := inject_Z (art_stake (ar_stake req)) in
  let payout := if ar_is_win req then stake * 13 else 0 in
  1 <= stake
  /\ stake <= remaining_points env s uid + (1 # 1000000)
  /\ art_bets s' = art_bets s ++ [{| ab_user_id := uid; ab_amount := stake;
                                     ab_payout := payout |}]
  /\ art_net s' uid == art_net s uid + (payout - stake)
  /\ (forall v, v <> uid -> users s' !! v = users s !! v)
  /\ (forall u, users s !! uid = Some u ->
        exists u', users s' !! uid = Some u'
          /\ or_zero (u_points u') == default 500 (u_points u) + (payout - stake)
          /\ u_bonus_points u' = u_bonus_points u
          /\ u_bolts u' = if ar_is_win req then Some (default 0 (u_bolts u) + 1)%Z
                          else u_bolts u)
  /\ ppp_bet_rows s' = ppp_bet_rows s /\ wet_bets s' = wet_bets s
  /\ bet_listing s' = bet_listing s /\ ppp_boosts s' = ppp_boosts s.
Proof.
  unfold api_comment. cbn zeta. intros H.
  pose proof (art_stake_ge_1 (ar_stake req)) as Hge.
  set (stake := inject_Z (art_stake (ar_stake req))) in *.
  destruct (Qltb _ stake) eqn:Hb; [done|]. apply Qltb_ge in Hb.
  injection H as <-.
  split; [done|]. split; [done|].
  destruct (ar_is_win req).
  - assert (Qltb 0 (stake * 13) = true) as -> by (apply Qltb_lt; lra).
    split.
    { unfold add_bolt, set_last_payout, credit_art, debit_points.
      cbn [art_bets set_art_bets set_users].
      by rewrite update_last_snoc by apply Z.eqb_refl. }
    split.
    { unfold add_bolt, set_last_payout, credit_art, debit_points, art_net.
      cbn [art_bets set_art_bets set_users].
      rewrite update_last_snoc by apply Z.eqb_refl. cbn [ab_user_id ab_amount].
      rewrite sum_where_app, sum_where_cons, sum_where_nil.
      cbn [ab_user_id ab_amount ab_payout]. rewrite Z.eqb_refl. lra. }
    split.
    { intros v Hv. unfold add_bolt, set_last_payout, credit_art, debit_points.
      cbn [users set_art_bets set_users]. by rewrite !lookup_alter_ne. }
    split; [|done].
    intros u Hu. unfold add_bolt, set_last_payout, credit_art, debit_points.
    cbn [users set_art_bets set_users]. rewrite !lookup_alter_eq, Hu. cbn.
    eexists. split; [reflexivity|]. cbn. split; [lra|done].
  - assert (Qltb 0 0 = false) as -> by reflexivity.
    split; [done|].
    split.
    { unfold debit_points, art_net. cbn [art_bets set_art_bets set_users].
      rewrite sum_where_app, sum_where_cons, sum_where_nil.
      cbn [ab_user_id ab_amount ab_payout]. rewrite Z.eqb_refl. lra. }
    split.
    { intros v Hv. unfold debit_points.
      cbn [users set_art_bets set_users]. by rewrite !lookup_alter_ne. }
    split; [|done].
    intros u Hu. unfold debit_points.
    cbn [users set_art_bets set_users]. rewrite !lookup_alter_eq, Hu. cbn.
    eexists. split; [reflexivity|]. cbn. split; [lra|done].
Qed.

(** X27: the accounting of a wager on a drawing.  The stake charged is
    a whole number of points, at least 1 whatever the request states,
    and within the caller's remaining points (plus 1e-6).  One history
    row (stake, payout) is appended, with payout 13 times the stake on a
    win and 0 otherwise.  The caller's stored points and the ledger term
    [art_net] move by the same net amount, payout less stake; a win adds
    one bolt; nobody else's row and no other table changes. *)
Theorem api_comment_accounting (env : Env) (uid : Z) (req : ArtRequest) (s s' : DB) :
  api_comment env uid req s = Accepted s' ->
  let stake := inject_Z (art_stake (ar_stake req)) in
  let payout := if ar_is_win req then stake * 13 else 0 in
  1 <= stake
  /\ stake <= remaining_points env s uid + (1 # 1000000)
  /\ art_bets s' = art_bets s ++ [{| ab_user_id := uid; ab_amount := stake;
                                     ab_payout := payout |}]
  /\ art_net s' uid == art_net s uid + (payout - stake)
  /\ (forall v, v <> uid -> users s' !! v = users s !! v)
  /\ (forall u, users s !! uid = Some u ->
        exists u', users s' !! uid = Some u'
          /\ or_zero (u_points u') == default 500 (u_points u) + (payout - stake)
          /\ u_bonus_points u' = u_bonus_points u
          /\ u_bolts u' = if ar_is_win req then Some (default 0 (u_bolts u) + 1)%Z
                          else u_bolts u)
  /\ ppp_bet_rows s' = ppp_bet_rows s /\ wet_bets s' = wet_bets s
  /\ bet_listing s' = bet_listing s /\ ppp_boosts s' = ppp_boosts s.
Proof. exact (api_comment_effect env uid req s s'). Qed.

Lemma api_comment_accounting_witness :
  exists s',
    api_comment env_default 1 {| ar_stake := 0; ar_is_win := true |} trade_scn
    = Accepted s'
    /\ art_net s' 1 == art_net trade_scn 1 + (1 * 13 - 1).
Proof.
  eexists. split; [vm_compute; reflexivity|].
  pose proof (api_comment_accounting env_default 1 {| ar_stake := 0; ar_is_win := true |}
                trade_scn _ eq_refl) as (_ & _ & _ & Hnet & _).
  exact Hnet.
Defined.

(** ** Dropping a station *)

Lemma sum_where_none {A} (P : A -> bool) (f : A -> Q) (t : list A) :
  (forall x, x ∈ t -> P x = false) -> sum_where P f t == 0.
Proof.
  induction t as [|x t IH]; intros H; [reflexivity|].
  rewrite sum_where_cons, (H x) by apply list_elem_of_here.
  rewrite IH; [lra|]. intros y Hy. apply H. by apply list_elem_of_further.
Qed.

Lemma delete_my_station_rows uid sid s :
  (forall b, b ∈ ppp_bet_rows (delete_my_station uid sid s) <->
             b ∈ ppp_bet_rows s /\ ~ (pb_user_id b = uid /\ pb_station_id b = Some sid))
  /\ (forall b, b ∈ ppp_boosts (delete_my_station uid sid s) <->
                b ∈ ppp_boosts s /\ ~ (bo_user_id b = uid /\ bo_station_id b = Some sid)).
Proof.
  unfold delete_my_station.
  cbn [ppp_bet_rows ppp_boosts set_ppp_boosts set_ppp_bet_rows].
  split; intros b; rewrite list_elem_of_filter; tauto.
Qed.

Lemma filter_twice {A} (P : A -> Prop) `{forall x, Decision (P x)} (l : list A) :
  filter P (filter P l) = filter P l.
Proof.
  induction l as [|x l IH]; [done|].
  destruct (decide (P x)) as [Hx|Hx].
  - rewrite (filter_cons_True _ _ _ Hx), (filter_cons_True _ _ _ Hx). by rewrite IH.
  - by rewrite (filter_cons_False _ _ _ Hx).
Qed.

Lemma delete_my_station_twice uid sid s :
  delete_my_station uid sid (delete_my_station uid sid s) = delete_my_station uid sid s.
Proof.
  unfold delete_my_station, set_ppp_boosts, set_ppp_bet_rows. cbn.
  by rewrite !filter_twice.
Qed.

Lemma delete_my_station_boost_total uid sid s d :
  sid <> "" -> boost_total (delete_my_station uid sid s) uid d sid == 0.
Proof.
  intros Hsid. rewrite boost_total_eq. apply sum_where_none.
  intros b Hb. apply delete_my_station_rows in Hb as [_ Hkeep].
  unfold boost_key. destruct (Z.eqb_spec (bo_user_id b) uid) as [Hu|]; [|done].
  destruct (bo_bet_date b =? d)%Z; [|done]. cbn [andb].
  apply bool_decide_eq_false_2. intros Hc.
  destruct (bo_station_id b) as [x|] eqn:Hx; cbn in Hc; [|by destruct Hsid].
  apply Hkeep. by subst x.
Qed.

(** X28: dropping a station deletes the caller's wagers and boosts on
    exactly that station, whatever their status, and gives nothing
    back: a wager or boost survives exactly when it is another user's or
    on another station, the users' rows (points included) are untouched,
    the caller's boost aggregate for a named station is 0 afterwards, and
    dropping the station again changes nothing further. *)
Theorem delete_my_station_spec (uid : Z) (sid : string) (s : DB) :
  let s' := delete_my_station uid sid s in
  (forall b, b ∈ ppp_bet_rows s' <->
             b ∈ ppp_bet_rows s /\ ~ (pb_user_id b = uid /\ pb_station_id b = Some sid))
  /\ (forall b, b ∈ ppp_boosts s' <->
                b ∈ ppp_boosts s /\ ~ (bo_user_id b = uid /\ bo_station_id b = Some sid))
  /\ users s' = users s
  /\ wet_bets s' = wet_bets s /\ bet_listing s' = bet_listing s
  /\ (forall d, sid <> "" -> boost_total s' uid d sid == 0)
  /\ delete_my_station uid sid s' = s'.
Proof.
  cbn zeta. pose proof (delete_my_station_rows uid sid s) as [Hr Hb].
  split; [exact Hr|]. split; [exact Hb|]. do 3 (split; [reflexivity|]).
  split.
  - intros d Hsid. by apply delete_my_station_boost_total.
  - apply delete_my_station_twice.
Qed.

(** ** Hourly odds table and station aliases *)

Lemma dict_get_Some_elem {V} (d : list (Z * V)) k v :
  dict_get d k = Some v -> (k, v) ∈ d.
Proof.
  induction d as [|[k' v'] d IH]; [done|]. cbn [dict_get].
  destruct (Z.eqb_spec k' k) as [->|].
  - intros [= ->]. apply list_elem_of_here.
  - intros H. apply list_elem_of_further. by apply IH.
Qed.

Lemma wet_odds_in_range h o :
  wet_odds_for_offset h = Some o -> (1 <= h <= 48)%Z.
Proof.
  intros H. apply dict_get_Some_elem in H.
  assert (Hall : forallb (fun kv : Z * Q => (1 <=? kv.1)%Z && (kv.1 <=? 48)%Z) WET_ODDS
                 = true) by (vm_compute; reflexivity).
  rewrite forallb_forall in Hall. apply list_elem_of_In in H.
  specialize (Hall _ H). cbn in Hall. lia.
Qed.

Lemma wet_odds_table h1 h2 :
  (1 <= h1)%Z -> (h1 <= h2)%Z -> (h2 <= 48)%Z -> wet_odds_le h1 h2 = true.
Proof.
  intros H1 H12 H2.
  assert (Hall : forallb (fun a => forallb (fun b => implb (a <=? b)%Z (wet_odds_le a b))
                                     (seqZ 1 48)) (seqZ 1 48) = true)
    by (vm_compute; reflexivity).
  rewrite forallb_forall in Hall.
  assert (Hin1 : In h1 (seqZ 1 48)) by (apply list_elem_of_In, elem_of_seqZ; lia).
  assert (Hin2 : In h2 (seqZ 1 48)) by (apply list_elem_of_In, elem_of_seqZ; lia).
  specialize (Hall h1 Hin1). rewrite forallb_forall in Hall.
  specialize (Hall h2 Hin2).
  destruct (Z.leb_spec h1 h2); [exact Hall|lia].
Qed.

(** X29: the hourly odds table answers exactly for the offsets 1 to 48
    hours, and on them it never decreases with the offset and stays
    between 1.6 and 2.5. *)
Theorem wet_odds_for_offset_monotone :
  (forall h, wet_odds_for_offset h = None <-> (h < 1 \/ 48 < h)%Z)
  /\ (forall h1 h2 o1 o2,
        (h1 <= h2)%Z ->
        wet_odds_for_offset h1 = Some o1 -> wet_odds_for_offset h2 = Some o2 ->
        16 # 10 <= o1 /\ o1 <= o2 /\ o2 <= 25 # 10).
Proof.
  split.
  - intros h. split.
    + intros Hnone.
      destruct (Z.lt_ge_cases h 1) as [|H1]; [by left|].
      destruct (Z.lt_ge_cases 48 h) as [|H2]; [by right|].
      pose proof (wet_odds_table h h H1 (Z.le_refl h) H2) as Hc.
      unfold wet_odds_le in Hc. by rewrite Hnone in Hc.
    + intros Hout. destruct (wet_odds_for_offset h) as [o|] eqn:E; [|done].
      apply wet_odds_in_range in E. lia.
  - intros h1 h2 o1 o2 H12 E1 E2.
    pose proof (wet_odds_in_range _ _ E1) as [H1 _].
    pose proof (wet_odds_in_range _ _ E2) as [_ H2].
    pose proof (wet_odds_table h1 h2 H1 H12 H2) as Hc.
    unfold wet_odds_le in Hc. rewrite E1, E2 in Hc.
    apply andb_true_iff in Hc as [Hc Hc3]. apply andb_true_iff in Hc as [Hc1 Hc2].
    apply Qle_bool_iff in Hc1, Hc2, Hc3. done.
Qed.

Lemma alias_get_cases s a :
  alias_get PPP_STATION_ALIAS s = Some a ->
  a = "cdg_07157" /\ (s = "lfpg_75" \/ s = "lfpg_95").
Proof.
  cbn. destruct (bool_decide_reflect ("lfpg_75" = s)) as [<-|_].
  - intros [= <-]. split; [done|by left].
  - destruct (bool_decide_reflect ("lfpg_95" = s)) as [<-|_]; [|done].
    intros [= <-]. split; [done|by right].
Qed.

Lemma dedup_ids_single s : s <> "" -> dedup_ids [s] = [s].
Proof.
  intros Hs. unfold dedup_ids. cbn [foldl fst snd].
  rewrite (bool_decide_eq_false_2 _ Hs). cbn [negb andb].
  rewrite bool_decide_eq_true_2 by set_solver. reflexivity.
Qed.

Lemma ppp_source_ids_cases scope :
  let s := strip (default "" scope) in
  _ppp_source_ids scope
  = if bool_decide (s = "") then ["cdg_07157"]
    else if bool_decide (s = "lfpg_75") || bool_decide (s = "lfpg_95")
         then [s; "cdg_07157"] else [s].
Proof.
  cbn zeta. unfold _ppp_source_ids. cbn zeta.
  set (s := strip (default "" scope)).
  destruct (bool_decide_reflect (s = "")) as [Hs|Hs].
  - rewrite Hs. reflexivity.
  - destruct (alias_get PPP_STATION_ALIAS s) as [a|] eqn:Ha.
    + apply alias_get_cases in Ha as [-> [->| ->]]; reflexivity.
    + cbn [app]. rewrite dedup_ids_single by done.
      assert (bool_decide (s = "lfpg_75") = false) as ->.
      { apply bool_decide_eq_false_2. intros ->. discriminate Ha. }
      assert (bool_decide (s = "lfpg_95") = false) as ->.
      { apply bool_decide_eq_false_2. intros ->. discriminate Ha. }
      reflexivity.
Qed.

(** X30: the list of observation sources of a scope is never empty,
    holds no empty id and no id twice, and has at most two ids.  For a
    blank scope it is the default station alone; otherwise it starts
    with the stripped scope, followed by the default station exactly
    when the scope is one of the two aliased ids. *)
Theorem _ppp_source_ids_spec (scope : option string) :
  let s := strip (default "" scope) in
  let ids := _ppp_source_ids scope in
  ids <> [] /\ NoDup ids /\ ("" ∉ ids) /\ (length ids <= 2)%nat
  /\ (s = "" -> ids = ["cdg_07157"])
  /\ (s <> "" -> head ids = Some s
               /\ (ids = [s; "cdg_07157"] <-> (s = "lfpg_75" \/ s = "lfpg_95"))
               /\ (ids = [s] <-> ~ (s = "lfpg_75" \/ s = "lfpg_95"))).
Proof.
  cbn zeta. rewrite ppp_source_ids_cases. cbn zeta.
  set (s := strip (default "" scope)).
  assert (Hnd2 : forall x : string, x <> "cdg_07157" -> NoDup [x; "cdg_07157"]).
  { intros x Hx. apply NoDup_cons_2; [|apply NoDup_singleton].
    intros Hin. apply list_elem_of_singleton in Hin. by apply Hx. }
  assert (Hne1 : forall x : string, x <> "" -> "" ∉ [x]).
  { intros x Hx Hin. apply list_elem_of_singleton in Hin. by apply Hx. }
  assert (Hne2 : forall x : string, x <> "" -> "" ∉ [x; "cdg_07157"]).
  { intros x Hx Hin. apply elem_of_cons in Hin as [Hin|Hin]; [by apply Hx|].
    apply list_elem_of_singleton in Hin. discriminate Hin. }
  destruct (bool_decide_reflect (s = "")) as [Hs|Hs].
  - split; [discriminate|]. split; [apply NoDup_singleton|].
    split; [apply Hne1; discriminate|].
    split; [cbn; lia|]. split; [reflexivity|]. intros Hc. contradiction.
  - destruct (bool_decide_reflect (s = "lfpg_75")) as [H75|H75];
      [|destruct (bool_decide_reflect (s = "lfpg_95")) as [H95|H95]]; cbn [orb].
    + split; [discriminate|]. split; [apply Hnd2; rewrite H75; discriminate|].
      split; [by apply Hne2|]. split; [cbn; lia|].
      split; [intros Hc; contradiction|]. intros _.
      split; [reflexivity|]. split.
      * split; [intros _; left; exact H75|reflexivity].
      * split; [discriminate|]. intros Hn. exfalso. apply Hn. left. exact H75.
    + split; [discriminate|]. split; [apply Hnd2; rewrite H95; discriminate|].
      split; [by apply Hne2|]. split; [cbn; lia|].
      split; [intros Hc; contradiction|]. intros _.
      split; [reflexivity|]. split.
      * split; [intros _; right; exact H95|reflexivity].
      * split; [discriminate|]. intros Hn. exfalso. apply Hn. right. exact H95.
    + split; [discriminate|]. split; [apply NoDup_singleton|].
      split; [by apply Hne1|]. split; [cbn; lia|].
      split; [intros Hc; contradiction|]. intros _.
      split; [reflexivity|]. split.
      * split; [discriminate|]. intros [Hc|Hc]; contradiction.
      * split; [intros _ [Hc|Hc]; contradiction|reflexivity].
Qed.
